(** * RNAseq mapping pipeline: file discovery, command assembly and the
      generated job-array script of [script.rnaseq_map.py].

    The development is a shallow embedding of the Python source.

    - Python strings are Rocq strings, one character standing for one code
      point below 256; iterables are lists; [sorted] is a merge sort on the
      code-point order, which has a single sorted arrangement of a list.
    - [pathlib] paths are a root and a list of components; a directory is
      its path together with the names of its entries, in the order in which
      the operating system lists them.
    - The generator [assemble_commands] is a small writer monad whose output
      is the sequence of yielded strings.
    - The script that [main] generates is the text of its template, with
      [textwrap.dedent] applied.  The [commands] dictionary of a task is
      what Python reads from that text: the assignments are read line by
      line, each command as the single-quoted literal that the template
      makes of it, and the reading is left open where it would take the
      whole grammar of Python.
    - The run body of the script is a state-and-exception monad over a
      trace of observable events (lines printed, calls of
      [subprocess.run]), in an environment that says which files exist and
      whether a program can be started.

    - [main] and its helpers [get_output] and [run] are a second
      state-and-exception monad, over an environment that says how a path
      resolves, what a directory lists, and how [which], the writing of the
      script (which may fail before or after the file is opened) and [qsub]
      end.

    The parsing of the command line by [click] is not part of the model:
    [main] takes its four options as they arrive, given or not. *)

From Stdlib Require Import Ascii String.
From stdpp Require Import gmap strings list sorting pretty.

Local Open Scope stdpp_scope.

(** ** Python string primitives *)

Module Py.

(** The newline character, as a string. *)
Definition LF : string := String "010" EmptyString.

(** [str.isspace] on the code points below 256: TAB..CR, FS..US, space,
    NEL and NBSP. *)
Definition is_space (c : ascii) : bool :=
  let n := N_of_ascii c in
  (((9 <=? n) && (n <=? 13)) || ((28 <=? n) && (n <=? 32))
   || (n =? 133) || (n =? 160))%N.

Fixpoint forallb_str (p : ascii → bool) (s : string) : bool :=
  match s with
  | EmptyString => true
  | String c s' => p c && forallb_str p s'
  end.

(** A string without any whitespace character. *)
Definition ws_free (s : string) : bool := forallb_str (λ c, negb (is_space c)) s.

Definition flush (word : string) : list string :=
  match word with
  | EmptyString => []
  | _ => [word]
  end.

(** [s.split()] without arguments: maximal runs of non-whitespace. *)
Fixpoint split_go (word : string) (s : string) : list string :=
  match s with
  | EmptyString => flush word
  | String c s' =>
      if is_space c then flush word ++ split_go EmptyString s'
      else split_go (word +:+ String c EmptyString) s'
  end.

Definition split (s : string) : list string := split_go EmptyString s.

(** [s.split(sep)] for a one-character separator: never empty. *)
Fixpoint split_on (sep : ascii) (s : string) : list string :=
  match s with
  | EmptyString => [EmptyString]
  | String c s' =>
      if Ascii.eqb c sep then EmptyString :: split_on sep s'
      else match split_on sep s' with
           | w :: ws => String c w :: ws
           | [] => [String c EmptyString]
           end
  end.

(** [sep.join(l)]. *)
Definition join (sep : string) (l : list string) : string := String.concat sep l.

(** [l.index(x)]: position of the first element equal to [x]. *)
Fixpoint index (x : string) (l : list string) : option nat :=
  match l with
  | [] => None
  | y :: l' => if String.eqb y x then Some 0 else S <$> index x l'
  end.

(** [s.startswith(p)] and the remainder after a prefix. *)
Fixpoint startswith (p s : string) : bool :=
  match p, s with
  | EmptyString, _ => true
  | String a p', String b s' => Ascii.eqb a b && startswith p' s'
  | String _ _, EmptyString => false
  end.

Fixpoint drop (n : nat) (s : string) : string :=
  match n, s with
  | S k, String _ s' => drop k s'
  | _, _ => s
  end.

(** [re.sub(pattern, repl, s)] for a pattern without empty matches.
    [match_at rest] is the length of the match of the pattern that starts
    at the head of [rest], if there is one; matches are taken leftmost and
    do not overlap: [skip] counts the characters of the current match that
    are still to be consumed. *)
Fixpoint sub_go (match_at : string → option nat) (repl : string)
    (skip : nat) (s : string) : string :=
  match s with
  | EmptyString => EmptyString
  | String c s' =>
      match skip with
      | S k => sub_go match_at repl k s'
      | O =>
          match match_at s with
          | Some (S k) => repl +:+ sub_go match_at repl k s'
          | _ => String c (sub_go match_at repl 0 s')
          end
      end
  end.

Definition re_sub (match_at : string → option nat) (repl s : string) : string :=
  sub_go match_at repl 0 s.

(** The regular expression [fastq$]: the literal at the very end of the
    string, or just before a final newline. *)
Definition match_fastq_end (rest : string) : option nat :=
  if String.eqb rest "fastq" || String.eqb rest ("fastq" +:+ LF)
  then Some 5 else None.

(** The regular expression [_R[12]_]. *)
Definition match_read_marker (rest : string) : option nat :=
  if startswith "_R1_" rest || startswith "_R2_" rest then Some 4 else None.

(** [fnmatch] for patterns made of literal characters, [*] and [?]. *)
Fixpoint fnmatch (pat name : string) : bool :=
  match pat with
  | EmptyString => match name with EmptyString => true | _ => false end
  | String p pat' =>
      if Ascii.eqb p "*" then
        (fix star (n : string) : bool :=
           fnmatch pat' n
           || match n with
              | EmptyString => false
              | String _ n' => star n'
              end) name
      else
        match name with
        | EmptyString => false
        | String c name' =>
            (Ascii.eqb p "?" || Ascii.eqb p c) && fnmatch pat' name'
        end
  end.

(** [sorted(l)] on strings: ascending lexicographic order of the code
    points ([String.le] is [String.leb], the comparison of [String.compare]). *)
Definition sorted (l : list string) : list string := merge_sort String.le l.

End Py.


(** ** Pure POSIX paths ([pathlib.PurePosixPath]) *)

Module Path.

(** A parsed path: the root ([""], ["/"] or ["//"]) and the components. *)
Record t := mk { root : string; parts : list string }.

Global Instance eq_dec : EqDecision t.
Proof. solve_decision. Defined.

Definition is_component (s : string) : bool :=
  negb (String.eqb s "") && negb (String.eqb s ".").

(** Two leading slashes are kept, any other number collapses to one. *)
Definition parse_root (s : string) : string :=
  if Py.startswith "///" s then "/"
  else if Py.startswith "//" s then "//"
  else if Py.startswith "/" s then "/"
  else "".

(** [Path(s)]: empty and [.] components are dropped. *)
Definition parse (s : string) : t :=
  mk (parse_root s) (List.filter is_component (Py.split_on "/" s)).

(** [str(p)]. *)
Definition str (p : t) : string :=
  match root p, parts p with
  | EmptyString, [] => "."
  | r, ps => r +:+ Py.join "/" ps
  end.

(** [p.name]: the last component, or the empty string. *)
Definition name (p : t) : string := List.last (parts p) "".

(** [p / s]: an absolute right operand replaces the left one. *)
Definition div (p : t) (s : string) : t :=
  let q := parse s in
  match root q with
  | EmptyString => mk (root p) (parts p ++ parts q)
  | _ => q
  end.

(** The child of a directory for one of its entries, as [glob] builds it:
    the entry name is appended as it is. *)
Definition child (p : t) (entry : string) : t :=
  mk (root p) (parts p ++ [entry]).

End Path.

(** ** File discovery *)

(** A directory of the file system: its path and the names of its entries,
    in the order the operating system lists them.  A directory that does not
    exist has no entries. *)
Record Directory := { dir_path : Path.t; entries : list string }.

(** [dir.glob(pattern)]: the children whose name matches, one level deep. *)
Definition glob (dir : Directory) (pattern : string) : list Path.t :=
  Path.child (dir_path dir) <$> List.filter (Py.fnmatch pattern) (entries dir).

(** [zip] stops at the end of the shorter list. *)
Definition find_paired (dir : Directory) : list (string * string) :=
  let R1 := glob dir "*R1_paired*" in
  let R2 := glob dir "*R2_paired*" in
  zip (Py.sorted (Path.str <$> R1)) (Py.sorted (Path.str <$> R2)).

Definition find_unpaired (dir : Directory) (already_paired : list string)
    : list string :=
  let already_paired : gset string := list_to_set already_paired in
  Path.str <$>
    List.filter (λ f, bool_decide (Path.str f ∉ already_paired))
                (glob dir "*trimmed.fastq").

(** [itertools.chain.from_iterable] on a list of pairs. *)
Definition chain_from_iterable (pairs : list (string * string)) : list string :=
  flat_map (λ p, [p.1; p.2]) pairs.

(** The dictionary returned by [search_files], with its two keys. *)
Record FilePairing := { paired : list (string * string); unpaired : list string }.

Definition search_files (data_path : Directory) : FilePairing :=
  let pairs := find_paired data_path in
  let loners := find_unpaired data_path (chain_from_iterable pairs) in
  {| paired := pairs; unpaired := loners |}.

(** ** Command assembly *)

(** Generators: a computation that yields strings along the way. *)
Module Gen.

Definition t (A : Type) : Type := A * list string.

Definition ret {A} (a : A) : t A := (a, []).

Definition bind {A B} (m : t A) (k : A → t B) : t B :=
  let '(a, out1) := m in
  let '(b, out2) := k a in
  (b, out1 ++ out2).

Definition yield (s : string) : t unit := (tt, [s]).

(** [for x in l: body x]. *)
Fixpoint for_ {A} (l : list A) (body : A → t unit) : t unit :=
  match l with
  | [] => ret tt
  | x :: l' => bind (body x) (λ _, for_ l' body)
  end.

(** [list(g)]: everything the generator yields, in order. *)
Definition to_list {A} (g : t A) : list string := g.2.

End Gen.

Notation "m ;;; k" := (Gen.bind m (λ _, k))
  (at level 100, k at level 200, right associativity).

(** The file name of the alignment of an unpaired read file. *)
Definition unpaired_out_filename (unpaired_f : string) : string :=
  Py.re_sub Py.match_fastq_end "sam" (Path.name (Path.parse unpaired_f)).

(** The file name of the alignment of a pair, from its first file. *)
Definition paired_out_filename (p1 : string) : string :=
  let out_filename := Py.re_sub Py.match_read_marker "_" (Path.name (Path.parse p1)) in
  Py.re_sub Py.match_fastq_end "sam" out_filename.

(** [str(output_path / out_filename)]. *)
Definition output_file (output_path : Path.t) (out_filename : string) : string :=
  Path.str (Path.div output_path out_filename).

Definition unpaired_command (idx_prefix : string) (output_path : Path.t)
    (unpaired_f : string) : string :=
  let out_filename := unpaired_out_filename unpaired_f in
  let S := output_file output_path out_filename in
  "hisat2 --dta -x " +:+ idx_prefix +:+ " -U " +:+ unpaired_f +:+ " -S " +:+ S.

Definition paired_command (idx_prefix : string) (output_path : Path.t)
    (p : string * string) : string :=
  let '(p1, p2) := p in
  let out_filename := paired_out_filename p1 in
  let S := output_file output_path out_filename in
  "hisat2 --dta -x " +:+ idx_prefix +:+ " -1 " +:+ p1 +:+ " -2 " +:+ p2
    +:+ " -S " +:+ S.

Definition assemble_commands (files : FilePairing)
    (idx_prefix : string) (output_path : string) : Gen.t unit :=
  let output_path := Path.parse output_path in
  let loners := unpaired files in
  Gen.for_ loners (λ unpaired_f,
    Gen.yield (unpaired_command idx_prefix output_path unpaired_f)) ;;;
  let pairs := paired files in
  Gen.for_ pairs (λ p,
    Gen.yield (paired_command idx_prefix output_path p)).

(** ** The generated job-array script *)

(** The double quote, as a string. *)
Definition DQ : string := String "034" EmptyString.

(** [textwrap.dedent]. *)
Module Textwrap.

Definition is_blank (c : ascii) : bool :=
  Ascii.eqb c " " || Ascii.eqb c "009".

(** The leading run of spaces and tabs of a line. *)
Fixpoint indent_of (l : string) : string :=
  match l with
  | String c l' => if is_blank c then String c (indent_of l') else EmptyString
  | EmptyString => EmptyString
  end.

Fixpoint lstrip (l : string) : string :=
  match l with
  | String c l' => if is_blank c then lstrip l' else l
  | EmptyString => EmptyString
  end.

(** Lines made of spaces and tabs only are emptied first. *)
Definition normalize (l : string) : string :=
  if Py.forallb_str is_blank l then EmptyString else l.

Fixpoint common_prefix (a b : string) : string :=
  match a, b with
  | String x a', String y b' =>
      if Ascii.eqb x y then String x (common_prefix a' b') else EmptyString
  | _, _ => EmptyString
  end.

(** The margin: the longest common leading whitespace of the lines that
    are not blank, none if there is no such line. *)
Definition margin (ls : list string) : option string :=
  match indent_of <$> List.filter (λ l, negb (String.eqb l "")) ls with
  | [] => None
  | i :: rest => Some (fold_left common_prefix rest i)
  end.

Definition remove_margin (m l : string) : string :=
  if Py.startswith m l then Py.drop (String.length m) l else l.

Definition dedent (text : string) : string :=
  let ls := normalize <$> Py.split_on "010" text in
  match margin ls with
  | Some m => Py.join Py.LF (remove_margin m <$> ls)
  | None => Py.join Py.LF ls
  end.

End Textwrap.

(** [enumerate(l)]. *)
Definition enumerate {A} (l : list A) : list (nat * A) := imap (λ i x, (i, x)) l.

(** The assignment statement of the generated script for one command. *)
Definition command_entry (e : nat * string) : string :=
  "commands[" +:+ pretty (e.1 + 1) +:+ "]='" +:+ e.2 +:+ "'".

Definition commands_str (commands : list string) : string :=
  Py.join (Py.LF +:+ "    ") (command_entry <$> enumerate commands).

(** The scheduler directives at the head of the script, line by line as the
    template has them. *)
Definition header_lines (python3_exec_path ram : string)
    (commands : list string) : list string :=
    [
      "    #! " +:+ python3_exec_path;
      "    ";
      "    # Run through this shell";
      "    #$ -S " +:+ python3_exec_path;
      "    ";
      "    # Use current working directory";
      "    #$ -cwd";
      "    ";
      "    # Join stdout and stderr";
      "    #$ -j y";
      "    ";
      "    # If modules are needed, source modules environment (Do not delete the next line):";
      "    #. /etc/profile.d/modules.sh";
      "    ";
      "    # Name the job array";
      "    #$ -N rnaseq_map";
      "    ";
      "    # Pass environment";
      "    #$ -V";
      "    ";
      "    # Specify available RAM per process, per core.";
      "    #$ -l vf=" +:+ ram +:+ "G";
      "    ";
      "    # Use as many jobs as needed";
      "    #$ -t 1-" +:+ pretty (length commands)
    ].

(** The rest of the template: documentation, the embedded commands and the
    run body. *)
Definition body_lines (commands : list string) : list string :=
    [
      "    ";
      "    ";
      "    '''";
      "    ";
      "    Paralell mapping jobs";
      "    ---------------------";
      "    ";
      "    The current script was autogenerated with the ";
      "    file `script.rnaseq_map.py`, look there for documentation.";
      "";
      "    '''";
      "    import os";
      "    import subprocess";
      "    import maya";
      "    from pathlib import Path";
      "    ";
      "    ";
      "    # The commands to be executed";
      "    commands = dict()";
      "    " +:+ commands_str commands;
      "    ";
      "    # Fetch the job id";
      "    task_id = int( os.environ['SGE_TASK_ID'] )";
      "    ";
      "    # Fetch the command corresponding to the current job";
      "    command = commands[task_id]";
      "    ";
      "    # Get the name of the output file for the current job";
      "    output_file = command.split()[command.split().index(" +:+ DQ +:+ "-S" +:+ DQ +:+ ") + 1]";
      "    ";
      "    # Execute the job";
      "    if Path(output_file).exists():";
      "        print(f'Task {task_id}. Output file already exists:', output_file, flush=True)";
      "    ";
      "    else:";
      "        print(f'Task {task_id}. Executing command @', maya.now(), ':', command, flush=True)";
      "";
      "        subprocess.run(command.split()) # <-- Here it is executed, splitting is ";
      "                                        #     necessary to pass the arguments ";
      "                                        #     appropriately                            ";
      "        print(f'Task {task_id}. Finished execution @', maya.now(), flush=True)";
      "    "
    ].

Definition script_template (python3_exec_path ram : string)
    (commands : list string) : string :=
  Py.join Py.LF (header_lines python3_exec_path ram commands ++ body_lines commands).

Definition script_contents (python3_exec_path ram : string)
    (commands : list string) : string :=
  Textwrap.dedent (script_template python3_exec_path ram commands).

(** ** How Python reads the generated script

    The commands are put between single quotes without any escaping, so
    what a task finds in its dictionary is what Python reads from the text
    of the script, not what was assembled.  The reading below follows the
    script line by line and covers what can be decided without the whole
    grammar of Python; it is [Unknown] everywhere else. *)
Module Script.

(** The outcome of reading: a value, a script that Python rejects before
    running any of it, or a script that this reading does not cover. *)
Inductive reading (A : Type) :=
| Value (a : A)
| SyntaxError
| Unknown.
Arguments Value {A} a.
Arguments SyntaxError {A}.
Arguments Unknown {A}.

Definition printable (c : ascii) : bool :=
  (32 <=? N_of_ascii c)%N && (N_of_ascii c <=? 126)%N.

(** The characters of the scripts that are read: printable ASCII and the
    line feed.  Other characters (a carriage return, a null character, a
    character whose bytes depend on the encoding) are not covered. *)
Definition text_char (c : ascii) : bool := printable c || Ascii.eqb c "010".

(** The characters that a single-quoted literal spells as themselves:
    printable ASCII other than the quote and the backslash. *)
Definition plain_char (c : ascii) : bool :=
  printable c && negb (Ascii.eqb c "'") && negb (Ascii.eqb c "092").

Definition text (s : string) : bool := Py.forallb_str text_char s.

Definition plain (s : string) : bool := Py.forallb_str plain_char s.

Fixpoint lstrip_spaces (s : string) : string :=
  match s with
  | String c s' => if Ascii.eqb c " " then lstrip_spaces s' else s
  | EmptyString => EmptyString
  end.

(** The rest of a line that holds nothing more, or a comment. *)
Definition comment_or_end (s : string) : bool :=
  match lstrip_spaces s with
  | EmptyString => true
  | String c _ => Ascii.eqb c "#"
  end.

(** What may follow a statement on its line without being part of it:
    nothing, a comment, or a semicolon followed by nothing or a comment. *)
Definition closes_statement (rest : string) : bool :=
  comment_or_end rest
  || match lstrip_spaces rest with
     | String c r => Ascii.eqb c ";" && comment_or_end r
     | EmptyString => false
     end.

(** A rest of line whose last character is a quote that opens a literal
    which the line does not close: no comment and no other literal before
    it could hold that quote. *)
Fixpoint opens_literal (rest : string) : bool :=
  match rest with
  | EmptyString => false
  | String c r =>
      if Ascii.eqb c "'" then String.eqb r ""
      else plain_char c && negb (Ascii.eqb c "034") && negb (Ascii.eqb c "#")
           && opens_literal r
  end.

(** The text of a line after an opening quote, read as the rest of a
    single-quoted literal: the literal ends at the first quote, and spells
    the characters before it when they are plain. *)
Fixpoint read_literal (acc t : string) : reading string :=
  match t with
  | EmptyString => SyntaxError
  | String c t' =>
      if Ascii.eqb c "'" then
        if closes_statement t' then Value acc
        else if opens_literal t' then SyntaxError
        else Unknown
      else if plain_char c then read_literal (acc +:+ String c EmptyString) t'
      else Unknown
  end.

Definition digit_value (c : ascii) : option N :=
  if (48 <=? N_of_ascii c)%N && (N_of_ascii c <=? 57)%N
  then Some (N_of_ascii c - 48)%N else None.

Fixpoint dec_go (acc : N) (s : string) : option N :=
  match s with
  | EmptyString => Some acc
  | String c s' =>
      match digit_value c with
      | Some d => dec_go (acc * 10 + d) s'
      | None => None
      end
  end.

(** A key: a decimal number as [str] writes it, without leading zeros. *)
Definition parse_key (digits : string) : option Z :=
  match dec_go 0 digits with
  | Some k => if String.eqb (pretty k) digits then Some (Z.of_N k) else None
  | None => None
  end.

Fixpoint span_digits (s : string) : string * string :=
  match s with
  | String c s' =>
      match digit_value c with
      | Some _ => let '(d, r) := span_digits s' in (String c d, r)
      | None => (EmptyString, s)
      end
  | EmptyString => (EmptyString, EmptyString)
  end.

(** A line [commands[k]='...'] at the left margin.  Three quotes in a row
    after the equals sign open a literal that may run over the lines that
    follow: such a line is not covered. *)
Definition parse_assignment (line : string) : reading (Z * string) :=
  if Py.startswith "commands[" line then
    let '(digits, rest) := span_digits (Py.drop 9 line) in
    match parse_key digits with
    | Some k =>
        if Py.startswith "]='" rest && negb (Py.startswith "]='''" rest) then
          match read_literal "" (Py.drop 3 rest) with
          | Value v => Value (k, v)
          | SyntaxError => SyntaxError
          | Unknown => Unknown
          end
        else Unknown
    | None => Unknown
    end
  else Unknown.

(** The assignments are read in order, each into the dictionary that the
    lines before it have built; the reading ends at the first line that is
    not read as an assignment. *)
Fixpoint assignments (block : list string) (d : gmap Z string)
    : reading (gmap Z string) :=
  match block with
  | [] => Value d
  | l :: block' =>
      match parse_assignment l with
      | Value (k, v) => assignments block' (<[k := v]> d)
      | SyntaxError => SyntaxError
      | Unknown => Unknown
      end
  end.

(** A line without a statement: empty, or a comment at the left margin. *)
Definition comment_or_blank (l : string) : bool :=
  match l with
  | EmptyString => true
  | String c _ => Ascii.eqb c "#"
  end.

Fixpoint skip (p : string → bool) (ls : list string) : list string :=
  match ls with
  | l :: ls' => if p l then skip p ls' else ls
  | [] => []
  end.

Fixpoint strip_lines (expected ls : list string) : option (list string) :=
  match expected, ls with
  | [], _ => Some ls
  | e :: es, l :: ls' => if String.eqb e l then strip_lines es ls' else None
  | _ :: _, [] => None
  end.

Fixpoint span_entries (ls : list string) : list string * list string :=
  match ls with
  | l :: ls' =>
      if Py.startswith "commands[" l
      then let '(b, r) := span_entries ls' in (l :: b, r)
      else ([], ls)
  | [] => ([], [])
  end.

(** The documentation string and the imports of the script. *)
Definition docstring_and_imports : list string :=
    [
      "'''";
      "";
      "Paralell mapping jobs";
      "---------------------";
      "";
      "The current script was autogenerated with the ";
      "file `script.rnaseq_map.py`, look there for documentation.";
      "";
      "'''";
      "import os";
      "import subprocess";
      "import maya";
      "from pathlib import Path"
    ].

(** The run body of the script, whose steps [Job.body] follows. *)
Definition run_body_text : list string :=
    [
      "task_id = int( os.environ['SGE_TASK_ID'] )";
      "";
      "# Fetch the command corresponding to the current job";
      "command = commands[task_id]";
      "";
      "# Get the name of the output file for the current job";
      "output_file = command.split()[command.split().index(" +:+ DQ +:+ "-S" +:+ DQ +:+ ") + 1]";
      "";
      "# Execute the job";
      "if Path(output_file).exists():";
      "    print(f'Task {task_id}. Output file already exists:', output_file, flush=True)";
      "";
      "else:";
      "    print(f'Task {task_id}. Executing command @', maya.now(), ':', command, flush=True)";
      "";
      "    subprocess.run(command.split()) # <-- Here it is executed, splitting is ";
      "                                    #     necessary to pass the arguments ";
      "                                    #     appropriately                            ";
      "    print(f'Task {task_id}. Finished execution @', maya.now(), flush=True)";
      ""
    ].

Fixpoint has_infix (p s : string) : bool :=
  Py.startswith p s
  || match s with
     | String _ s' => has_infix p s'
     | EmptyString => false
     end.

(** A line that may declare an encoding for the script: Python looks for
    such a declaration in the comments of the first two lines. *)
Definition declares_encoding (l : string) : bool :=
  has_infix "coding:" l || has_infix "coding=" l.

(** The dictionary [commands] that the script has built when its run body
    starts: the directives are comments; then come the documentation string
    and the imports, the statement [commands = dict()], the assignments, and
    the run body. *)
Definition read_commands (script : string) : reading (gmap Z string) :=
  if negb (text script)
     || existsb declares_encoding (take 2 (Py.split_on "010" script))
  then Unknown else
  match strip_lines docstring_and_imports
          (skip comment_or_blank (Py.split_on "010" script)) with
  | None => Unknown
  | Some ls =>
      match skip comment_or_blank ls with
      | l :: ls' =>
          if String.eqb l "commands = dict()" then
            let '(block, rest) := span_entries ls' in
            match assignments block ∅ with
            | Value d =>
                if bool_decide (skip comment_or_blank rest = run_body_text)
                then Value d else Unknown
            | r => r
            end
          else Unknown
      | [] => Unknown
      end
  end.

End Script.

(** The run body of the generated script, executed by one task of the
    array. *)
Module Job.

(** The exceptions that end a task: the three that the body itself can
    raise, and the one of a program that cannot be started. *)
Inductive exn := KeyError | ValueError | IndexError | OSError.

Inductive result (A : Type) :=
| Ok (a : A)
| Raise (e : exn).
Arguments Ok {A} a.
Arguments Raise {A} e.

(** What a task does that can be observed from outside: a line printed,
    and a call of [subprocess.run] with its list of arguments. *)
Inductive event :=
| Print (text : string)
| SubprocessRun (argv : list string).

(** The environment of a task: the task id that the scheduler passes in
    [SGE_TASK_ID], read as an integer; which paths exist; the printed form
    of the successive readings of the clock; what becomes of a program that
    is run: its return code once it has ended, or the exception raised when
    it cannot be started. *)
Record world := {
  sge_task_id : result Z;
  path_exists : Path.t → bool;
  maya_now : nat → string;
  run_outcome : list string → result Z
}.

Record state := { trace : list event; clock_reads : nat }.

Definition initial : state := {| trace := []; clock_reads := 0 |}.

Definition M (A : Type) : Type := state → result A * state.

Definition ret {A} (a : A) : M A := λ st, (Ok a, st).

Definition bind {A B} (m : M A) (k : A → M B) : M B := λ st,
  match m st with
  | (Ok a, st') => k a st'
  | (Raise e, st') => (Raise e, st')
  end.

Definition lift {A} (r : result A) : M A := λ st, (r, st).

Definition from_option {A} (e : exn) (o : option A) : M A :=
  match o with
  | Some a => ret a
  | None => lift (Raise e)
  end.

(** [print] with [flush=True]: the arguments separated by one space. *)
Definition print (args : list string) : M unit := λ st,
  (Ok tt, {| trace := trace st ++ [Print (Py.join " " args)];
             clock_reads := clock_reads st |}).

Definition now (w : world) : M string := λ st,
  (Ok (maya_now w (clock_reads st)),
   {| trace := trace st; clock_reads := S (clock_reads st) |}).

(** [subprocess.run(argv)]: the call is recorded; it returns once the
    subprocess has ended, whatever its return code, and raises when the
    program cannot be started. *)
Definition subprocess_run (w : world) (argv : list string) : M Z := λ st,
  (run_outcome w argv,
   {| trace := trace st ++ [SubprocessRun argv];
      clock_reads := clock_reads st |}).

Notation "x <-- m ;; k" := (bind m (λ x, k))
  (at level 100, m at next level, k at level 200, right associativity).
Notation "m ;;> k" := (bind m (λ _, k))
  (at level 100, k at level 200, right associativity).

(** [command.split()[command.split().index("-S") + 1]]. *)
Definition output_file_of (command : string) : M string :=
  i <-- from_option ValueError (Py.index "-S" (Py.split command)) ;;
  from_option IndexError (Py.split command !! (i + 1)%nat).

Definition body (w : world) (commands : gmap Z string) : M unit :=
  task_id <-- lift (sge_task_id w) ;;
  command <-- from_option KeyError (commands !! task_id) ;;
  output_file <-- output_file_of command ;;
  if path_exists w (Path.parse output_file) then
    print ["Task " +:+ pretty task_id +:+ ". Output file already exists:";
           output_file]
  else
    t1 <-- now w ;;
    print ["Task " +:+ pretty task_id +:+ ". Executing command @"; t1; ":";
           command] ;;>
    subprocess_run w (Py.split command) ;;>
    t2 <-- now w ;;
    print ["Task " +:+ pretty task_id +:+ ". Finished execution @"; t2].

Definition is_subprocess_run (e : event) : bool :=
  match e with
  | SubprocessRun _ => true
  | Print _ => false
  end.

End Job.

(** ** The helpers [get_output] and [run], and [main] *)

(** [assemble_commands] for an output directory that is given as a path
    object, as [main] gives it: [Path(output_path)] is then that path. *)
Definition assemble_commands_path (files : FilePairing)
    (idx_prefix : string) (output_path : Path.t) : Gen.t unit :=
  let loners := unpaired files in
  Gen.for_ loners (λ unpaired_f,
    Gen.yield (unpaired_command idx_prefix output_path unpaired_f)) ;;;
  let pairs := paired files in
  Gen.for_ pairs (λ p,
    Gen.yield (paired_command idx_prefix output_path p)).

Module Main.

(** A command as [subprocess] takes it: one string or a list of arguments. *)
Inductive command :=
| Str (s : string)
| Argv (args : list string).

(** The first statement of [get_output] and of [run]: a string is split into
    its arguments unless the keyword [shell] is set. *)
Definition prepare (cmd : command) (shell : bool) : command :=
  match cmd with
  | Str s => if shell then cmd else Argv (Py.split s)
  | Argv _ => cmd
  end.

Inductive exn := CalledProcessError | OSError | UnicodeDecodeError.

Inductive result (A : Type) :=
| Ok (a : A)
| Raise (e : exn).
Arguments Ok {A} a.
Arguments Raise {A} e.

(** What [main] does that can be observed from outside.  [WriteFile] is a
    file opened, written in full and closed; [TruncateFile] is a file that
    was created or emptied and then left with none or part of the contents
    that were to be written. *)
Inductive event :=
| Print (text : string)
| CheckOutput (cmd : command)
| WriteFile (name contents : string)
| TruncateFile (name : string)
| SubprocessRun (cmd : command).

(** The environment of [main]: how a path resolves; the names of the
    entries of a directory (none when it does not exist); the decoded output
    of a command run by [subprocess.check_output], the outcome of writing a
    file and the return code of a command run by [subprocess.run], each of
    which may raise instead; and, for a file whose writing raises, whether
    the file could be opened before. *)
Record world := {
  resolve : Path.t → Path.t;
  listdir : Path.t → list string;
  check_output : command → bool → result string;
  write_file : string → string → result unit;
  opened_before_failure : string → bool;
  subprocess_run : command → bool → result Z
}.

Definition M (A : Type) : Type := list event → result A * list event.

Definition ret {A} (a : A) : M A := λ tr, (Ok a, tr).

Definition bind {A B} (m : M A) (k : A → M B) : M B := λ tr,
  match m tr with
  | (Ok a, tr') => k a tr'
  | (Raise e, tr') => (Raise e, tr')
  end.

Notation "x <-- m ;; k" := (bind m (λ x, k))
  (at level 100, m at next level, k at level 200, right associativity).
Notation "m ;;> k" := (bind m (λ _, k))
  (at level 100, k at level 200, right associativity).

Definition print (text : string) : M unit := λ tr, (Ok tt, tr ++ [Print text]).

Definition get_output (w : world) (cmd : command) (shell : bool) : M string :=
  let cmd := prepare cmd shell in
  λ tr, (check_output w cmd shell, tr ++ [CheckOutput cmd]).

Definition run (w : world) (cmd : command) (shell : bool) : M Z :=
  let cmd := prepare cmd shell in
  λ tr, (subprocess_run w cmd shell, tr ++ [SubprocessRun cmd]).

(** [with open(name, 'w') as outf: outf.write(contents)].  Opening for
    writing creates the file or empties it, so when the writing raises after
    the file could be opened, the file is left created or emptied, with
    none or part of the contents. *)
Definition write (w : world) (name contents : string) : M unit := λ tr,
  match write_file w name contents with
  | Ok _ => (Ok tt, tr ++ [WriteFile name contents])
  | Raise e =>
      (Raise e,
       if opened_before_failure w name then tr ++ [TruncateFile name] else tr)
  end.

(** [x if x else d] for an option of the command line: a missing option
    and an empty string both give the default. *)
Definition or_default (x : option string) (d : string) : string :=
  match x with
  | Some (String c s) => String c s
  | _ => d
  end.

Definition script_name : string := "script.autogenerated.rnaseq_map_jobs.py".

(** The directory that [search_files] scans. *)
Definition directory (w : world) (p : Path.t) : Directory :=
  {| dir_path := p; entries := listdir w p |}.

Definition main (w : world) (input_dir output_dir idx_prefix ram : option string)
    : M unit :=
  let input_dir := resolve w (Path.parse (or_default input_dir "./trimmed")) in
  let output_dir := resolve w (Path.parse (or_default output_dir "./mapped")) in
  let idx_prefix :=
    match idx_prefix with
    | Some (String c s) => String c s
    | _ =>
        let index_dir := resolve w (Path.parse "./index/grcm38_snp_tran/") in
        Path.str (Path.div index_dir "genome_snp_tran")
    end in
  let ram := or_default ram "8" in
  print ("Resolved parameters: " +:+ Py.LF
         +:+ "    Input directory: " +:+ Path.str input_dir +:+ Py.LF
         +:+ "    Output directory: " +:+ Path.str output_dir +:+ Py.LF
         +:+ "    Index prefix: " +:+ idx_prefix +:+ Py.LF
         +:+ "    RAM per process: " +:+ ram) ;;>
  let files := search_files (directory w input_dir) in
  let commands :=
    Gen.to_list (assemble_commands_path files idx_prefix output_dir) in
  python3_exec_path <-- get_output w (Str "which python3") false ;;
  let script_contents := script_contents python3_exec_path ram commands in
  write w script_name script_contents ;;>
  run w (Str ("qsub " +:+ script_name)) false ;;>
  ret tt.

End Main.

(** ** Auxiliary notions used in the statements *)

(** The text that [Path.str] puts in front of the last component. *)
Fixpoint dir_prefix (ps : list string) : string :=
  match ps with
  | [] => ""
  | p :: ps' => p +:+ "/" +:+ dir_prefix ps'
  end.

(** The path strings of the files of a directory that match a pattern: the
    R1 list, the R2 list and the candidates for the unpaired list. *)
Definition matching (dir : Directory) (pattern : string) : list string :=
  Path.str <$> glob dir pattern.

(** No file name of the directory matches both pairing conventions. *)
Definition conventions_exclusive (dir : Directory) : Prop :=
  ∀ n, n ∈ entries dir →
    ¬ (Py.fnmatch "*R1_paired*" n = true ∧ Py.fnmatch "*R2_paired*" n = true).

(** The pairs that a file occurs in, on either side. *)
Definition pairs_with (f : string) (pairs : list (string * string))
    : list (string * string) :=
  filter (λ p, p.1 = f ∨ p.2 = f) pairs.

(** Whether a pattern matches somewhere in a string. *)
Fixpoint found (match_at : string → option nat) (s : string) : bool :=
  match s with
  | EmptyString => false
  | String _ s' =>
      match match_at s with
      | Some (S _) => true
      | _ => found match_at s'
      end
  end.

(** The output path computed for each job, in the order of the jobs. *)
Definition output_paths (files : FilePairing) (output_path : string)
    : list string :=
  ((λ f, output_file (Path.parse output_path) (unpaired_out_filename f))
     <$> unpaired files)
  ++ ((λ p, output_file (Path.parse output_path) (paired_out_filename p.1))
        <$> paired files).

(** The input paths of a file pairing. *)
Definition input_paths (files : FilePairing) : list string :=
  unpaired files ++ chain_from_iterable (paired files).

(** The dictionary that maps every 1-based position of a list of commands
    to the command at that position. *)
Definition positions_dict (commands : list string) : gmap Z string :=
  fold_left (λ d e, <[Z.of_nat (e.1 + 1) := e.2]> d) (enumerate commands) ∅.

(** A string without a newline: a single line. *)
Definition inline (s : string) : bool :=
  Py.forallb_str (λ c, negb (Ascii.eqb c "010")) s.

(** The lines of a text. *)
Definition lines (text : string) : list string := Py.split_on "010" text.

(** A component list as [Path.parse] produces it, without whitespace. *)
Abbreviation clean_parts :=
  (Forall (λ c : string, Py.ws_free c = true ∧ c ≠ "")).

(** A string that has no text after its first line, as the output of
    [which]: the lines that follow, if any, are blank. *)
Definition hanging (s : string) : bool :=
  forallb (Py.forallb_str Textwrap.is_blank) (tail (lines s)).

(** The interpreter path and the RAM value of a usual run: the path has no
    text after its first line, the RAM value is a single line, both are made
    of printable ASCII characters, and the path does not read as the
    declaration of an encoding. *)
Definition plain_header (python3_exec_path ram : string) : bool :=
  hanging python3_exec_path && Script.text python3_exec_path
  && negb (Script.declares_encoding python3_exec_path)
  && inline ram && Script.text ram.

(** A line that is blank or indented by the four spaces of the template. *)
Definition template_line (l : string) : bool :=
  Py.forallb_str Textwrap.is_blank l || Py.startswith "    " l.

(** A string without a slash. *)
Definition no_slash (s : string) : bool :=
  Py.forallb_str (λ c, negb (Ascii.eqb c "/")) s.

(** The name of a directory entry: a path component without a slash. *)
Definition file_name (n : string) : bool := Path.is_component n && no_slash n.

(** The root of a path as [Path.parse] and [resolve] give it. *)
Definition rooted (p : Path.t) : bool :=
  String.eqb (Path.root p) "" || String.eqb (Path.root p) "/"
  || String.eqb (Path.root p) "//".

(** The parameters that [main] works with, after the defaults and the
    resolution of the directories, and the commands that it assembles. *)
Definition main_input_dir (w : Main.world) (input_dir : option string) : Path.t :=
  Main.resolve w (Path.parse (Main.or_default input_dir "./trimmed")).

Definition main_output_dir (w : Main.world) (output_dir : option string) : Path.t :=
  Main.resolve w (Path.parse (Main.or_default output_dir "./mapped")).

Definition main_idx_prefix (w : Main.world) (idx_prefix : option string) : string :=
  match idx_prefix with
  | Some (String c s) => String c s
  | _ =>
      Path.str (Path.div (Main.resolve w (Path.parse "./index/grcm38_snp_tran/"))
                         "genome_snp_tran")
  end.

Definition main_files (w : Main.world) (input_dir : option string) : FilePairing :=
  search_files (Main.directory w (main_input_dir w input_dir)).

Definition main_commands (w : Main.world)
    (input_dir output_dir idx_prefix : option string) : list string :=
  Gen.to_list (assemble_commands_path (main_files w input_dir)
                 (main_idx_prefix w idx_prefix) (main_output_dir w output_dir)).

Definition main_banner (w : Main.world)
    (input_dir output_dir idx_prefix ram : option string) : string :=
  "Resolved parameters: " +:+ Py.LF
  +:+ "    Input directory: " +:+ Path.str (main_input_dir w input_dir) +:+ Py.LF
  +:+ "    Output directory: " +:+ Path.str (main_output_dir w output_dir) +:+ Py.LF
  +:+ "    Index prefix: " +:+ main_idx_prefix w idx_prefix +:+ Py.LF
  +:+ "    RAM per process: " +:+ Main.or_default ram "8".

(** ** Example inputs *)

(** The directory of the end-to-end scenario, in some listing order. *)
Definition scenario_dir (listing : list string) : Directory :=
  {| dir_path := Path.parse "."; entries := listing |}.

(** A directory with a file whose name matches both pairing conventions. *)
Definition overlap_dir : Directory :=
  {| dir_path := Path.parse ".";
     entries := ["R1_paired_R2_paired"; "aR1_paired"; "AR2_paired"] |}.

(** A directory with two R1 files and a single R2 file. *)
Definition uneven_dir : Directory :=
  {| dir_path := Path.parse "/data/trimmed";
     entries := ["s2_R1_paired.fastq"; "s1_R2_paired.fastq";
                 "s1_R1_paired.fastq"; "s3_trimmed.fastq"] |}.


(** The commands of the end-to-end scenario. *)
Definition scenario_commands : list string :=
  ["hisat2 --dta -x idx -U b_trimmed.fastq -S out/b_trimmed.sam";
   "hisat2 --dta -x idx -1 a_R1_paired.fastq -2 a_R2_paired.fastq -S out/a_paired.sam"].

(** The environment of one task of the array: its task id and the files
    that exist when it starts. *)
Definition scenario_world (task : Z) (existing : list string) : Job.world :=
  {| Job.sge_task_id := Job.Ok task;
     Job.path_exists := λ p, bool_decide (p ∈ Path.parse <$> existing);
     Job.maya_now := λ n, "<MayaDT " +:+ pretty n +:+ ">";
     Job.run_outcome := λ _, Job.Ok 0%Z |}.

(** The environment of a task on a host where the aligner is not
    installed: no output exists and the program cannot be started. *)
Definition stranded_world (task : Z) : Job.world :=
  {| Job.sge_task_id := Job.Ok task;
     Job.path_exists := λ _, false;
     Job.maya_now := λ n, "<MayaDT " +:+ pretty n +:+ ">";
     Job.run_outcome := λ _, Job.Raise Job.OSError |}.

(** An environment for [main]: paths resolve under [/work], the input
    directory has the given entries, [which] answers with the given outcome
    and [qsub] ends with the given return code. *)
Definition scenario_main_world (listing : list string)
    (which : Main.result string) (qsub_status : Z) : Main.world :=
  {| Main.resolve := λ p, Path.mk "/" ("work" :: Path.parts p);
     Main.listdir := λ p,
       if bool_decide (p = Path.mk "/" ["work"; "trimmed"]) then listing else [];
     Main.check_output := λ _ _, which;
     Main.write_file := λ _ _, Main.Ok tt;
     Main.opened_before_failure := λ _, true;
     Main.subprocess_run := λ _ _, Main.Ok qsub_status |}.

(** An environment for [main] in which the script file can be opened but
    not written in full. *)
Definition full_disk_main_world (listing : list string) : Main.world :=
  {| Main.resolve := λ p, Path.mk "/" ("work" :: Path.parts p);
     Main.listdir := λ p,
       if bool_decide (p = Path.mk "/" ["work"; "trimmed"]) then listing else [];
     Main.check_output := λ _ _, Main.Ok ("/usr/bin/python3" +:+ Py.LF);
     Main.write_file := λ _ _, Main.Raise Main.OSError;
     Main.opened_before_failure := λ _, true;
     Main.subprocess_run := λ _ _, Main.Ok 0%Z |}.

(** * Properties *)

(** ** Strings *)

Section strings.

Lemma app_nil_l (s : string) : "" +:+ s = s.
Proof. done. Qed.

Lemma app_cons c (s t : string) : String c s +:+ t = String c (s +:+ t).
Proof. done. Qed.

Lemma app_nil_r (s : string) : s +:+ "" = s.
Proof. induction s as [|c s IH]; [done|]. by rewrite app_cons, IH. Qed.

Lemma append_assoc (a b c : string) : (a +:+ b) +:+ c = a +:+ b +:+ c.
Proof. induction a as [|x a IH]; [done|]. by rewrite !app_cons, IH. Qed.

End strings.

(** ** The order of [sorted] *)

Section string_order.

Lemma sorted_Sorted l : Sorted String.le (Py.sorted l).
Proof. apply (Sorted_merge_sort _). Qed.

Lemma sorted_Permutation l : Py.sorted l ≡ₚ l.
Proof. apply merge_sort_Permutation. Qed.

(** Whatever the sorting algorithm, there is one ascending arrangement. *)
Lemma sorted_unique l l' :
  Sorted String.le l' → l' ≡ₚ l → l' = Py.sorted l.
Proof.
  intros Hs Hp. apply (Sorted_unique String.le); [done|apply sorted_Sorted|].
  by rewrite Hp, sorted_Permutation.
Qed.

Lemma length_sorted l : length (Py.sorted l) = length l.
Proof. by rewrite sorted_Permutation. Qed.

End string_order.

(** ** File discovery *)

Section discovery.

Lemma List_filter_stdpp {A} (f : A → bool) (l : list A) :
  List.filter f l = filter (λ x, f x = true) l.
Proof.
  induction l as [|x l IH]; simpl; [done|].
  rewrite filter_cons. destruct (decide (f x = true)) as [Hx|Hx].
  - rewrite Hx. by f_equal.
  - by apply not_true_is_false in Hx as ->.
Qed.

Lemma join_cons_cons sep x y l :
  Py.join sep (x :: y :: l) = x +:+ sep +:+ Py.join sep (y :: l).
Proof. done. Qed.

Lemma join_snoc ps n : Py.join "/" (ps ++ [n]) = dir_prefix ps +:+ n.
Proof.
  induction ps as [|p ps IH]; [done|].
  destruct ps as [|q ps].
  - change (Py.join "/" [p; n] = (p +:+ "/" +:+ "") +:+ n).
    by rewrite join_cons_cons, app_nil_r, append_assoc.
  - change (Py.join "/" ((p :: q :: ps) ++ [n]))
      with (Py.join "/" (p :: q :: (ps ++ [n]))).
    rewrite join_cons_cons.
    change (q :: ps ++ [n]) with ((q :: ps) ++ [n]). rewrite IH.
    change (dir_prefix (p :: q :: ps)) with (p +:+ "/" +:+ dir_prefix (q :: ps)).
    by rewrite !append_assoc.
Qed.

Lemma str_child p n :
  Path.str (Path.child p n) = Path.root p +:+ dir_prefix (Path.parts p) +:+ n.
Proof.
  unfold Path.str, Path.child; simpl.
  rewrite <- join_snoc.
  destruct (Path.root p); [|done].
  by destruct (Path.parts p ++ [n]) eqn:Hq; [destruct (Path.parts p)|].
Qed.

Global Instance str_child_inj p : Inj (=) (=) (λ n, Path.str (Path.child p n)).
Proof.
  intros n1 n2. rewrite !str_child. intros H.
  by apply (inj _), (inj _) in H.
Qed.

Lemma matching_eq dir pattern :
  matching dir pattern =
  (λ n, Path.str (Path.child (dir_path dir) n)) <$>
    filter (λ n, Py.fnmatch pattern n = true) (entries dir).
Proof.
  unfold matching, glob. by rewrite List_filter_stdpp, <- list_fmap_compose.
Qed.

Lemma NoDup_matching dir pattern :
  NoDup (entries dir) → NoDup (matching dir pattern).
Proof.
  intros H. rewrite matching_eq.
  apply (NoDup_fmap_2 _). by apply NoDup_filter.
Qed.

Lemma elem_of_matching dir pattern f :
  f ∈ matching dir pattern ↔
  ∃ n, f = Path.str (Path.child (dir_path dir) n) ∧ n ∈ entries dir
       ∧ Py.fnmatch pattern n = true.
Proof.
  rewrite matching_eq, list_elem_of_fmap.
  split.
  - intros (n & -> & [Hm Hn]%list_elem_of_filter). eauto.
  - intros (n & -> & Hn & Hm). exists n. by rewrite list_elem_of_filter.
Qed.

Lemma find_paired_unfold dir :
  find_paired dir =
  zip (Py.sorted (matching dir "*R1_paired*"))
      (Py.sorted (matching dir "*R2_paired*")).
Proof. done. Qed.

Lemma count_fst {A B} `{EqDecision A} (f : A) (l : list (A * B)) :
  length (filter (λ p, p.1 = f) l) = length (filter (λ x, x = f) l.*1).
Proof.
  induction l as [|[a b] l IH]; [done|].
  rewrite fmap_cons, !filter_cons; simpl.
  destruct (decide (a = f)); simpl; by rewrite IH.
Qed.

Lemma count_snd {A B} `{EqDecision B} (f : B) (l : list (A * B)) :
  length (filter (λ p, p.2 = f) l) = length (filter (λ x, x = f) l.*2).
Proof.
  induction l as [|[a b] l IH]; [done|].
  rewrite fmap_cons, !filter_cons; simpl.
  destruct (decide (b = f)); simpl; by rewrite IH.
Qed.

Lemma filter_eq_notin {A} `{EqDecision A} (f : A) (l : list A) :
  f ∉ l → filter (λ x, x = f) l = [].
Proof.
  induction l as [|x l IH]; [done|].
  intros [Hx Hl]%not_elem_of_cons. rewrite filter_cons.
  rewrite decide_False by done. auto.
Qed.

Lemma count_NoDup {A} `{EqDecision A} (f : A) (l : list A) :
  NoDup l → f ∈ l → length (filter (λ x, x = f) l) = 1.
Proof.
  induction 1 as [|x l Hx Hl IH]; [by intros ?%not_elem_of_nil|].
  rewrite filter_cons. intros [->|Hin]%elem_of_cons.
  - rewrite decide_True by done. simpl. by rewrite filter_eq_notin.
  - rewrite decide_False by (intros ->; done). auto.
Qed.

End discovery.

(** ** Pairing *)

Section pairing.

Implicit Types (dir : Directory) (f : string).

Lemma find_paired_fst dir :
  length (matching dir "*R1_paired*") ≤ length (matching dir "*R2_paired*") →
  (find_paired dir).*1 = Py.sorted (matching dir "*R1_paired*").
Proof.
  intros H. rewrite find_paired_unfold. apply fst_zip.
  by rewrite !length_sorted.
Qed.

Lemma find_paired_snd dir :
  length (matching dir "*R2_paired*") ≤ length (matching dir "*R1_paired*") →
  (find_paired dir).*2 = Py.sorted (matching dir "*R2_paired*").
Proof.
  intros H. rewrite find_paired_unfold. apply snd_zip.
  by rewrite !length_sorted.
Qed.

Lemma count_member f (l : list (string * string)) :
  f ∉ l.*2 → pairs_with f l = filter (λ p, p.1 = f) l.
Proof.
  induction l as [|[a b] l IH]; [done|].
  rewrite fmap_cons. intros [Hb Hl]%not_elem_of_cons.
  unfold pairs_with in *. rewrite !filter_cons; simpl in *.
  destruct (decide (a = f)) as [->|Ha].
  - rewrite decide_True by auto. f_equal; auto.
  - rewrite decide_False by (intros [?|?]; congruence). auto.
Qed.

Lemma count_member' f (l : list (string * string)) :
  f ∉ l.*1 → pairs_with f l = filter (λ p, p.2 = f) l.
Proof.
  induction l as [|[a b] l IH]; [done|].
  rewrite fmap_cons. intros [Hb Hl]%not_elem_of_cons.
  unfold pairs_with in *. rewrite !filter_cons; simpl in *.
  destruct (decide (b = f)) as [->|Ha].
  - rewrite decide_True by auto. f_equal; auto.
  - rewrite decide_False by (intros [?|?]; congruence). auto.
Qed.

Lemma matching_disjoint dir f :
  conventions_exclusive dir →
  f ∈ matching dir "*R1_paired*" → f ∈ matching dir "*R2_paired*" → False.
Proof.
  intros Hex (n1 & -> & Hn1 & Hm1)%elem_of_matching
    (n2 & Heq & Hn2 & Hm2)%elem_of_matching.
  apply (inj (λ n, Path.str (Path.child (dir_path dir) n))) in Heq as ->.
  by apply (Hex n2).
Qed.

Lemma fst_zip_take {A B} (l : list A) (k : list B) :
  (zip l k).*1 = take (length k) l.
Proof.
  revert k. induction l as [|x l IH]; intros [|y k]; simpl; try done.
  by rewrite IH.
Qed.

Lemma snd_zip_take {A B} (l : list A) (k : list B) :
  (zip l k).*2 = take (length l) k.
Proof.
  revert k. induction l as [|x l IH]; intros [|y k]; simpl; try done.
  by rewrite IH.
Qed.

(** C3 (amended): when the R1 and R2 lists of a directory have the same
    length, [find_paired] returns the positional zip of the two lists, each
    sorted on its own in ascending order of the path strings; every R1 file
    is the first member of exactly one pair and every R2 file the second
    member of exactly one pair; and when no file name matches both
    conventions, every input file appears in exactly one pair. *)
Theorem find_paired_sorted_zip dir :
  NoDup (entries dir) →
  length (matching dir "*R1_paired*") = length (matching dir "*R2_paired*") →
  find_paired dir = zip (Py.sorted (matching dir "*R1_paired*"))
                        (Py.sorted (matching dir "*R2_paired*"))
  ∧ (Sorted String.le (find_paired dir).*1
     ∧ (find_paired dir).*1 ≡ₚ matching dir "*R1_paired*")
  ∧ (Sorted String.le (find_paired dir).*2
     ∧ (find_paired dir).*2 ≡ₚ matching dir "*R2_paired*")
  ∧ (∀ f, f ∈ matching dir "*R1_paired*" →
          length (filter (λ p, p.1 = f) (find_paired dir)) = 1)
  ∧ (∀ f, f ∈ matching dir "*R2_paired*" →
          length (filter (λ p, p.2 = f) (find_paired dir)) = 1)
  ∧ (conventions_exclusive dir →
     ∀ f, f ∈ matching dir "*R1_paired*" ++ matching dir "*R2_paired*" →
          length (pairs_with f (find_paired dir)) = 1).
Proof.
  intros Hnd Hlen.
  assert ((find_paired dir).*1 = Py.sorted (matching dir "*R1_paired*")) as H1
    by (apply find_paired_fst; lia).
  assert ((find_paired dir).*2 = Py.sorted (matching dir "*R2_paired*")) as H2
    by (apply find_paired_snd; lia).
  assert (∀ f, f ∈ matching dir "*R1_paired*" →
            length (filter (λ p, p.1 = f) (find_paired dir)) = 1) as Hc1.
  { intros f Hf. rewrite count_fst, H1, sorted_Permutation.
    apply count_NoDup; [by apply NoDup_matching|done]. }
  assert (∀ f, f ∈ matching dir "*R2_paired*" →
            length (filter (λ p, p.2 = f) (find_paired dir)) = 1) as Hc2.
  { intros f Hf. rewrite count_snd, H2, sorted_Permutation.
    apply count_NoDup; [by apply NoDup_matching|done]. }
  split; [apply find_paired_unfold|].
  split; [rewrite H1; split; [apply sorted_Sorted|apply sorted_Permutation]|].
  split; [rewrite H2; split; [apply sorted_Sorted|apply sorted_Permutation]|].
  split; [done|]. split; [done|].
  intros Hex f [Hf|Hf]%elem_of_app.
  - rewrite count_member; [by apply Hc1|].
    rewrite H2, sorted_Permutation. intros Hf'.
    by apply (matching_disjoint dir f).
  - rewrite count_member'; [by apply Hc2|].
    rewrite H1, sorted_Permutation. intros Hf'.
    by apply (matching_disjoint dir f).
Qed.

(** C5: whatever the lengths of the R1 and R2 lists, [find_paired] is
    defined and returns as many pairs as the shorter list has files: the
    first files of each sorted list, the excess of the longer one being
    dropped. *)
Theorem find_paired_truncates dir :
  length (find_paired dir)
    = length (matching dir "*R1_paired*") `min` length (matching dir "*R2_paired*")
  ∧ (find_paired dir).*1
    = take (length (matching dir "*R2_paired*"))
           (Py.sorted (matching dir "*R1_paired*"))
  ∧ (find_paired dir).*2
    = take (length (matching dir "*R1_paired*"))
           (Py.sorted (matching dir "*R2_paired*")).
Proof.
  rewrite find_paired_unfold.
  rewrite length_zip_with, fst_zip_take, snd_zip_take, !length_sorted.
  done.
Qed.

Lemma elem_of_find_unpaired dir (already_paired : list string) f :
  f ∈ find_unpaired dir already_paired ↔
  f ∈ matching dir "*trimmed.fastq" ∧ f ∉ already_paired.
Proof.
  unfold find_unpaired, matching.
  rewrite List_filter_stdpp, !list_elem_of_fmap.
  setoid_rewrite list_elem_of_filter.
  setoid_rewrite bool_decide_eq_true.
  setoid_rewrite elem_of_list_to_set.
  split.
  - intros (p & -> & Hp & Hin). eauto.
  - intros [(p & -> & Hin) Hp]. eauto.
Qed.

Lemma elem_of_chain_from_iterable f (pairs : list (string * string)) :
  f ∈ chain_from_iterable pairs ↔ ∃ p, p ∈ pairs ∧ (p.1 = f ∨ p.2 = f).
Proof.
  unfold chain_from_iterable. rewrite list_elem_of_In, in_flat_map.
  setoid_rewrite <- list_elem_of_In.
  split; intros (p & Hp & Hf); exists p; (split; [done|]).
  - apply elem_of_cons in Hf as [->|Hf]; [by left|].
    apply list_elem_of_singleton in Hf as ->. by right.
  - destruct Hf as [<-|<-]; [apply elem_of_cons; by left|].
    apply elem_of_cons; right. by apply list_elem_of_singleton.
Qed.

(** C4: for every directory contents, [find_unpaired] keeps exactly the
    files of the unpaired convention whose path string is not among the
    paths already paired, so no file of the unpaired list built by
    [search_files] is a member of one of its pairs. *)
Theorem search_files_disjoint dir :
  (∀ already_paired f,
     f ∈ find_unpaired dir already_paired ↔
     f ∈ matching dir "*trimmed.fastq" ∧ f ∉ already_paired)
  ∧ Forall (λ f, ∀ p, p ∈ paired (search_files dir) → p.1 ≠ f ∧ p.2 ≠ f)
           (unpaired (search_files dir)).
Proof.
  split; [apply elem_of_find_unpaired|].
  apply Forall_forall. intros f Hf p Hp. simpl in *.
  apply elem_of_find_unpaired in Hf as [_ Hf].
  rewrite elem_of_chain_from_iterable in Hf.
  split; intros Heq; apply Hf; exists p; auto.
Qed.

End pairing.

Section pairing_examples.

Lemma find_paired_sorted_zip_witness :
  let dir := scenario_dir ["b_trimmed.fastq"; "a_R2_paired.fastq";
                           "a_R1_paired.fastq"] in
  NoDup (entries dir)
  ∧ length (matching dir "*R1_paired*") = length (matching dir "*R2_paired*")
  ∧ find_paired dir = zip (Py.sorted (matching dir "*R1_paired*"))
                          (Py.sorted (matching dir "*R2_paired*")).
Proof.
  intros dir.
  assert (NoDup (entries dir)) as Hnd by (vm_compute; compute_done).
  assert (length (matching dir "*R1_paired*")
          = length (matching dir "*R2_paired*")) as Hlen by (vm_compute; reflexivity).
  split; [exact Hnd|]. split; [exact Hlen|].
  exact (proj1 (find_paired_sorted_zip dir Hnd Hlen)).
Defined.

(** C3, as stated, fails: with a file name that matches both conventions
    the two lists have the same length and yet one file is a member of two
    pairs. *)
Lemma find_paired_overlap_counterexample :
  NoDup (entries overlap_dir)
  ∧ length (matching overlap_dir "*R1_paired*")
    = length (matching overlap_dir "*R2_paired*")
  ∧ find_paired overlap_dir
    = [("R1_paired_R2_paired", "AR2_paired");
       ("aR1_paired", "R1_paired_R2_paired")]
  ∧ ¬ (∀ f, f ∈ matching overlap_dir "*R1_paired*"
                 ++ matching overlap_dir "*R2_paired*" →
            length (pairs_with f (find_paired overlap_dir)) = 1).
Proof.
  split; [vm_compute; compute_done|].
  split; [by vm_compute|]. split; [by vm_compute|].
  intros H. specialize (H "R1_paired_R2_paired").
  assert (length (pairs_with "R1_paired_R2_paired" (find_paired overlap_dir)) = 2)
    as Hlen by (by vm_compute).
  rewrite Hlen in H. 
  assert (2 = 1 → False) as Hne by lia. apply Hne, H.
  apply (bool_decide_unpack _). by vm_compute.
Qed.

End pairing_examples.

(** ** Command assembly *)

Section assembly.

Implicit Types (files : FilePairing) (idx_prefix : string).

Lemma to_list_bind {A B} (m : Gen.t A) (k : A → Gen.t B) :
  Gen.to_list (Gen.bind m k) = Gen.to_list m ++ Gen.to_list (k m.1).
Proof. destruct m as [a out]; simpl. by destruct (k a). Qed.

Lemma for_yield {A} (l : list A) (cmd : A → string) :
  Gen.for_ l (λ x, Gen.yield (cmd x)) = (tt, cmd <$> l).
Proof.
  induction l as [|x l IH]; [done|].
  simpl. by rewrite IH.
Qed.

Lemma assemble_commands_eq files idx_prefix (output_path : string) :
  assemble_commands files idx_prefix output_path
  = (tt, (unpaired_command idx_prefix (Path.parse output_path) <$> unpaired files)
         ++ (paired_command idx_prefix (Path.parse output_path) <$> paired files)).
Proof. unfold assemble_commands. by rewrite !for_yield. Qed.

(** C6: for every file pairing, the sequence that [assemble_commands]
    yields is the commands of the unpaired files, in the order of the
    unpaired list, followed by the commands of the pairs, in the order of
    the pairs. *)
Theorem assemble_commands_order files idx_prefix (output_path : string) :
  Gen.to_list (assemble_commands files idx_prefix output_path)
  = (unpaired_command idx_prefix (Path.parse output_path) <$> unpaired files)
    ++ (paired_command idx_prefix (Path.parse output_path) <$> paired files).
Proof. by rewrite assemble_commands_eq. Qed.

(** C2: for the pair [sample_R1_001.fastq], [sample_R2_001.fastq] the
    output file name is [sample_001.sam], computed from the first file of
    the pair whatever the second one is; for the unpaired file
    [sampleX_trimmed.fastq] it is [sampleX_trimmed.sam]. *)
Theorem round_trip_naming :
  Py.re_sub Py.match_read_marker "_" "sample_R1_001.fastq" = "sample_001.fastq"
  ∧ paired_out_filename "sample_R1_001.fastq" = "sample_001.sam"
  ∧ unpaired_out_filename "sampleX_trimmed.fastq" = "sampleX_trimmed.sam"
  ∧ (∀ idx_prefix (output_path : Path.t) p2,
       paired_command idx_prefix output_path ("sample_R1_001.fastq", p2)
       = "hisat2 --dta -x " +:+ idx_prefix +:+ " -1 sample_R1_001.fastq -2 "
           +:+ p2 +:+ " -S " +:+ output_file output_path "sample_001.sam")
  ∧ (∀ idx_prefix (output_path : Path.t),
       unpaired_command idx_prefix output_path "sampleX_trimmed.fastq"
       = "hisat2 --dta -x " +:+ idx_prefix +:+ " -U sampleX_trimmed.fastq"
           +:+ " -S " +:+ output_file output_path "sampleX_trimmed.sam")
  ∧ Gen.to_list (assemble_commands
      {| paired := [("sample_R1_001.fastq", "sample_R2_001.fastq")];
         unpaired := ["sampleX_trimmed.fastq"] |} "idx" "out/")
    = ["hisat2 --dta -x idx -U sampleX_trimmed.fastq -S out/sampleX_trimmed.sam";
       "hisat2 --dta -x idx -1 sample_R1_001.fastq -2 sample_R2_001.fastq -S out/sample_001.sam"].
Proof.
  split; [by vm_compute|]. split; [by vm_compute|]. split; [by vm_compute|].
  split; [|split; [|by vm_compute]].
  - intros idx_prefix output_path p2. unfold paired_command.
    change (paired_out_filename "sample_R1_001.fastq") with "sample_001.sam".
    reflexivity.
  - intros idx_prefix output_path. unfold unpaired_command.
    change (unpaired_out_filename "sampleX_trimmed.fastq")
      with "sampleX_trimmed.sam".
    reflexivity.
Qed.

Lemma sub_go_not_found match_at repl s :
  found match_at s = false → Py.sub_go match_at repl 0 s = s.
Proof.
  induction s as [|c s IH]; [done|]. simpl.
  destruct (match_at (String c s)) as [[|k]|]; try done;
    intros H; by rewrite IH.
Qed.





End assembly.

(** ** Tokens of a command *)

Section tokens.

Lemma ws_free_cons c s :
  Py.ws_free (String c s) = negb (Py.is_space c) && Py.ws_free s.
Proof. done. Qed.

Lemma ws_free_app a b : Py.ws_free (a +:+ b) = Py.ws_free a && Py.ws_free b.
Proof.
  induction a as [|c a IH]; [done|].
  by rewrite app_cons, !ws_free_cons, IH, andb_assoc.
Qed.

Lemma split_go_word acc w rest :
  Py.ws_free w = true →
  Py.split_go acc (w +:+ rest) = Py.split_go (acc +:+ w) rest.
Proof.
  revert acc. induction w as [|c w IH]; intros acc.
  - by rewrite app_nil_l, app_nil_r.
  - rewrite ws_free_cons. intros [Hc Hw]%andb_true_iff.
    apply negb_true_iff in Hc. rewrite app_cons. simpl. rewrite Hc.
    rewrite IH by done. by rewrite append_assoc.
Qed.

Lemma split_go_space acc rest :
  Py.split_go acc (" " +:+ rest) = Py.flush acc ++ Py.split_go "" rest.
Proof. done. Qed.

Lemma split_word_space w rest :
  Py.ws_free w = true →
  Py.split (w +:+ " " +:+ rest) = Py.flush w ++ Py.split rest.
Proof.
  intros Hw. unfold Py.split. by rewrite split_go_word, split_go_space.
Qed.

Lemma split_word w : Py.ws_free w = true → Py.split w = Py.flush w.
Proof.
  intros Hw. unfold Py.split. rewrite <- (app_nil_r w) at 1.
  by rewrite split_go_word.
Qed.

Lemma split_unpaired idx_prefix f S :
  Py.ws_free idx_prefix = true → Py.ws_free f = true → Py.ws_free S = true →
  Py.split ("hisat2 --dta -x " +:+ idx_prefix +:+ " -U " +:+ f +:+ " -S " +:+ S)
  = ["hisat2"; "--dta"; "-x"] ++ Py.flush idx_prefix ++ ["-U"] ++ Py.flush f
      ++ ["-S"] ++ Py.flush S.
Proof.
  intros Hi Hf HS.
  match goal with |- _ = ?r =>
    change (Py.split ("hisat2" +:+ " " +:+ "--dta" +:+ " " +:+ "-x" +:+ " "
                      +:+ idx_prefix +:+ " " +:+ "-U" +:+ " " +:+ f +:+ " "
                      +:+ "-S" +:+ " " +:+ S) = r)
  end.
  rewrite !split_word_space by done. by rewrite split_word.
Qed.

Lemma split_paired idx_prefix p1 p2 S :
  Py.ws_free idx_prefix = true → Py.ws_free p1 = true → Py.ws_free p2 = true →
  Py.ws_free S = true →
  Py.split ("hisat2 --dta -x " +:+ idx_prefix +:+ " -1 " +:+ p1 +:+ " -2 " +:+ p2
            +:+ " -S " +:+ S)
  = ["hisat2"; "--dta"; "-x"] ++ Py.flush idx_prefix ++ ["-1"] ++ Py.flush p1
      ++ ["-2"] ++ Py.flush p2 ++ ["-S"] ++ Py.flush S.
Proof.
  intros Hi H1 H2 HS.
  match goal with |- _ = ?r =>
    change (Py.split ("hisat2" +:+ " " +:+ "--dta" +:+ " " +:+ "-x" +:+ " "
                      +:+ idx_prefix +:+ " " +:+ "-1" +:+ " " +:+ p1 +:+ " "
                      +:+ "-2" +:+ " " +:+ p2 +:+ " " +:+ "-S" +:+ " " +:+ S) = r)
  end.
  rewrite !split_word_space by done. by rewrite split_word.
Qed.

Lemma index_app_notin x l1 l2 :
  x ∉ l1 → Py.index x (l1 ++ l2) = (λ i, length l1 + i) <$> Py.index x l2.
Proof.
  induction l1 as [|y l1 IH]; intros Hx; simpl.
  - by destruct (Py.index x l2).
  - apply not_elem_of_cons in Hx as [Hy Hx].
    destruct (String.eqb_spec y x) as [->|_]; [done|].
    rewrite IH by done. by destruct (Py.index x l2).
Qed.

Lemma index_head x l : Py.index x (x :: l) = Some 0.
Proof. simpl. by rewrite String.eqb_refl. Qed.

Lemma flush_notin x w : w ≠ x → x ∉ Py.flush w.
Proof.
  intros Hw. destruct w; [apply not_elem_of_nil|].
  intros ?%list_elem_of_singleton. congruence.
Qed.

Lemma flush_nonempty w : w ≠ "" → Py.flush w = [w].
Proof. by destruct w. Qed.

(** The token after the first [-S] of a token list that has no [-S]
    before its last two tokens. *)
Lemma output_file_of_tokens command front S st :
  Py.split command = front ++ ["-S"; S] → "-S" ∉ front →
  Job.output_file_of command st = (Job.Ok S, st).
Proof.
  intros Hsplit Hfront. unfold Job.output_file_of, Job.bind.
  rewrite Hsplit, index_app_notin, index_head by done. simpl.
  rewrite lookup_app_r by lia.
  by replace (length front + 0 + 1 - length front) with 1 by lia.
Qed.

End tokens.

(** ** Output paths are single tokens *)

Section output_paths.

Lemma split_on_ws_free sep s :
  Py.ws_free s = true → Forall (λ w, Py.ws_free w = true) (Py.split_on sep s).
Proof.
  induction s as [|c s IH]; [by repeat constructor|].
  rewrite ws_free_cons. intros [Hc Hs]%andb_true_iff. simpl.
  specialize (IH Hs). destruct (Ascii.eqb c sep); [by constructor|].
  destruct (Py.split_on sep s) as [|w ws].
  - apply Forall_singleton. by rewrite ws_free_cons, Hc.
  - apply Forall_cons in IH as [Hw Hws]. constructor; [|done].
    by rewrite ws_free_cons, Hc, Hw.
Qed.

Lemma parse_parts_clean s :
  Py.ws_free s = true → clean_parts (Path.parts (Path.parse s)).
Proof.
  intros Hs. simpl. rewrite List_filter_stdpp.
  apply Forall_forall. intros c [Hc Hin]%list_elem_of_filter.
  split.
  - by eapply Forall_forall in Hin; [|by apply split_on_ws_free].
  - intros ->. done.
Qed.

Lemma parse_root_ws_free s : Py.ws_free (Path.root (Path.parse s)) = true.
Proof.
  simpl. unfold Path.parse_root.
  by repeat match goal with |- context [Py.startswith ?a ?b] =>
              destruct (Py.startswith a b) end.
Qed.

Lemma last_Forall {A} (P : A → Prop) (l : list A) d :
  Forall P l → P d → P (List.last l d).
Proof.
  induction 1 as [|x l Hx Hl IH]; [done|]. intros Hd.
  destruct l; [done|]. by apply IH.
Qed.

Lemma name_ws_free s :
  Py.ws_free s = true → Py.ws_free (Path.name (Path.parse s)) = true.
Proof.
  intros Hs. unfold Path.name.
  apply (last_Forall (λ c, Py.ws_free c = true)); [|done].
  eapply Forall_impl; [by apply parse_parts_clean|]. by intros c [? _].
Qed.

Lemma sub_go_ws_free match_at repl skip s :
  Py.ws_free repl = true → Py.ws_free s = true →
  Py.ws_free (Py.sub_go match_at repl skip s) = true.
Proof.
  intros Hr. revert skip. induction s as [|c s IH]; intros skip; [done|].
  rewrite ws_free_cons. intros [Hc Hs]%andb_true_iff. simpl.
  destruct skip; [|by apply IH].
  destruct (match_at (String c s)) as [[|k]|].
  - by rewrite ws_free_cons, Hc, IH.
  - by rewrite ws_free_app, Hr, IH.
  - by rewrite ws_free_cons, Hc, IH.
Qed.

Lemma re_sub_ws_free match_at repl s :
  Py.ws_free repl = true → Py.ws_free s = true →
  Py.ws_free (Py.re_sub match_at repl s) = true.
Proof. apply sub_go_ws_free. Qed.

Lemma join_ws_free sep l :
  Py.ws_free sep = true → Forall (λ w, Py.ws_free w = true) l →
  Py.ws_free (Py.join sep l) = true.
Proof.
  intros Hsep. induction 1 as [|x l Hx Hl IH]; [done|].
  destruct l as [|y l]; [done|].
  by rewrite join_cons_cons, !ws_free_app, Hx, Hsep, IH.
Qed.

Lemma str_clean p :
  Py.ws_free (Path.root p) = true → clean_parts (Path.parts p) →
  Py.ws_free (Path.str p) = true ∧ Path.str p ≠ "".
Proof.
  intros Hr Hp. unfold Path.str.
  assert (Py.ws_free (Path.root p +:+ Py.join "/" (Path.parts p)) = true) as Hws.
  { rewrite ws_free_app, Hr. apply join_ws_free; [done|].
    eapply Forall_impl; [done|]. by intros c [? _]. }
  destruct (Path.root p) as [|r rs] eqn:Hroot.
  - destruct (Path.parts p) as [|c cs] eqn:Hparts; [done|].
    split; [done|]. apply Forall_cons in Hp as [[_ Hc] _].
    rewrite app_nil_l. destruct cs; [done|].
    rewrite join_cons_cons. destruct c; [done|]. by rewrite app_cons.
  - split; [done|]. by rewrite app_cons.
Qed.

Lemma output_file_clean output_path out_filename :
  Py.ws_free output_path = true → Py.ws_free out_filename = true →
  Py.ws_free (output_file (Path.parse output_path) out_filename) = true
  ∧ output_file (Path.parse output_path) out_filename ≠ "".
Proof.
  intros Ho Hn. unfold output_file, Path.div.
  destruct (Path.root (Path.parse out_filename)) eqn:Hroot.
  - apply str_clean; simpl; [apply (parse_root_ws_free output_path)|].
    apply Forall_app. split; by apply parse_parts_clean.
  - apply str_clean; [apply parse_root_ws_free|by apply parse_parts_clean].
Qed.

Lemma unpaired_out_filename_ws_free f :
  Py.ws_free f = true → Py.ws_free (unpaired_out_filename f) = true.
Proof. intros Hf. by apply re_sub_ws_free, name_ws_free. Qed.

Lemma paired_out_filename_ws_free p1 :
  Py.ws_free p1 = true → Py.ws_free (paired_out_filename p1) = true.
Proof.
  intros Hf. apply re_sub_ws_free; [done|].
  by apply re_sub_ws_free, name_ws_free.
Qed.

End output_paths.

(** ** The output token of a command *)

Section output_token.

Lemma literal_tokens_no_S : "-S" ∉ ["hisat2"; "--dta"; "-x"].
Proof. apply (bool_decide_unpack _). by vm_compute. Qed.

Lemma unpaired_output_token idx_prefix (output_path : string) f st :
  Py.ws_free idx_prefix = true → idx_prefix ≠ "-S" →
  Py.ws_free output_path = true →
  Py.ws_free f = true → f ≠ "-S" →
  Job.output_file_of (unpaired_command idx_prefix (Path.parse output_path) f) st
  = (Job.Ok (output_file (Path.parse output_path) (unpaired_out_filename f)), st).
Proof.
  intros Hi Hi' Ho Hf Hf'. unfold unpaired_command.
  destruct (output_file_clean output_path (unpaired_out_filename f))
    as [HS HS']; [done|by apply unpaired_out_filename_ws_free|].
  apply output_file_of_tokens
    with (front := ["hisat2"; "--dta"; "-x"] ++ Py.flush idx_prefix ++ ["-U"]
                     ++ Py.flush f).
  - rewrite split_unpaired, (flush_nonempty _ HS') by done.
    by rewrite <- !(assoc_L (++)).
  - rewrite !not_elem_of_app. repeat split.
    + apply literal_tokens_no_S.
    + by apply flush_notin.
    + apply (bool_decide_unpack _). by vm_compute.
    + by apply flush_notin.
Qed.

Lemma paired_output_token idx_prefix (output_path : string) p1 p2 st :
  Py.ws_free idx_prefix = true → idx_prefix ≠ "-S" →
  Py.ws_free output_path = true →
  Py.ws_free p1 = true → p1 ≠ "-S" → Py.ws_free p2 = true → p2 ≠ "-S" →
  Job.output_file_of
    (paired_command idx_prefix (Path.parse output_path) (p1, p2)) st
  = (Job.Ok (output_file (Path.parse output_path) (paired_out_filename p1)), st).
Proof.
  intros Hi Hi' Ho H1 H1' H2 H2'. unfold paired_command.
  destruct (output_file_clean output_path (paired_out_filename p1))
    as [HS HS']; [done|by apply paired_out_filename_ws_free|].
  apply output_file_of_tokens
    with (front := ["hisat2"; "--dta"; "-x"] ++ Py.flush idx_prefix ++ ["-1"]
                     ++ Py.flush p1 ++ ["-2"] ++ Py.flush p2).
  - rewrite split_paired, (flush_nonempty _ HS') by done.
    by rewrite <- !(assoc_L (++)).
  - rewrite !not_elem_of_app. repeat split.
    + apply literal_tokens_no_S.
    + by apply flush_notin.
    + apply (bool_decide_unpack _). by vm_compute.
    + by apply flush_notin.
    + apply (bool_decide_unpack _). by vm_compute.
    + by apply flush_notin.
Qed.

(** C10 (amended): when the input paths, the index prefix and the output
    directory contain no whitespace, and neither the index prefix nor an
    input path is the bare token [-S], then for every job of
    [assemble_commands] the token that follows [-S] in the split command is
    exactly the output path computed for that job, so the existence check of
    the generated script looks at the file that the command writes. *)
Theorem output_token_is_output_path (files : FilePairing)
    (idx_prefix output_path : string) :
  Py.ws_free idx_prefix = true →
  Py.ws_free output_path = true →
  Forall (λ f, Py.ws_free f = true) (input_paths files) →
  "-S" ∉ idx_prefix :: input_paths files →
  Forall2 (λ command S, ∀ st, Job.output_file_of command st = (Job.Ok S, st))
    (Gen.to_list (assemble_commands files idx_prefix output_path))
    (output_paths files output_path).
Proof.
  intros Hi Ho Hws HS.
  apply not_elem_of_cons in HS as [Hi' HS].
  unfold input_paths in *.
  apply Forall_app in Hws as [Hu Hp]. apply not_elem_of_app in HS as [HSu HSp].
  rewrite assemble_commands_eq. unfold output_paths, Gen.to_list; simpl.
  apply Forall2_app; apply Forall2_fmap, Forall_Forall2_diag, Forall_forall.
  - intros f Hf st. apply unpaired_output_token; try done.
    + by eapply Forall_forall in Hu.
    + by intros ->.
  - intros [p1 p2] Hin st.
    assert (p1 ∈ chain_from_iterable (paired files)) as Hin1
      by (apply elem_of_chain_from_iterable; exists (p1, p2); auto).
    assert (p2 ∈ chain_from_iterable (paired files)) as Hin2
      by (apply elem_of_chain_from_iterable; exists (p1, p2); auto).
    apply paired_output_token; try done.
    + by eapply Forall_forall in Hp.
    + intros Heq. simpl in Heq. by rewrite Heq in Hin1.
    + by eapply Forall_forall in Hp.
    + intros Heq. simpl in Heq. by rewrite Heq in Hin2.
Qed.

Lemma output_token_is_output_path_witness :
  let files := search_files (scenario_dir ["a_R1_paired.fastq";
                                           "a_R2_paired.fastq";
                                           "b_trimmed.fastq"]) in
  Forall2 (λ command S, ∀ st, Job.output_file_of command st = (Job.Ok S, st))
    (Gen.to_list (assemble_commands files "idx" "out/"))
    (output_paths files "out/").
Proof.
  intros files.
  apply (output_token_is_output_path files "idx" "out/").
  - vm_compute; reflexivity.
  - vm_compute; reflexivity.
  - apply (bool_decide_unpack _). vm_compute. exact I.
  - apply (bool_decide_unpack _). vm_compute. exact I.
Defined.

(** C10, as stated, fails: with the index prefix [-S], which has no
    whitespace, the token after the first [-S] of the command is [-U] and
    not the output path of the job. *)
Lemma output_token_counterexample :
  let files := search_files (scenario_dir ["a_R1_paired.fastq";
                                           "a_R2_paired.fastq";
                                           "b_trimmed.fastq"]) in
  Py.ws_free "-S" = true ∧ Py.ws_free "out/" = true
  ∧ Forall (λ f, Py.ws_free f = true) (input_paths files)
  ∧ Gen.to_list (assemble_commands files "-S" "out/") !! 0
    = Some "hisat2 --dta -x -S -U b_trimmed.fastq -S out/b_trimmed.sam"
  ∧ output_paths files "out/" !! 0 = Some "out/b_trimmed.sam"
  ∧ Job.output_file_of
      "hisat2 --dta -x -S -U b_trimmed.fastq -S out/b_trimmed.sam" Job.initial
    = (Job.Ok "-U", Job.initial).
Proof.
  intros files. split; [by vm_compute|]. split; [by vm_compute|].
  split; [apply (bool_decide_unpack _); by vm_compute|].
  split; [by vm_compute|]. split; by vm_compute.
Qed.

End output_token.

(** ** The run body of the generated script *)

Section run_body.

Variables (w : Job.world) (commands : gmap Z string).
Variables (task_id : Z) (command output_file : string) (i : nat).

Hypothesis task_id_read : Job.sge_task_id w = Job.Ok task_id.
Hypothesis command_found : commands !! task_id = Some command.
Hypothesis flag_found : Py.index "-S" (Py.split command) = Some i.
Hypothesis token_found : Py.split command !! (i + 1) = Some output_file.

Lemma body_unfold st :
  Job.body w commands st
  = if Job.path_exists w (Path.parse output_file) then
      Job.print ["Task " +:+ pretty task_id +:+ ". Output file already exists:";
                 output_file] st
    else
      Job.bind (Job.now w) (λ t1,
        Job.bind (Job.print ["Task " +:+ pretty task_id +:+ ". Executing command @";
                             t1; ":"; command]) (λ _,
          Job.bind (Job.subprocess_run w (Py.split command)) (λ _,
            Job.bind (Job.now w) (λ t2,
              Job.print ["Task " +:+ pretty task_id +:+ ". Finished execution @";
                         t2])))) st.
Proof.
  unfold Job.body, Job.output_file_of, Job.bind at 1 2 3 4, Job.lift,
    Job.from_option, Job.ret.
  rewrite task_id_read, command_found, flag_found, token_found.
  by destruct (Job.path_exists w (Path.parse output_file)).
Qed.

(** C8: for a task id that has a command whose token after [-S] names a
    file that exists, the body prints the skip message and does nothing
    else, so it starts no subprocess.  When the file does not exist it
    prints the start message with the time and runs the split command as a
    subprocess; if the subprocess could be started, the body waits for its
    end and then prints the finish message with the time, whatever the
    return code; if it could not be started, the exception ends the task
    after the start message, and no finish message is printed. *)
Theorem body_skips_existing_output :
  (Job.path_exists w (Path.parse output_file) = true →
     Job.body w commands Job.initial
     = (Job.Ok tt,
        {| Job.trace :=
             [Job.Print (Py.join " "
                ["Task " +:+ pretty task_id +:+ ". Output file already exists:";
                 output_file])];
           Job.clock_reads := 0 |})
     ∧ Forall (λ e, Job.is_subprocess_run e = false)
              (Job.trace (Job.body w commands Job.initial).2))
  ∧ (Job.path_exists w (Path.parse output_file) = false →
     ∀ status, Job.run_outcome w (Py.split command) = Job.Ok status →
     Job.body w commands Job.initial
     = (Job.Ok tt,
        {| Job.trace :=
             [Job.Print (Py.join " "
                ["Task " +:+ pretty task_id +:+ ". Executing command @";
                 Job.maya_now w 0; ":"; command]);
              Job.SubprocessRun (Py.split command);
              Job.Print (Py.join " "
                ["Task " +:+ pretty task_id +:+ ". Finished execution @";
                 Job.maya_now w 1])];
           Job.clock_reads := 2 |}))
  ∧ (Job.path_exists w (Path.parse output_file) = false →
     ∀ e, Job.run_outcome w (Py.split command) = Job.Raise e →
     Job.body w commands Job.initial
     = (Job.Raise e,
        {| Job.trace :=
             [Job.Print (Py.join " "
                ["Task " +:+ pretty task_id +:+ ". Executing command @";
                 Job.maya_now w 0; ":"; command]);
              Job.SubprocessRun (Py.split command)];
           Job.clock_reads := 1 |})).
Proof.
  split; [|split].
  - intros Hex. rewrite !body_unfold, Hex.
    split; [done|]. simpl. by repeat constructor.
  - intros Hex status Hrun. rewrite !body_unfold, Hex.
    unfold Job.bind, Job.now, Job.print, Job.subprocess_run. simpl.
    by rewrite Hrun.
  - intros Hex e Hrun. rewrite !body_unfold, Hex.
    unfold Job.bind, Job.now, Job.print, Job.subprocess_run. simpl.
    by rewrite Hrun.
Qed.

End run_body.

(** ** The embedded dictionary *)

Section embedded_commands.

Implicit Types (commands : list string) (k : Z).

Lemma enumerate_snoc {A} (l : list A) x :
  enumerate (l ++ [x]) = enumerate l ++ [(length l, x)].
Proof.
  unfold enumerate. rewrite imap_app. simpl. by rewrite Nat.add_0_r.
Qed.

Lemma enumerate_lookup {A} (l : list A) i :
  enumerate l !! i = (λ x, (i, x)) <$> l !! i.
Proof. unfold enumerate. by rewrite list_lookup_imap. Qed.

Lemma enumerate_keys {A} (l : list A) :
  (λ e, e.1 + 1) <$> enumerate l = seq 1 (length l).
Proof.
  induction l as [|x l IH] using rev_ind; [done|].
  rewrite enumerate_snoc, fmap_app, IH, length_app, seq_app. simpl.
  by rewrite Nat.add_comm.
Qed.

Lemma positions_dict_snoc commands s :
  positions_dict (commands ++ [s])
  = <[Z.of_nat (length commands + 1) := s]> (positions_dict commands).
Proof.
  unfold positions_dict. by rewrite enumerate_snoc, fold_left_app.
Qed.

Lemma positions_dict_lookup commands k :
  positions_dict commands !! k
  = if bool_decide (1 ≤ k)%Z then commands !! Z.to_nat (k - 1) else None.
Proof.
  induction commands as [|s commands IH] using rev_ind.
  - unfold positions_dict; simpl. rewrite lookup_empty. by case_bool_decide.
  - rewrite positions_dict_snoc, lookup_insert, IH. clear IH.
    destruct (decide (Z.of_nat (length commands + 1) = k)) as [<-|Hne].
    + rewrite bool_decide_eq_true_2 by lia.
      replace (Z.to_nat (Z.of_nat (length commands + 1) - 1))
        with (length commands + 0) by lia.
      by rewrite lookup_app_r, Nat.add_0_r, Nat.sub_diag by lia.
    + case_bool_decide as Hk; [|done].
      destruct (decide (Z.to_nat (k - 1) < length commands)) as [Hlt|Hge].
      * by rewrite lookup_app_l.
      * rewrite !lookup_ge_None_2; [done| |lia].
        rewrite length_app; simpl. lia.
Qed.

Lemma positions_dict_is_Some commands k :
  is_Some (positions_dict commands !! k) ↔ (1 ≤ k ≤ Z.of_nat (length commands))%Z.
Proof.
  rewrite positions_dict_lookup. case_bool_decide as Hk.
  - rewrite lookup_lt_is_Some. lia.
  - split; [by intros [? ?]|lia].
Qed.

End embedded_commands.

(** ** Lines of a text and [dedent] *)

Section text_lines.

Lemma inline_cons c s :
  inline (String c s) = negb (Ascii.eqb c "010") && inline s.
Proof. done. Qed.

Lemma inline_app a b : inline (a +:+ b) = inline a && inline b.
Proof.
  induction a as [|c a IH]; [done|].
  by rewrite app_cons, !inline_cons, IH, andb_assoc.
Qed.

Lemma split_on_nonempty sep s : Py.split_on sep s ≠ [].
Proof.
  destruct s as [|c s]; [done|]. simpl.
  destruct (Ascii.eqb c sep); [done|]. by destruct (Py.split_on sep s).
Qed.

Lemma lines_app_LF a b : lines (a +:+ Py.LF +:+ b) = lines a ++ lines b.
Proof.
  unfold lines. induction a as [|c a IH]; [done|].
  rewrite app_cons. simpl. destruct (Ascii.eqb c "010"); [by rewrite IH|].
  rewrite IH. pose proof (split_on_nonempty "010" a) as Hne.
  by destruct (Py.split_on "010" a).
Qed.

Lemma lines_inline s : inline s = true → lines s = [s].
Proof.
  unfold lines. induction s as [|c s IH]; [done|].
  rewrite inline_cons. intros [Hc Hs]%andb_true_iff.
  apply negb_true_iff in Hc. simpl. by rewrite Hc, IH.
Qed.

Lemma lines_are_inline s : Forall (λ l, inline l = true) (lines s).
Proof.
  unfold lines. induction s as [|c s IH]; [by repeat constructor|]. simpl.
  destruct (Ascii.eqb c "010") eqn:Hc; [by constructor|].
  pose proof (split_on_nonempty "010" s) as Hne.
  destruct (Py.split_on "010" s) as [|l ls]; [done|].
  apply Forall_cons in IH as [Hl Hls]. constructor; [|done].
  by rewrite inline_cons, Hc, Hl.
Qed.

Lemma elem_of_lines_join l d :
  d ∈ l → inline d = true → d ∈ lines (Py.join Py.LF l).
Proof.
  intros Hd Hin. induction l as [|x l IH]; [by apply not_elem_of_nil in Hd|].
  destruct l as [|y l].
  - apply list_elem_of_singleton in Hd as ->.
    change (Py.join Py.LF [x]) with x. rewrite lines_inline by done.
    by apply list_elem_of_singleton.
  - rewrite join_cons_cons, lines_app_LF. apply elem_of_app.
    apply elem_of_cons in Hd as [->|Hd]; [left|right; by apply IH].
    rewrite lines_inline by done. by apply list_elem_of_singleton.
Qed.

Lemma lines_join_inline l :
  l ≠ [] → Forall (λ x, inline x = true) l → lines (Py.join Py.LF l) = l.
Proof.
  intros Hne Hl. induction Hl as [|x l Hx Hl IH]; [done|].
  destruct l as [|y l].
  - change (Py.join Py.LF [x]) with x. by apply lines_inline.
  - rewrite join_cons_cons, lines_app_LF, lines_inline, IH by done. done.
Qed.

Lemma drop_inline n s : inline s = true → inline (Py.drop n s) = true.
Proof.
  revert s. induction n as [|n IH]; intros [|c s]; try done.
  rewrite inline_cons. intros [_ Hs]%andb_true_iff. simpl. by apply IH.
Qed.

Lemma normalize_inline l : inline l = true → inline (Textwrap.normalize l) = true.
Proof. unfold Textwrap.normalize. by destruct (Py.forallb_str _ l). Qed.

Lemma remove_margin_inline m l :
  inline l = true → inline (Textwrap.remove_margin m l) = true.
Proof.
  unfold Textwrap.remove_margin. destruct (Py.startswith m l); [|done].
  apply drop_inline.
Qed.

Lemma lines_dedent text :
  lines (Textwrap.dedent text)
  = let ls := Textwrap.normalize <$> lines text in
    match Textwrap.margin ls with
    | Some m => Textwrap.remove_margin m <$> ls
    | None => ls
    end.
Proof.
  unfold Textwrap.dedent. fold (lines text). simpl.
  assert (Forall (λ l, inline l = true) (Textwrap.normalize <$> lines text)) as Hls.
  { apply Forall_fmap. eapply Forall_impl; [apply lines_are_inline|].
    intros l Hl. by apply normalize_inline. }
  assert (Textwrap.normalize <$> lines text ≠ []) as Hne.
  { intros Heq%fmap_nil_inv. by apply (split_on_nonempty "010" text). }
  destruct (Textwrap.margin _) as [m|].
  - apply lines_join_inline.
    + by intros Heq%fmap_nil_inv.
    + apply Forall_fmap. eapply Forall_impl; [done|].
      intros l Hl. by apply remove_margin_inline.
  - by apply lines_join_inline.
Qed.

Lemma indent_of_blank l : Py.forallb_str Textwrap.is_blank (Textwrap.indent_of l) = true.
Proof.
  induction l as [|c l IH]; [done|]. simpl.
  destruct (Textwrap.is_blank c) eqn:Hc; [|done]. simpl. by rewrite Hc.
Qed.

Lemma common_prefix_blank a b :
  Py.forallb_str Textwrap.is_blank a = true →
  Py.forallb_str Textwrap.is_blank (Textwrap.common_prefix a b) = true.
Proof.
  revert b. induction a as [|x a IH]; intros [|y b]; try done. simpl.
  intros [Hx Ha]%andb_true_iff. destruct (Ascii.eqb x y); [|done].
  simpl. by rewrite Hx, IH.
Qed.

Lemma margin_blank ls m :
  Textwrap.margin ls = Some m → Py.forallb_str Textwrap.is_blank m = true.
Proof.
  unfold Textwrap.margin.
  destruct (Textwrap.indent_of <$> _) as [|i rest] eqn:Hind; [done|].
  intros [= <-].
  assert (Py.forallb_str Textwrap.is_blank i = true) as Hi.
  { assert (i ∈ i :: rest) as Hin by apply list_elem_of_here.
    rewrite <- Hind in Hin.
    apply list_elem_of_fmap in Hin as (l & -> & _). apply indent_of_blank. }
  clear Hind. revert i Hi. induction rest as [|j rest IH]; intros i Hi; [done|].
  simpl. by apply IH, common_prefix_blank.
Qed.

Lemma lstrip_drop_margin m l :
  Py.forallb_str Textwrap.is_blank m = true → Py.startswith m l = true →
  Textwrap.lstrip (Py.drop (String.length m) l) = Textwrap.lstrip l.
Proof.
  revert l. induction m as [|a m IH]; intros [|b l]; try done. simpl.
  intros [Ha Hm]%andb_true_iff [Hab Hl]%andb_true_iff.
  apply Ascii.eqb_eq in Hab as <-. rewrite Ha. by apply IH.
Qed.

Lemma lstrip_remove_margin m l :
  Py.forallb_str Textwrap.is_blank m = true →
  Textwrap.lstrip (Textwrap.remove_margin m l) = Textwrap.lstrip l.
Proof.
  intros Hm. unfold Textwrap.remove_margin.
  destruct (Py.startswith m l) eqn:Hl; [|done]. by apply lstrip_drop_margin.
Qed.

(** [dedent] keeps every line that is not blank, up to its indentation. *)
Lemma dedent_keeps_line text d :
  d ∈ lines text → Py.forallb_str Textwrap.is_blank d = false →
  Textwrap.lstrip d ∈ Textwrap.lstrip <$> lines (Textwrap.dedent text).
Proof.
  intros Hd Hnb. rewrite lines_dedent. simpl.
  assert (d ∈ Textwrap.normalize <$> lines text) as Hd'.
  { apply list_elem_of_fmap. exists d. split; [|done].
    unfold Textwrap.normalize. by rewrite Hnb. }
  destruct (Textwrap.margin _) as [m|] eqn:Hm.
  - apply list_elem_of_fmap. exists (Textwrap.remove_margin m d). split.
    + symmetry. eapply lstrip_remove_margin, margin_blank, Hm.
    + by apply list_elem_of_fmap_2.
  - by apply list_elem_of_fmap_2.
Qed.

End text_lines.

(** ** The margin of the template *)

Section template_margin.

Lemma pretty_N_go_inline x s :
  inline s = true → inline (pretty_N_go x s) = true.
Proof.
  revert s. induction (N.lt_wf_0 x) as [x _ IH]; intros s Hs.
  assert (x = 0 ∨ 0 < x)%N as [->|Hx] by lia; [done|].
  rewrite pretty_N_go_step by done. apply IH; [by apply N.div_lt|].
  rewrite inline_cons, Hs. unfold pretty_N_char. by repeat case_match.
Qed.

Lemma pretty_nat_inline (n : nat) : inline (pretty n) = true.
Proof.
  unfold pretty, pretty_nat, pretty, pretty_N.
  case_decide; [done|]. by apply pretty_N_go_inline.
Qed.

Lemma forallb_Forall {A} (f : A → bool) (l : list A) :
  forallb f l = true ↔ Forall (λ x, f x = true) l.
Proof.
  rewrite forallb_forall, Forall_forall. by setoid_rewrite list_elem_of_In.
Qed.

Lemma lines_app_inline a b :
  inline a = true →
  lines (a +:+ b)
  = match lines b with
    | hd :: tl => (a +:+ hd) :: tl
    | [] => [a]
    end.
Proof.
  unfold lines. induction a as [|c a IH]; intros Ha.
  - rewrite app_nil_l. pose proof (split_on_nonempty "010" b).
    by destruct (Py.split_on "010" b).
  - rewrite inline_cons in Ha. apply andb_true_iff in Ha as [Hc Ha].
    apply negb_true_iff in Hc. rewrite app_cons. simpl. rewrite Hc.
    rewrite IH by done. pose proof (split_on_nonempty "010" b).
    by destruct (Py.split_on "010" b).
Qed.

Lemma Forall_lines_join (P : string → Prop) l :
  l ≠ [] → Forall (λ e, Forall P (lines e)) l → Forall P (lines (Py.join Py.LF l)).
Proof.
  intros Hne Hl. induction Hl as [|x l Hx Hl IH]; [done|].
  destruct l as [|y l]; [done|].
  rewrite join_cons_cons, lines_app_LF. apply Forall_app. split; [done|].
  by apply IH.
Qed.

Lemma indented_join es :
  es ≠ [] →
  "    " +:+ Py.join (Py.LF +:+ "    ") es
  = Py.join Py.LF ((λ e, "    " +:+ e) <$> es).
Proof.
  intros Hne. induction es as [|x es IH]; [done|].
  destruct es as [|y es]; [done|].
  rewrite fmap_cons, join_cons_cons.
  change ((λ e, "    " +:+ e) <$> y :: es)
    with (("    " +:+ y) :: ((λ e, "    " +:+ e) <$> es)).
  rewrite join_cons_cons.
  change (("    " +:+ y) :: ((λ e, "    " +:+ e) <$> es))
    with ((λ e, "    " +:+ e) <$> y :: es).
  rewrite <- IH by done. by rewrite !append_assoc.
Qed.

Lemma command_entry_inline e : inline e.2 = true → inline (command_entry e) = true.
Proof.
  intros He. unfold command_entry.
  by rewrite !inline_app, pretty_nat_inline, He.
Qed.

Lemma startswith_app q a b :
  Py.startswith q a = true → Py.startswith q (a +:+ b) = true.
Proof.
  revert a. induction q as [|x q IH]; intros [|y a]; try done.
  rewrite app_cons. simpl. intros [Hxy Hq]%andb_true_iff.
  by rewrite Hxy, IH.
Qed.

Lemma template_lines_const (e : string) :
  forallb template_line (lines e) = true →
  Forall (λ l, template_line l = true) (lines e).
Proof. apply forallb_Forall. Qed.

Lemma template_lines_single (e : string) :
  inline e = true → Py.startswith "    " e = true →
  Forall (λ l, template_line l = true) (lines e).
Proof.
  intros He Hs. rewrite lines_inline by done. apply Forall_singleton.
  unfold template_line. by rewrite Hs, orb_true_r.
Qed.

Lemma template_lines_hole (a p : string) :
  inline a = true → Py.startswith "    " a = true → hanging p = true →
  Forall (λ l, template_line l = true) (lines (a +:+ p)).
Proof.
  intros Ha Hs Hp. rewrite lines_app_inline by done. unfold hanging in Hp.
  destruct (lines p) as [|hd tl]; simpl in Hp.
  - apply Forall_singleton. unfold template_line. by rewrite Hs, orb_true_r.
  - constructor.
    + unfold template_line. by rewrite startswith_app, orb_true_r.
    + apply forallb_Forall in Hp. eapply Forall_impl; [done|].
      intros l Hl. unfold template_line. by rewrite Hl.
Qed.

Lemma elem_of_enumerate {A} (l : list A) e : e ∈ enumerate l → e.2 ∈ l.
Proof.
  intros [i Hi]%list_elem_of_lookup. rewrite enumerate_lookup in Hi.
  destruct (l !! i) as [x|] eqn:Hx; [|done]. injection Hi as <-.
  by eapply list_elem_of_lookup_2.
Qed.

Lemma template_lines_commands (commands : list string) :
  Forall (λ c, inline c = true) commands →
  Forall (λ l, template_line l = true) (lines ("    " +:+ commands_str commands)).
Proof.
  intros Hc. unfold commands_str.
  destruct (command_entry <$> enumerate commands) as [|x es] eqn:Hes.
  { by apply template_lines_const. }
  rewrite <- Hes, indented_join by (by rewrite Hes).
  apply Forall_lines_join; [by rewrite Hes|].
  apply Forall_fmap, Forall_fmap, Forall_forall. intros e He. simpl.
  apply template_lines_single; [|done].
  rewrite inline_app. apply command_entry_inline.
  apply elem_of_enumerate in He. by eapply Forall_forall in Hc.
Qed.

Lemma lines_indented_commands (commands : list string) :
  Forall (λ c, inline c = true) commands → commands ≠ [] →
  lines ("    " +:+ commands_str commands)
  = (λ e, "    " +:+ command_entry e) <$> enumerate commands.
Proof.
  intros Hc Hne. unfold commands_str.
  assert (command_entry <$> enumerate commands ≠ []) as Hne'.
  { intros Heq%fmap_nil_inv. apply Hne.
    apply (f_equal length) in Heq. unfold enumerate in Heq.
    rewrite length_imap in Heq. by destruct commands. }
  rewrite indented_join, <- list_fmap_compose by done.
  apply lines_join_inline.
  - intros Heq%fmap_nil_inv. apply Hne'. by rewrite Heq.
  - apply Forall_fmap, Forall_forall. intros e He. simpl.
    rewrite inline_app. apply command_entry_inline.
    apply elem_of_enumerate in He. by apply (proj1 (Forall_forall _ _) Hc).
Qed.

(** Under the conditions of a usual run every line of the template is
    blank or indented by four spaces. *)
Lemma template_lines_ok python3_exec_path ram (commands : list string) :
  hanging python3_exec_path = true → inline ram = true →
  Forall (λ c, inline c = true) commands →
  Forall (λ l, template_line l = true)
         (lines (script_template python3_exec_path ram commands)).
Proof.
  intros Hp Hr Hc. unfold script_template.
  apply Forall_lines_join; [done|].
  apply Forall_app. unfold header_lines, body_lines.
  split;
    repeat (apply Forall_cons_2;
            [try (apply template_lines_const; reflexivity)|]);
    try apply Forall_nil_2.
  - by apply template_lines_hole.
  - by apply template_lines_hole.
  - apply template_lines_single; [|done]. by rewrite !inline_app, Hr.
  - apply template_lines_single; [|done]. by rewrite inline_app, pretty_nat_inline.
  - by apply template_lines_commands.
Qed.

Lemma common_prefix_l q j :
  Py.startswith q j = true → Textwrap.common_prefix q j = q.
Proof.
  revert j. induction q as [|x q IH]; intros [|y j]; try done. simpl.
  intros [Hxy Hq]%andb_true_iff. by rewrite Hxy, IH.
Qed.

Lemma common_prefix_r q i :
  Py.startswith q i = true → Textwrap.common_prefix i q = q.
Proof.
  revert i. induction q as [|x q IH]; intros [|y i]; try done. simpl.
  intros [Hxy Hq]%andb_true_iff. rewrite Ascii.eqb_sym, Hxy, IH by done.
  by apply Ascii.eqb_eq in Hxy as ->.
Qed.

Lemma common_prefix_startswith q i j :
  Py.startswith q i = true → Py.startswith q j = true →
  Py.startswith q (Textwrap.common_prefix i j) = true.
Proof.
  revert i j. induction q as [|x q IH]; intros [|y i] [|z j]; try done. simpl.
  intros [Hxy Hi]%andb_true_iff [Hxz Hj]%andb_true_iff.
  apply Ascii.eqb_eq in Hxy as <-. apply Ascii.eqb_eq in Hxz as <-.
  rewrite Ascii.eqb_refl. simpl. by rewrite Ascii.eqb_refl, IH.
Qed.

Lemma fold_common_prefix q rest i :
  Forall (λ x, Py.startswith q x = true) (i :: rest) → q ∈ i :: rest →
  fold_left Textwrap.common_prefix rest i = q.
Proof.
  revert i. induction rest as [|j rest IH]; intros i Hall Hq.
  - by apply list_elem_of_singleton in Hq.
  - apply Forall_cons in Hall as [Hi Hall].
    pose proof Hall as [Hj Hrest]%Forall_cons. simpl. apply IH.
    + constructor; [by apply common_prefix_startswith|done].
    + apply elem_of_cons in Hq as [->|Hq].
      * rewrite common_prefix_l by done. apply list_elem_of_here.
      * apply elem_of_cons in Hq as [->|Hq].
        -- rewrite common_prefix_r by done. apply list_elem_of_here.
        -- by apply list_elem_of_further.
Qed.

Lemma startswith_indent q l :
  Py.forallb_str Textwrap.is_blank q = true → Py.startswith q l = true →
  Py.startswith q (Textwrap.indent_of l) = true.
Proof.
  revert l. induction q as [|x q IH]; intros [|y l]; try done. simpl.
  intros [Hx Hq]%andb_true_iff [Hxy Hl]%andb_true_iff.
  apply Ascii.eqb_eq in Hxy as <-. rewrite Hx. simpl.
  by rewrite Ascii.eqb_refl, IH.
Qed.

Lemma margin_exact (ls : list string) q l0 :
  Py.forallb_str Textwrap.is_blank q = true →
  Forall (λ l, l = "" ∨ Py.startswith q l = true) ls →
  l0 ∈ ls → l0 ≠ "" → Textwrap.indent_of l0 = q →
  Textwrap.margin ls = Some q.
Proof.
  intros Hq Hls Hl0 Hne Hind. unfold Textwrap.margin.
  rewrite List_filter_stdpp.
  set (inds := Textwrap.indent_of <$> filter _ ls).
  assert (Forall (λ x, Py.startswith q x = true) inds) as Hall.
  { apply Forall_fmap, Forall_forall. intros l [Hl Hin]%list_elem_of_filter.
    simpl. apply startswith_indent; [done|].
    apply (proj1 (Forall_forall _ _) Hls) in Hin as [->|Hs]; done. }
  assert (q ∈ inds) as Hin.
  { rewrite <- Hind. apply list_elem_of_fmap_2, list_elem_of_filter.
    split; [|done]. apply negb_true_iff. by apply String.eqb_neq. }
  destruct inds as [|i rest]; [by apply not_elem_of_nil in Hin|].
  by rewrite (fold_common_prefix q).
Qed.

(** In a usual run the margin that [dedent] removes is the four spaces of
    the template. *)
Lemma template_margin python3_exec_path ram (commands : list string) :
  hanging python3_exec_path = true → inline ram = true →
  Forall (λ c, inline c = true) commands →
  Textwrap.margin
    (Textwrap.normalize <$> lines (script_template python3_exec_path ram commands))
  = Some "    ".
Proof.
  intros Hp Hr Hc. apply margin_exact with (l0 := "    #$ -cwd"); try done.
  - apply Forall_fmap. eapply Forall_impl; [by apply template_lines_ok|].
    intros l Hl. simpl. unfold Textwrap.normalize, template_line in *.
    destruct (Py.forallb_str Textwrap.is_blank l); [by left|by right].
  - apply list_elem_of_fmap. exists "    #$ -cwd". split; [done|].
    apply elem_of_lines_join; [|done]. apply elem_of_app. left.
    unfold header_lines. do 6 apply list_elem_of_further. apply list_elem_of_here.
Qed.

End template_margin.

(** ** The dictionary that Python reads from the script *)

Section script_reading.

Lemma forallb_str_app p a b :
  Py.forallb_str p (a +:+ b) = Py.forallb_str p a && Py.forallb_str p b.
Proof.
  induction a as [|c a IH]; [done|]. rewrite app_cons. simpl.
  by rewrite IH, andb_assoc.
Qed.

Lemma forallb_str_impl (p q : ascii → bool) s :
  (∀ c, p c = true → q c = true) →
  Py.forallb_str p s = true → Py.forallb_str q s = true.
Proof.
  intros Hpq. induction s as [|c s IH]; [done|]. simpl.
  intros [Hc Hs]%andb_true_iff. by rewrite (Hpq c Hc), IH.
Qed.

Lemma forallb_str_join p sep l :
  Py.forallb_str p sep = true → Forall (λ x, Py.forallb_str p x = true) l →
  Py.forallb_str p (Py.join sep l) = true.
Proof.
  intros Hsep Hl. induction Hl as [|x l Hx Hl IH]; [done|].
  destruct l as [|y l]; [done|].
  by rewrite join_cons_cons, !forallb_str_app, Hx, Hsep, IH.
Qed.

Lemma forallb_str_drop p n s :
  Py.forallb_str p s = true → Py.forallb_str p (Py.drop n s) = true.
Proof.
  revert s. induction n as [|n IH]; intros [|c s]; try done. simpl.
  intros [_ Hs]%andb_true_iff. by apply IH.
Qed.

Lemma forallb_str_lines p s :
  Py.forallb_str p s = true → Forall (λ l, Py.forallb_str p l = true) (lines s).
Proof.
  unfold lines. induction s as [|c s IH]; [by repeat constructor|]. simpl.
  intros [Hc Hs]%andb_true_iff. specialize (IH Hs).
  destruct (Ascii.eqb c "010"); [by constructor|].
  pose proof (split_on_nonempty "010" s) as Hne.
  destruct (Py.split_on "010" s) as [|l ls]; [done|].
  apply Forall_cons in IH as [Hl Hls]. constructor; [|done].
  simpl. by rewrite Hc, Hl.
Qed.

Lemma pretty_N_go_forallb (p : ascii → bool) x s :
  (∀ d, (d < 10)%N → p (pretty_N_char d) = true) →
  Py.forallb_str p s = true → Py.forallb_str p (pretty_N_go x s) = true.
Proof.
  intros Hp. revert s. induction (N.lt_wf_0 x) as [x _ IH]; intros s Hs.
  assert (x = 0 ∨ 0 < x)%N as [->|Hx] by lia; [done|].
  rewrite pretty_N_go_step by done. apply IH; [by apply N.div_lt|].
  simpl. rewrite Hs, Hp; [done|]. by apply N.mod_lt.
Qed.

Lemma pretty_nat_forallb (p : ascii → bool) (n : nat) :
  (∀ d, (d < 10)%N → p (pretty_N_char d) = true) →
  Py.forallb_str p (pretty n) = true.
Proof.
  intros Hp. unfold pretty, pretty_nat, pretty, pretty_N.
  case_decide; [|by apply pretty_N_go_forallb].
  change (p (pretty_N_char 0) && true = true). by rewrite (Hp 0%N).
Qed.

Lemma digit_cases (P : N → Prop) :
  P 0%N → P 1%N → P 2%N → P 3%N → P 4%N → P 5%N → P 6%N → P 7%N → P 8%N →
  P 9%N → ∀ d, (d < 10)%N → P d.
Proof.
  intros. assert (d = 0 ∨ d = 1 ∨ d = 2 ∨ d = 3 ∨ d = 4 ∨ d = 5 ∨ d = 6
                  ∨ d = 7 ∨ d = 8 ∨ d = 9)%N as Hd by lia.
  by repeat destruct Hd as [->|Hd]; [..|subst].
Qed.

Lemma digit_value_char d :
  (d < 10)%N → Script.digit_value (pretty_N_char d) = Some d.
Proof. revert d. by apply digit_cases. Qed.

Lemma dec_go_pretty_go x s :
  ∃ p, ∀ acc, Script.dec_go acc (pretty_N_go x s) = Script.dec_go (acc * p + x) s.
Proof.
  revert s. induction (N.lt_wf_0 x) as [x _ IH]; intros s.
  assert (x = 0 ∨ 0 < x)%N as [->|Hx] by lia.
  - exists 1%N. intros acc. by rewrite N.mul_1_r, N.add_0_r.
  - rewrite pretty_N_go_step by done.
    destruct (IH (x `div` 10)%N (N.div_lt x 10 Hx eq_refl)
                 (String (pretty_N_char (x `mod` 10)) s)) as [p Hp].
    exists (p * 10)%N. intros acc. rewrite Hp.
    change (Script.dec_go ?a (String ?c ?t))
      with (match Script.digit_value c with
            | Some d => Script.dec_go (a * 10 + d) t
            | None => None
            end).
    rewrite digit_value_char by (by apply N.mod_lt). f_equal.
    pose proof (N.div_mod x 10). lia.
Qed.

Lemma parse_key_pretty (n : nat) : Script.parse_key (pretty n) = Some (Z.of_nat n).
Proof.
  unfold Script.parse_key.
  assert (Script.dec_go 0 (pretty n) = Some (N.of_nat n)) as ->.
  { unfold pretty at 1, pretty_nat, pretty, pretty_N.
    case_decide as Hn; [by rewrite Hn|].
    destruct (dec_go_pretty_go (N.of_nat n) "") as [p Hp]. by rewrite Hp. }
  change (pretty (N.of_nat n)) with (pretty n).
  by rewrite String.eqb_refl, nat_N_Z.
Qed.

Lemma span_digits_app ds rest :
  Py.forallb_str (λ c, bool_decide (is_Some (Script.digit_value c))) ds = true →
  Script.span_digits rest = ("", rest) →
  Script.span_digits (ds +:+ rest) = (ds, rest).
Proof.
  intros Hds Hrest. induction ds as [|c ds IH]; [done|].
  simpl in Hds. apply andb_true_iff in Hds as [Hc Hds].
  apply bool_decide_eq_true in Hc as [d Hd]. rewrite app_cons.
  change (Script.span_digits (String c (ds +:+ rest)))
    with (match Script.digit_value c with
          | Some _ => let '(d, r) := Script.span_digits (ds +:+ rest) in
                      (String c d, r)
          | None => (EmptyString, String c (ds +:+ rest))
          end).
  by rewrite Hd, IH.
Qed.

Lemma plain_char_quote c : Script.plain_char c = true → Ascii.eqb c "'" = false.
Proof.
  unfold Script.plain_char. intros [[_ Hq]%andb_true_iff _]%andb_true_iff.
  by apply negb_true_iff.
Qed.

Lemma plain_char_text c : Script.plain_char c = true → Script.text_char c = true.
Proof.
  unfold Script.plain_char, Script.text_char.
  intros [[-> _]%andb_true_iff _]%andb_true_iff. done.
Qed.

Lemma plain_char_inline c :
  Script.plain_char c = true → negb (Ascii.eqb c "010") = true.
Proof.
  intros Hc. destruct (Ascii.eqb_spec c "010") as [->|]; [|done].
  by vm_compute in Hc.
Qed.

Lemma plain_text s : Script.plain s = true → Script.text s = true.
Proof. apply forallb_str_impl, plain_char_text. Qed.

Lemma plain_inline s : Script.plain s = true → inline s = true.
Proof. apply forallb_str_impl, plain_char_inline. Qed.

Lemma read_literal_plain acc s :
  Script.plain s = true →
  Script.read_literal acc (s +:+ "'") = Script.Value (acc +:+ s).
Proof.
  revert acc. induction s as [|c s IH]; intros acc Hs.
  - by rewrite app_nil_r.
  - apply andb_true_iff in Hs as [Hc Hs]. rewrite app_cons.
    change (Script.read_literal acc (String c (s +:+ "'")))
      with (if Ascii.eqb c "'" then
              if Script.closes_statement (s +:+ "'") then Script.Value acc
              else if Script.opens_literal (s +:+ "'") then Script.SyntaxError
              else Script.Unknown
            else if Script.plain_char c
                 then Script.read_literal (acc +:+ String c EmptyString) (s +:+ "'")
                 else Script.Unknown).
    rewrite (plain_char_quote c Hc), Hc, IH by done.
    by rewrite append_assoc.
Qed.

Lemma parse_assignment_entry (i : nat) (s : string) :
  Script.plain s = true →
  Script.parse_assignment (command_entry (i, s))
  = Script.Value (Z.of_nat (i + 1), s).
Proof.
  intros Hs. unfold Script.parse_assignment, command_entry.
  change (Py.startswith "commands[" ("commands[" +:+ ?x)) with true.
  change (Py.drop 9 ("commands[" +:+ ?x)) with x. cbv iota.
  rewrite span_digits_app; [|by apply pretty_nat_forallb, digit_cases|done].
  rewrite parse_key_pretty.
  change (Py.startswith "]='" ("]='" +:+ ?x)) with true.
  change (Py.startswith "]='''" ("]='" +:+ ?x)) with (Py.startswith "''" x).
  change (Py.drop 3 ("]='" +:+ ?x)) with x. cbn [fst snd].
  assert (Py.startswith "''" (s +:+ "'") = false) as ->.
  { destruct s as [|c s]; [done|]. apply andb_true_iff in Hs as [Hc _].
    rewrite app_cons.
    change (Py.startswith "''" (String c (s +:+ "'")))
      with (Ascii.eqb "'" c && Py.startswith "'" (s +:+ "'")).
    by rewrite Ascii.eqb_sym, (plain_char_quote c Hc). }
  change (true && negb false) with true. cbv iota.
  by rewrite read_literal_plain.
Qed.

Lemma assignments_entries (es : list (nat * string)) d :
  Forall (λ e, Script.plain e.2 = true) es →
  Script.assignments (command_entry <$> es) d
  = Script.Value (fold_left (λ d e, <[Z.of_nat (e.1 + 1) := e.2]> d) es d).
Proof.
  intros Hes. revert d. induction Hes as [|[i s] es Hs Hes IH]; intros d; [done|].
  rewrite fmap_cons.
  change (Script.assignments (command_entry (i, s) :: (command_entry <$> es)) d)
    with (match Script.parse_assignment (command_entry (i, s)) with
          | Script.Value (k, v) =>
              Script.assignments (command_entry <$> es) (<[k := v]> d)
          | Script.SyntaxError => Script.SyntaxError
          | Script.Unknown => Script.Unknown
          end).
  rewrite parse_assignment_entry by done. by rewrite IH.
Qed.

Lemma skip_app_all p l1 l2 :
  Forall (λ l, p l = true) l1 → Script.skip p (l1 ++ l2) = Script.skip p l2.
Proof. intros Hl. induction Hl as [|x l Hx Hl IH]; [done|]. simpl. by rewrite Hx. Qed.

Lemma strip_lines_app expected rest :
  Script.strip_lines expected (expected ++ rest) = Some rest.
Proof.
  induction expected as [|e es IH]; [done|]. simpl. by rewrite String.eqb_refl.
Qed.

Lemma span_entries_app b r :
  Forall (λ l, Py.startswith "commands[" l = true) b →
  Script.span_entries r = ([], r) →
  Script.span_entries (b ++ r) = (b, r).
Proof.
  intros Hb Hr. induction Hb as [|x b Hx Hb IH]; [done|].
  change (Script.span_entries ((x :: b) ++ r))
    with (if Py.startswith "commands[" x
          then let '(b', r') := Script.span_entries (b ++ r) in (x :: b', r')
          else ([], x :: b ++ r)).
  by rewrite Hx, IH.
Qed.

Lemma join_app sep l1 l2 :
  l1 ≠ [] → l2 ≠ [] →
  Py.join sep (l1 ++ l2) = Py.join sep l1 +:+ sep +:+ Py.join sep l2.
Proof.
  intros Hl1 Hl2. induction l1 as [|x l1 IH]; [done|].
  destruct l1 as [|y l1].
  - destruct l2 as [|z l2]; [done|]. apply join_cons_cons.
  - change ((x :: y :: l1) ++ l2) with (x :: y :: (l1 ++ l2)).
    rewrite !join_cons_cons.
    change (y :: l1 ++ l2) with ((y :: l1) ++ l2).
    by rewrite IH, !append_assoc.
Qed.

Lemma entry_text e :
  Script.plain e.2 = true →
  Py.forallb_str Script.text_char (command_entry e) = true.
Proof.
  intros He. unfold command_entry. rewrite !forallb_str_app.
  rewrite (pretty_nat_forallb Script.text_char) by (by apply digit_cases).
  apply plain_text in He. unfold Script.text in He. by rewrite He.
Qed.

Lemma template_text python3_exec_path ram (commands : list string) :
  Script.text python3_exec_path = true → Script.text ram = true →
  Forall (λ c, Script.plain c = true) commands →
  Py.forallb_str Script.text_char (script_template python3_exec_path ram commands)
  = true.
Proof.
  unfold Script.text. intros Hp Hr Hc. unfold script_template.
  apply forallb_str_join; [done|].
  apply Forall_app. unfold header_lines, body_lines.
  split;
    repeat (apply Forall_cons_2; [try reflexivity|]);
    try apply Forall_nil_2.
  - by rewrite forallb_str_app, Hp.
  - by rewrite forallb_str_app, Hp.
  - by rewrite !forallb_str_app, Hr.
  - rewrite forallb_str_app.
    by rewrite (pretty_nat_forallb Script.text_char) by (by apply digit_cases).
  - rewrite forallb_str_app. unfold commands_str.
    rewrite forallb_str_join; [done|done|].
    apply Forall_fmap, Forall_forall. intros e He. simpl. apply entry_text.
    apply elem_of_enumerate in He. by apply (proj1 (Forall_forall _ _) Hc).
Qed.

Lemma script_text python3_exec_path ram (commands : list string) :
  hanging python3_exec_path = true → Script.text python3_exec_path = true →
  inline ram = true → Script.text ram = true →
  Forall (λ c, Script.plain c = true) commands →
  Script.text (script_contents python3_exec_path ram commands) = true.
Proof.
  intros Hp Hpt Hr Hrt Hc.
  assert (Forall (λ c, inline c = true) commands) as Hci.
  { eapply Forall_impl; [done|]. intros c. apply plain_inline. }
  unfold Script.text, script_contents, Textwrap.dedent.
  fold (lines (script_template python3_exec_path ram commands)). simpl.
  rewrite template_margin by done.
  apply forallb_str_join; [done|].
  apply Forall_fmap, Forall_fmap.
  eapply Forall_impl; [by apply forallb_str_lines, template_text|].
  intros l Hl. simpl. unfold Textwrap.remove_margin, Textwrap.normalize.
  destruct (Py.forallb_str Textwrap.is_blank l); [done|].
  destruct (Py.startswith "    " l); [|done]. by apply forallb_str_drop.
Qed.

Lemma script_lines python3_exec_path ram (commands : list string) :
  hanging python3_exec_path = true → inline ram = true →
  Forall (λ c, inline c = true) commands →
  lines (script_contents python3_exec_path ram commands)
  = Textwrap.remove_margin "    "
      <$> (Textwrap.normalize
             <$> lines (script_template python3_exec_path ram commands)).
Proof.
  intros Hp Hr Hc. unfold script_contents. rewrite lines_dedent. simpl.
  by rewrite template_margin.
Qed.

Lemma template_lines_split python3_exec_path ram (commands : list string) :
  lines (script_template python3_exec_path ram commands)
  = lines (Py.join Py.LF (header_lines python3_exec_path ram commands))
    ++ lines (Py.join Py.LF (body_lines commands)).
Proof.
  unfold script_template. rewrite join_app; [apply lines_app_LF|done|done].
Qed.

Lemma skipped_hole (a p : string) :
  inline a = true →
  (∀ hd, Script.comment_or_blank
           (Textwrap.remove_margin "    " (Textwrap.normalize (a +:+ hd))) = true) →
  hanging p = true →
  Forall (λ l, Script.comment_or_blank
                 (Textwrap.remove_margin "    " (Textwrap.normalize l)) = true)
         (lines (a +:+ p)).
Proof.
  intros Ha Hhd Hp. rewrite lines_app_inline by done. unfold hanging in Hp.
  destruct (lines p) as [|hd tl]; simpl in Hp.
  - apply Forall_singleton. specialize (Hhd ""). by rewrite app_nil_r in Hhd.
  - constructor; [apply Hhd|].
    apply forallb_Forall in Hp. eapply Forall_impl; [done|].
    intros l Hl. simpl. unfold Textwrap.normalize. by rewrite Hl.
Qed.

(** In a usual run the directives of the script are comments and empty
    lines. *)
Lemma header_lines_skipped python3_exec_path ram (commands : list string) :
  hanging python3_exec_path = true → inline ram = true →
  Forall (λ l, Script.comment_or_blank
                 (Textwrap.remove_margin "    " (Textwrap.normalize l)) = true)
         (lines (Py.join Py.LF (header_lines python3_exec_path ram commands))).
Proof.
  intros Hp Hr. apply Forall_lines_join; [done|]. unfold header_lines.
  repeat (apply Forall_cons_2;
          [try (apply forallb_Forall; reflexivity)|]);
    try apply Forall_nil_2.
  - by apply skipped_hole.
  - by apply skipped_hole.
  - rewrite lines_inline by (by rewrite !inline_app, Hr).
    by apply Forall_singleton.
  - rewrite lines_inline by (by rewrite inline_app, pretty_nat_inline).
    by apply Forall_singleton.
Qed.

Lemma body_template_lines (commands : list string) :
  lines (Py.join Py.LF (body_lines commands))
  = take 19 (body_lines []) ++ lines ("    " +:+ commands_str commands)
    ++ drop 20 (body_lines []).
Proof.
  change (body_lines commands)
    with (take 19 (body_lines []) ++ ["    " +:+ commands_str commands]
          ++ drop 20 (body_lines [])).
  rewrite join_app; [|done|done]. rewrite lines_app_LF.
  rewrite join_app; [|done|done]. rewrite lines_app_LF.
  change (Py.join Py.LF ["    " +:+ commands_str commands])
    with ("    " +:+ commands_str commands).
  rewrite !lines_join_inline;
    [done|done|apply forallb_Forall; reflexivity
    |done|apply forallb_Forall; reflexivity].
Qed.

Lemma processed_before :
  Textwrap.remove_margin "    "
    <$> (Textwrap.normalize <$> take 19 (body_lines []))
  = [""; ""] ++ Script.docstring_and_imports
    ++ [""; ""; "# The commands to be executed"; "commands = dict()"].
Proof. vm_compute. reflexivity. Qed.

Lemma processed_after :
  Textwrap.remove_margin "    "
    <$> (Textwrap.normalize <$> drop 20 (body_lines []))
  = [""; "# Fetch the job id"] ++ Script.run_body_text.
Proof. vm_compute. reflexivity. Qed.

Lemma processed_entries c (commands : list string) :
  Forall (λ c, inline c = true) (c :: commands) →
  Textwrap.remove_margin "    "
    <$> (Textwrap.normalize
           <$> lines ("    " +:+ commands_str (c :: commands)))
  = command_entry <$> enumerate (c :: commands).
Proof.
  intros Hc. rewrite lines_indented_commands by done.
  rewrite <- !list_fmap_compose. apply list_fmap_ext. by intros i e _.
Qed.

Lemma lines_head_prefix s hd tl : lines s = hd :: tl → ∃ r, s = hd +:+ r.
Proof.
  unfold lines. revert hd tl. induction s as [|c s IH]; intros hd tl.
  - intros [= <- <-]. by exists "".
  - simpl. destruct (Ascii.eqb c "010").
    + intros [= <- <-]. by exists (String c s).
    + pose proof (split_on_nonempty "010" s) as Hne.
      destruct (Py.split_on "010" s) as [|l ls]; [done|].
      intros [= <- <-]. destruct (IH l ls eq_refl) as [r ->].
      by exists r.
Qed.

Lemma has_infix_app q a r :
  Script.has_infix q a = true → Script.has_infix q (a +:+ r) = true.
Proof.
  induction a as [|c a IH].
  - destruct q; [by destruct r|done].
  - rewrite app_cons.
    change (Script.has_infix q (String c a))
      with (Py.startswith q (String c a) || Script.has_infix q a).
    change (Script.has_infix q (String c (a +:+ r)))
      with (Py.startswith q (String c (a +:+ r)) || Script.has_infix q (a +:+ r)).
    intros [Hs|Ha]%orb_true_iff.
    + by rewrite <- app_cons, startswith_app.
    + by rewrite IH, orb_true_r.
Qed.

Lemma declares_encoding_first_line s hd tl :
  lines s = hd :: tl → Script.declares_encoding s = false →
  Script.declares_encoding ("#! " +:+ hd) = false.
Proof.
  intros [r ->]%lines_head_prefix Hs.
  change (Script.declares_encoding ("#! " +:+ hd))
    with (Script.declares_encoding hd).
  unfold Script.declares_encoding in *.
  apply orb_false_iff in Hs as [H1 H2]. apply orb_false_iff. split.
  - destruct (Script.has_infix "coding:" hd) eqn:H; [|done].
    by rewrite (has_infix_app _ _ r H) in H1.
  - destruct (Script.has_infix "coding=" hd) eqn:H; [|done].
    by rewrite (has_infix_app _ _ r H) in H2.
Qed.

(** In a usual run the script starts with the interpreter line, followed
    by an empty line. *)
Lemma script_first_lines python3_exec_path ram (commands : list string) :
  hanging python3_exec_path = true → inline ram = true →
  Forall (λ c, inline c = true) commands →
  ∃ hd tl,
    lines python3_exec_path = hd :: tl
    ∧ take 2 (lines (script_contents python3_exec_path ram commands))
      = ["#! " +:+ hd; ""].
Proof.
  intros Hp Hr Hc. rewrite script_lines, template_lines_split by done.
  unfold header_lines.
  rewrite !join_cons_cons, !lines_app_LF, lines_app_inline by done.
  unfold hanging in Hp.
  pose proof (split_on_nonempty "010" python3_exec_path) as Hne.
  fold (lines python3_exec_path) in Hne.
  destruct (lines python3_exec_path) as [|hd tl]; [done|].
  exists hd, tl. split; [done|].
  destruct tl as [|t tl]; [done|].
  simpl in Hp. apply andb_true_iff in Hp as [Ht _].
  rewrite <- !app_assoc, !fmap_app, !fmap_cons.
  change (take 2 (?a :: (?b :: ?l1) ++ ?l2)) with [a; b].
  unfold Textwrap.normalize at 2. by rewrite Ht.
Qed.

Lemma plain_header_unfold python3_exec_path ram :
  plain_header python3_exec_path ram = true →
  hanging python3_exec_path = true ∧ Script.text python3_exec_path = true
  ∧ Script.declares_encoding python3_exec_path = false
  ∧ inline ram = true ∧ Script.text ram = true.
Proof.
  unfold plain_header.
  intros [[[[? ?]%andb_true_iff Hd%negb_true_iff]%andb_true_iff
            ?]%andb_true_iff ?]%andb_true_iff.
  done.
Qed.

(** In a usual run, with commands made of plain characters, Python reads
    from the generated script the dictionary that maps every 1-based
    position to the command at that position. *)
Lemma read_generated_script python3_exec_path ram (commands : list string) :
  plain_header python3_exec_path ram = true →
  Forall (λ c, Script.plain c = true) commands →
  Script.read_commands (script_contents python3_exec_path ram commands)
  = Script.Value (positions_dict commands).
Proof.
  intros (Hp & Hpt & Hpe & Hr & Hrt)%plain_header_unfold Hc.
  assert (Forall (λ c, inline c = true) commands) as Hci.
  { eapply Forall_impl; [done|]. intros c. apply plain_inline. }
  unfold Script.read_commands. rewrite script_text by done.
  fold (lines (script_contents python3_exec_path ram commands)).
  destruct (script_first_lines python3_exec_path ram commands Hp Hr Hci)
    as (hd & tl & Hhd & ->).
  change (existsb Script.declares_encoding ["#! " +:+ hd; ""])
    with (Script.declares_encoding ("#! " +:+ hd) || false).
  rewrite (declares_encoding_first_line _ _ _ Hhd Hpe).
  change (negb true || (false || false)) with false. cbv iota.
  rewrite script_lines, template_lines_split, body_template_lines by done.
  rewrite !fmap_app, processed_before, processed_after.
  rewrite skip_app_all
    by (apply Forall_fmap, Forall_fmap; by apply header_lines_skipped).
  rewrite <- !app_assoc.
  change (Script.skip Script.comment_or_blank
            ([""; ""] ++ Script.docstring_and_imports ++ ?l))
    with (Script.docstring_and_imports ++ l).
  rewrite strip_lines_app. cbv iota.
  change (Script.skip Script.comment_or_blank
            ([""; ""; "# The commands to be executed"; "commands = dict()"]
             ++ ?l))
    with ("commands = dict()" :: l).
  cbv iota. change (String.eqb "commands = dict()" "commands = dict()") with true.
  cbv iota.
  destruct commands as [|c commands].
  - by vm_compute.
  - rewrite processed_entries by done.
    rewrite span_entries_app; [| |done].
    + rewrite assignments_entries.
      * change (Script.skip Script.comment_or_blank
                  ([""; "# Fetch the job id"] ++ Script.run_body_text))
          with Script.run_body_text.
        by rewrite bool_decide_eq_true_2.
      * apply Forall_forall. intros e He. apply elem_of_enumerate in He.
        by apply (proj1 (Forall_forall _ _) Hc).
    + apply Forall_fmap, Forall_forall. by intros e _.
Qed.

End script_reading.

(** ** The generated script *)

Section generated_script.

Lemma directive_in_template python3_exec_path ram (commands : list string) :
  "    #$ -t 1-" +:+ pretty (length commands)
  ∈ lines (script_template python3_exec_path ram commands).
Proof.
  apply elem_of_lines_join.
  - apply elem_of_app. left. unfold header_lines.
    do 24 apply list_elem_of_further. apply list_elem_of_here.
  - by rewrite inline_app, pretty_nat_inline.
Qed.

(** The task-array directive is a line of the script, whatever the
    indentation that [dedent] leaves. *)
Lemma script_declares_task_array python3_exec_path ram (commands : list string) :
  "#$ -t 1-" +:+ pretty (length commands)
  ∈ Textwrap.lstrip <$> lines (script_contents python3_exec_path ram commands).
Proof.
  change ("#$ -t 1-" +:+ pretty (length commands))
    with (Textwrap.lstrip ("    #$ -t 1-" +:+ pretty (length commands))).
  apply dedent_keeps_line; [|done]. apply directive_in_template.
Qed.

(** In a usual run the directive starts its line. *)
Lemma script_task_array_line python3_exec_path ram (commands : list string) :
  hanging python3_exec_path = true → inline ram = true →
  Forall (λ c, inline c = true) commands →
  "#$ -t 1-" +:+ pretty (length commands)
  ∈ lines (script_contents python3_exec_path ram commands).
Proof.
  intros Hp Hr Hc. unfold script_contents. rewrite lines_dedent. simpl.
  rewrite template_margin by done.
  apply list_elem_of_fmap.
  exists ("    #$ -t 1-" +:+ pretty (length commands)). split; [done|].
  apply list_elem_of_fmap.
  exists ("    #$ -t 1-" +:+ pretty (length commands)). split; [done|].
  apply directive_in_template.
Qed.

(** C7: for every list of commands made of printable ASCII characters
    other than the quote and the backslash, with an interpreter path that
    has no text after its first line and a RAM value on a single line, the
    generated script has the line [#$ -t 1-N] with N the number of
    commands, and the dictionary that Python reads from the assignments
    embedded in the script maps every task id from 1 to N to the command at
    that 1-based position, and has no other key. *)
Theorem job_count_invariant python3_exec_path ram (commands : list string) :
  plain_header python3_exec_path ram = true →
  Forall (λ c, Script.plain c = true) commands →
  "#$ -t 1-" +:+ pretty (length commands)
    ∈ lines (script_contents python3_exec_path ram commands)
  ∧ ∃ d : gmap Z string,
      Script.read_commands (script_contents python3_exec_path ram commands)
      = Script.Value d
      ∧ (∀ k : Z,
           d !! k
           = if bool_decide (1 ≤ k)%Z then commands !! Z.to_nat (k - 1) else None)
      ∧ (∀ k : Z, is_Some (d !! k) ↔ (1 ≤ k ≤ Z.of_nat (length commands))%Z).
Proof.
  intros Hh Hc. split.
  - pose proof Hh as (Hp & _ & _ & Hr & _)%plain_header_unfold.
    apply script_task_array_line; [done..|].
    eapply Forall_impl; [done|]. intros c. apply plain_inline.
  - exists (positions_dict commands).
    split; [by apply read_generated_script|].
    split; [apply positions_dict_lookup|apply positions_dict_is_Some].
Qed.

(** C1: for the directory that holds exactly [a_R1_paired.fastq],
    [a_R2_paired.fastq] and [b_trimmed.fastq], listed in any order, with
    index prefix [idx] and output directory [out/], the assembler yields
    exactly the unpaired command and then the paired command of the
    scenario, and the script generated from them declares the task array
    [1-2]. *)
Theorem end_to_end_scenario (listing : list string) python3_exec_path ram :
  listing ≡ₚ ["a_R1_paired.fastq"; "a_R2_paired.fastq"; "b_trimmed.fastq"] →
  search_files (scenario_dir listing)
    = {| paired := [("a_R1_paired.fastq", "a_R2_paired.fastq")];
         unpaired := ["b_trimmed.fastq"] |}
  ∧ Gen.to_list (assemble_commands (search_files (scenario_dir listing))
                   "idx" "out/")
    = ["hisat2 --dta -x idx -U b_trimmed.fastq -S out/b_trimmed.sam";
       "hisat2 --dta -x idx -1 a_R1_paired.fastq -2 a_R2_paired.fastq -S out/a_paired.sam"]
  ∧ "#$ -t 1-2"
    ∈ Textwrap.lstrip <$>
        lines (script_contents python3_exec_path ram
                 (Gen.to_list (assemble_commands
                    (search_files (scenario_dir listing)) "idx" "out/")))
  ∧ (hanging python3_exec_path = true → inline ram = true →
     "#$ -t 1-2"
     ∈ lines (script_contents python3_exec_path ram
                (Gen.to_list (assemble_commands
                   (search_files (scenario_dir listing)) "idx" "out/")))).
Proof.
  intros Hperm. symmetry in Hperm. apply permutations_Permutation in Hperm.
  assert (search_files (scenario_dir listing)
          = {| paired := [("a_R1_paired.fastq", "a_R2_paired.fastq")];
               unpaired := ["b_trimmed.fastq"] |}) as Hfiles.
  { vm_compute in Hperm.
    repeat (apply elem_of_cons in Hperm as [->|Hperm]; [by vm_compute|]).
    by apply not_elem_of_nil in Hperm. }
  rewrite Hfiles. split; [done|].
  assert (Gen.to_list (assemble_commands
            {| paired := [("a_R1_paired.fastq", "a_R2_paired.fastq")];
               unpaired := ["b_trimmed.fastq"] |} "idx" "out/")
          = scenario_commands) as -> by (by vm_compute).
  split; [done|]. split.
  - apply (script_declares_task_array python3_exec_path ram scenario_commands).
  - intros Hp Hr.
    apply (script_task_array_line python3_exec_path ram scenario_commands);
      [done..|].
    by repeat constructor.
Qed.

End generated_script.

Section primitives_examples.

Example split_collapses_whitespace :
  Py.split "  hisat2 --dta   -x idx " = ["hisat2"; "--dta"; "-x"; "idx"].
Proof. reflexivity. Qed.

Example fnmatch_paired :
  Py.fnmatch "*R1_paired*" "a_R1_paired.fastq" = true
  ∧ Py.fnmatch "*R1_paired*" "a_R2_paired.fastq" = false
  ∧ Py.fnmatch "*trimmed.fastq" "b_trimmed.fastq" = true
  ∧ Py.fnmatch "*trimmed.fastq" "b_trimmed.fastq.gz" = false.
Proof. by vm_compute. Qed.

Example re_sub_replaces_every_marker :
  Py.re_sub Py.match_read_marker "_" "s_R1_x_R2_y.fastq" = "s_x_y.fastq".
Proof. reflexivity. Qed.

Example re_sub_only_at_the_end :
  Py.re_sub Py.match_fastq_end "sam" "fastq.fastq" = "fastq.sam"
  ∧ Py.re_sub Py.match_fastq_end "sam" "reads.fastq.gz" = "reads.fastq.gz".
Proof. by vm_compute. Qed.

Example path_normal_form :
  Path.str (Path.parse "out/") = "out"
  ∧ Path.str (Path.parse "./a//b/./c") = "a/b/c"
  ∧ Path.str (Path.parse "") = "."
  ∧ Path.str (Path.div (Path.parse "/data/mapped") "x.sam") = "/data/mapped/x.sam"
  ∧ Path.name (Path.parse "/data/trimmed/s1_R1_paired.fastq") = "s1_R1_paired.fastq".
Proof. by vm_compute. Qed.

Example sorted_by_code_point :
  Py.sorted ["b"; "a"; "B"; "ab"; ""] = [""; "B"; "a"; "ab"; "b"].
Proof. by vm_compute. Qed.

Example uneven_dir_pairs :
  search_files uneven_dir
  = {| paired := [("/data/trimmed/s1_R1_paired.fastq",
                   "/data/trimmed/s1_R2_paired.fastq")];
       unpaired := ["/data/trimmed/s3_trimmed.fastq"] |}.
Proof. by vm_compute. Qed.

Example dedent_removes_common_indent :
  Textwrap.dedent ("    a" +:+ Py.LF +:+ "      b" +:+ Py.LF +:+ "   " +:+ Py.LF
                   +:+ "    c")
  = "a" +:+ Py.LF +:+ "  b" +:+ Py.LF +:+ Py.LF +:+ "c".
Proof. by vm_compute. Qed.

Example literal_ends_at_first_quote :
  Script.parse_assignment "commands[1]='hisat2 -U x' # y'"
  = Script.Value (1%Z, "hisat2 -U x")
  ∧ Script.parse_assignment "commands[2]='hisat2 -x id'x -U f -S out/f'"
    = Script.SyntaxError
  ∧ Script.parse_assignment "commands[3]='hisat2 -U a' + 'b'" = Script.Unknown
  ∧ Script.parse_assignment ("commands[4]='a" +:+ String "092" "x20b'")
    = Script.Unknown
  ∧ Script.parse_assignment "commands[007]='a'" = Script.Unknown
  ∧ Script.parse_assignment "commands[5]='''" = Script.Unknown
  ∧ Script.parse_assignment "commands[6]='hisat2 -U a" = Script.SyntaxError.
Proof. by vm_compute. Qed.

End primitives_examples.

Section scenario_examples.

Lemma end_to_end_scenario_witness :
  search_files (scenario_dir ["b_trimmed.fastq"; "a_R2_paired.fastq";
                              "a_R1_paired.fastq"])
    = {| paired := [("a_R1_paired.fastq", "a_R2_paired.fastq")];
         unpaired := ["b_trimmed.fastq"] |}.
Proof.
  refine (proj1 (end_to_end_scenario
                   ["b_trimmed.fastq"; "a_R2_paired.fastq"; "a_R1_paired.fastq"]
                   ("/usr/bin/python3" +:+ Py.LF) "8" _)).
  symmetry. apply permutations_Permutation. apply (bool_decide_unpack _).
  vm_compute. exact I.
Defined.

Lemma body_skips_existing_output_witness :
  Job.body (scenario_world 1 ["out/b_trimmed.sam"])
           (positions_dict scenario_commands) Job.initial
  = (Job.Ok tt,
     {| Job.trace :=
          [Job.Print "Task 1. Output file already exists: out/b_trimmed.sam"];
        Job.clock_reads := 0 |}).
Proof.
  refine (proj1 (proj1 (body_skips_existing_output
    (scenario_world 1 ["out/b_trimmed.sam"]) (positions_dict scenario_commands)
    1%Z "hisat2 --dta -x idx -U b_trimmed.fastq -S out/b_trimmed.sam"
    "out/b_trimmed.sam" 6 _ _ _ _) _)).
  - reflexivity.
  - vm_compute; reflexivity.
  - vm_compute; reflexivity.
  - vm_compute; reflexivity.
  - vm_compute; reflexivity.
Defined.

(** On a host where the aligner cannot be started, the task whose output
    does not exist prints the start message, calls [subprocess.run] and ends
    with its exception: no finish message is printed. *)
Lemma body_finish_counterexample :
  Job.body (stranded_world 1) (positions_dict scenario_commands) Job.initial
  = (Job.Raise Job.OSError,
     {| Job.trace :=
          [Job.Print
             "Task 1. Executing command @ <MayaDT 0> : hisat2 --dta -x idx -U b_trimmed.fastq -S out/b_trimmed.sam";
           Job.SubprocessRun ["hisat2"; "--dta"; "-x"; "idx"; "-U";
                              "b_trimmed.fastq"; "-S"; "out/b_trimmed.sam"]];
        Job.clock_reads := 1 |}).
Proof. vm_compute. reflexivity. Qed.

Lemma job_count_invariant_witness :
  "#$ -t 1-2"
  ∈ lines (script_contents ("/usr/bin/python3" +:+ Py.LF) "8" scenario_commands).
Proof.
  refine (proj1 (job_count_invariant
                   ("/usr/bin/python3" +:+ Py.LF) "8" scenario_commands _ _)).
  - vm_compute; reflexivity.
  - apply forallb_Forall. vm_compute; reflexivity.
Defined.

(** The file [x';#_trimmed.fastq] gives a command with two quotes; the
    script generated from it is one that Python accepts, and the literal of
    its assignment ends at the first of them: task 1 finds the command cut
    short, not the command at position 1. *)
Lemma job_count_quote_counterexample :
  Gen.to_list (assemble_commands
                 (search_files (scenario_dir ["x';#_trimmed.fastq"])) "idx" "out")
  = ["hisat2 --dta -x idx -U x';#_trimmed.fastq -S out/x';#_trimmed.sam"]
  ∧ Script.read_commands
      (script_contents ("/usr/bin/python3" +:+ Py.LF) "8"
         ["hisat2 --dta -x idx -U x';#_trimmed.fastq -S out/x';#_trimmed.sam"])
    = Script.Value {[ 1%Z := "hisat2 --dta -x idx -U x" ]}.
Proof. split; vm_compute; reflexivity. Qed.

End scenario_examples.

(** * Further properties *)

(** ** Arguments handed to a subprocess *)

Section arguments.

Lemma split_go_tokens acc s :
  Py.ws_free acc = true →
  Forall (λ t, Py.ws_free t = true ∧ t ≠ "") (Py.split_go acc s).
Proof.
  revert acc. induction s as [|c s IH]; intros acc Hacc; simpl.
  - destruct acc; [constructor|]. by repeat constructor.
  - destruct (Py.is_space c) eqn:Hc.
    + apply Forall_app. split; [|by apply IH].
      destruct acc; [constructor|]. by repeat constructor.
    + apply IH. by rewrite ws_free_app, Hacc, ws_free_cons, Hc.
Qed.

Lemma split_tokens s :
  Forall (λ t, Py.ws_free t = true ∧ t ≠ "") (Py.split s).
Proof. by apply split_go_tokens. Qed.

(** X1: [get_output] and [run] hand a list of arguments or a command with
    [shell] set to [subprocess] as it is; a string without [shell] is handed
    over as its list of words, none of which is empty or contains
    whitespace; preparing a command twice changes nothing more. *)
Theorem prepare_arguments (cmd : Main.command) (shell : bool) :
  (∀ args, Main.prepare (Main.Argv args) shell = Main.Argv args)
  ∧ (∀ s, Main.prepare (Main.Str s) true = Main.Str s)
  ∧ (∀ s, ∃ args,
       Main.prepare (Main.Str s) false = Main.Argv args
       ∧ Forall (λ t, Py.ws_free t = true ∧ t ≠ "") args)
  ∧ Main.prepare (Main.prepare cmd shell) shell = Main.prepare cmd shell.
Proof.
  split; [done|]. split; [done|]. split.
  - intros s. exists (Py.split s). split; [done|]. apply split_tokens.
  - destruct cmd as [s|args]; [|done]. by destruct shell.
Qed.

(** X2: whatever the dictionary of commands and the environment, every
    argument that the run body hands to [subprocess.run] is a word that is
    not empty and has no whitespace; so a string with a whitespace character
    in it, such as the path of an input file with a space in its name, is
    never passed to the aligner as one argument. *)
Theorem body_arguments_are_words (w : Job.world) (commands : gmap Z string) :
  Forall (λ ev, ∀ argv, ev = Job.SubprocessRun argv →
                Forall (λ t, Py.ws_free t = true ∧ t ≠ "") argv
                ∧ ∀ f, Py.ws_free f = false → f ∉ argv)
         (Job.trace (Job.body w commands Job.initial).2).
Proof.
  assert (∀ command argv, Job.SubprocessRun (Py.split command)
                          = Job.SubprocessRun argv →
            Forall (λ t, Py.ws_free t = true ∧ t ≠ "") argv
            ∧ ∀ f, Py.ws_free f = false → f ∉ argv) as Hrun.
  { intros command argv [= <-]. split; [apply split_tokens|].
    intros f Hf Hin. pose proof (split_tokens command) as Htok.
    apply (proj1 (Forall_forall _ _) Htok) in Hin as [Hws _]. congruence. }
  unfold Job.body, Job.output_file_of, Job.bind, Job.lift, Job.from_option,
    Job.ret.
  destruct (Job.sge_task_id w) as [task_id|e]; [|by constructor].
  destruct (commands !! task_id) as [command|]; [|by constructor].
  destruct (Py.index "-S" (Py.split command)) as [i|]; [|by constructor].
  destruct (Py.split command !! (i + 1)) as [output_file|]; [|by constructor].
  destruct (Job.path_exists w (Path.parse output_file)); simpl.
  - apply Forall_cons_2; [by intros ? ?|constructor].
  - destruct (Job.run_outcome w (Py.split command)); simpl.
    + apply Forall_cons_2; [by intros ? ?|].
      apply Forall_cons_2; [apply Hrun|].
      apply Forall_cons_2; [by intros ? ?|constructor].
    + apply Forall_cons_2; [by intros ? ?|].
      apply Forall_cons_2; [apply Hrun|constructor].
Qed.

(** X3: for an index prefix and an input file that are not empty and have
    no whitespace, and an output directory without whitespace, the words of
    an unpaired command are exactly the eight arguments of the single-end
    call, and those of a paired command the ten arguments of the paired-end
    call. *)
Theorem command_arguments idx_prefix (output_path : string) :
  Py.ws_free idx_prefix = true → idx_prefix ≠ "" →
  Py.ws_free output_path = true →
  (∀ f, Py.ws_free f = true → f ≠ "" →
     Py.split (unpaired_command idx_prefix (Path.parse output_path) f)
     = ["hisat2"; "--dta"; "-x"; idx_prefix; "-U"; f; "-S";
        output_file (Path.parse output_path) (unpaired_out_filename f)])
  ∧ (∀ p1 p2, Py.ws_free p1 = true → p1 ≠ "" → Py.ws_free p2 = true → p2 ≠ "" →
     Py.split (paired_command idx_prefix (Path.parse output_path) (p1, p2))
     = ["hisat2"; "--dta"; "-x"; idx_prefix; "-1"; p1; "-2"; p2; "-S";
        output_file (Path.parse output_path) (paired_out_filename p1)]).
Proof.
  intros Hi Hi' Ho. split.
  - intros f Hf Hf'. unfold unpaired_command.
    destruct (output_file_clean output_path (unpaired_out_filename f))
      as [HS HS']; [done|by apply unpaired_out_filename_ws_free|].
    rewrite split_unpaired by done.
    by rewrite !flush_nonempty by done.
  - intros p1 p2 H1 H1' H2 H2'. unfold paired_command.
    destruct (output_file_clean output_path (paired_out_filename p1))
      as [HS HS']; [done|by apply paired_out_filename_ws_free|].
    rewrite split_paired by done.
    by rewrite !flush_nonempty by done.
Qed.

Lemma command_arguments_witness :
  Py.split (unpaired_command "idx" (Path.parse "out/") "b_trimmed.fastq")
  = ["hisat2"; "--dta"; "-x"; "idx"; "-U"; "b_trimmed.fastq"; "-S";
     output_file (Path.parse "out/") (unpaired_out_filename "b_trimmed.fastq")].
Proof.
  refine (proj1 (command_arguments "idx" "out/" _ _ _) "b_trimmed.fastq" _ _);
    by vm_compute.
Defined.

Lemma split_go_finds_flag acc a b :
  "-S" ∈ Py.split_go acc (a +:+ " -S " +:+ b).
Proof.
  revert acc. induction a as [|c a IH]; intros acc.
  - rewrite app_nil_l.
    change (Py.split_go acc (" -S " +:+ b))
      with (Py.flush acc ++ "-S" :: Py.split_go "" b).
    apply elem_of_app. right. apply list_elem_of_here.
  - rewrite app_cons. simpl. destruct (Py.is_space c); [|apply IH].
    apply elem_of_app. right. apply IH.
Qed.

Lemma index_is_Some x l : x ∈ l → is_Some (Py.index x l).
Proof.
  induction l as [|y l IH]; [by intros ?%not_elem_of_nil|].
  simpl. destruct (String.eqb_spec y x) as [->|Hne]; [by eexists|].
  intros [->|Hin]%elem_of_cons; [done|].
  destruct (IH Hin) as [i ->]. by eexists.
Qed.

(** X4: the flag [-S] is a word of every command that [assemble_commands]
    yields, whatever the file names, the index prefix and the output
    directory; so the search for the flag in such a command, as the run body
    does it, does not end with [ValueError].  This is about the assembled
    strings: the command that a task reads back from the script is another
    string when the literal does not spell it. *)
Theorem flag_always_found (files : FilePairing) (idx_prefix output_path : string) :
  Forall (λ command,
            is_Some (Py.index "-S" (Py.split command))
            ∧ ∀ st, (Job.output_file_of command st).1 ≠ Job.Raise Job.ValueError)
         (Gen.to_list (assemble_commands files idx_prefix output_path)).
Proof.
  assert (∀ command, "-S" ∈ Py.split command →
            is_Some (Py.index "-S" (Py.split command))
            ∧ ∀ st, (Job.output_file_of command st).1 ≠ Job.Raise Job.ValueError)
    as Hfound.
  { intros command [i Hi]%index_is_Some. split; [by exists i|].
    intros st. unfold Job.output_file_of, Job.bind, Job.from_option, Job.ret,
      Job.lift.
    rewrite Hi. by destruct (Py.split command !! (i + 1)). }
  rewrite assemble_commands_eq. unfold Gen.to_list; simpl.
  apply Forall_app. split; apply Forall_fmap, Forall_forall.
  - intros f _. apply Hfound. unfold unpaired_command, Py.split.
    pose proof (split_go_finds_flag ""
      ("hisat2 --dta -x " +:+ idx_prefix +:+ " -U " +:+ f)
      (output_file (Path.parse output_path) (unpaired_out_filename f))) as H.
    by rewrite !append_assoc in H.
  - intros [p1 p2] _. apply Hfound. unfold paired_command, Py.split.
    pose proof (split_go_finds_flag ""
      ("hisat2 --dta -x " +:+ idx_prefix +:+ " -1 " +:+ p1 +:+ " -2 " +:+ p2)
      (output_file (Path.parse output_path) (paired_out_filename p1))) as H.
    by rewrite !append_assoc in H.
Qed.

End arguments.

(** ** More on file discovery *)

Section discovery_extras.

Implicit Types (dir : Directory) (f : string).

Lemma Sorted_take {A} (R : relation A) (l : list A) n :
  Sorted R l → Sorted R (take n l).
Proof.
  intros Hl. revert n. induction Hl as [|x l Hl IH Hx]; intros [|n]; simpl;
    try constructor; [by apply IH|].
  destruct Hx as [|y l Hxy]; destruct n; by constructor.
Qed.

(** X5: whatever the lengths of the two lists, the first member of every
    pair is a file of the R1 convention and the second a file of the R2
    convention, the first members are in ascending order and so are the
    second members, and when the names of the directory are distinct no file
    is used twice on the same side. *)
Theorem find_paired_sides dir :
  Forall (λ p, p.1 ∈ matching dir "*R1_paired*" ∧ p.2 ∈ matching dir "*R2_paired*")
         (find_paired dir)
  ∧ Sorted String.le (find_paired dir).*1
  ∧ Sorted String.le (find_paired dir).*2
  ∧ (NoDup (entries dir) →
     NoDup (find_paired dir).*1 ∧ NoDup (find_paired dir).*2).
Proof.
  split; [|split; [|split]].
  - apply Forall_forall. intros [p1 p2] Hp. rewrite find_paired_unfold in Hp.
    split; simpl.
    + apply elem_of_zip_l in Hp. by rewrite sorted_Permutation in Hp.
    + apply elem_of_zip_r in Hp. by rewrite sorted_Permutation in Hp.
  - rewrite find_paired_unfold, fst_zip_take. apply Sorted_take, sorted_Sorted.
  - rewrite find_paired_unfold, snd_zip_take. apply Sorted_take, sorted_Sorted.
  - intros Hnd. rewrite find_paired_unfold, fst_zip_take, snd_zip_take.
    split; (eapply sublist_NoDup; [|apply sublist_take]);
      rewrite sorted_Permutation; by apply NoDup_matching.
Qed.

Lemma find_unpaired_eq dir (already_paired : list string) :
  find_unpaired dir already_paired
  = filter (λ f, f ∉ already_paired) (matching dir "*trimmed.fastq").
Proof.
  unfold find_unpaired, matching. rewrite List_filter_stdpp.
  induction (glob dir "*trimmed.fastq") as [|p ps IH]; [done|].
  rewrite fmap_cons, !filter_cons.
  destruct (decide (Path.str p ∉ already_paired)) as [Hp|Hp].
  - rewrite decide_True; [by rewrite fmap_cons, IH|].
    apply bool_decide_eq_true. by rewrite elem_of_list_to_set.
  - rewrite decide_False; [done|].
    rewrite bool_decide_eq_true, elem_of_list_to_set. done.
Qed.

(** X6: every file of the unpaired convention is mapped: it is a member of
    a pair or it is in the unpaired list.  The unpaired list holds files of
    that convention only, in the order in which the directory lists them,
    and without repetition when the names of the directory are distinct. *)
Theorem search_files_covers dir :
  Forall (λ f, f ∈ unpaired (search_files dir)
               ∨ f ∈ chain_from_iterable (paired (search_files dir)))
         (matching dir "*trimmed.fastq")
  ∧ unpaired (search_files dir) `sublist_of` matching dir "*trimmed.fastq"
  ∧ (NoDup (entries dir) → NoDup (unpaired (search_files dir))).
Proof.
  simpl. rewrite find_unpaired_eq. split; [|split].
  - apply Forall_forall. intros f Hf.
    destruct (decide (f ∈ chain_from_iterable (find_paired dir))); [by right|].
    left. by apply list_elem_of_filter.
  - apply sublist_filter.
  - intros Hnd. by apply NoDup_filter, NoDup_matching.
Qed.

Lemma matching_Permutation dir1 dir2 pattern :
  dir_path dir1 = dir_path dir2 → entries dir1 ≡ₚ entries dir2 →
  matching dir1 pattern ≡ₚ matching dir2 pattern.
Proof. intros Hp He. by rewrite !matching_eq, Hp, He. Qed.

Lemma sorted_Permutation_eq l1 l2 : l1 ≡ₚ l2 → Py.sorted l1 = Py.sorted l2.
Proof.
  intros H. apply sorted_unique; [apply sorted_Sorted|].
  by rewrite sorted_Permutation.
Qed.

(** X7: the pairs do not depend on the order in which the operating system
    lists the directory, but the unpaired list does: for two listings of the
    same entries the pairs are equal, and the unpaired lists hold the same
    files, possibly in another order. *)
Theorem search_files_listing_order dir1 dir2 :
  dir_path dir1 = dir_path dir2 → entries dir1 ≡ₚ entries dir2 →
  paired (search_files dir1) = paired (search_files dir2)
  ∧ unpaired (search_files dir1) ≡ₚ unpaired (search_files dir2).
Proof.
  intros Hp He.
  assert (find_paired dir1 = find_paired dir2) as Hpairs.
  { rewrite !find_paired_unfold.
    by rewrite (sorted_Permutation_eq _ _
                  (matching_Permutation dir1 dir2 "*R1_paired*" Hp He)),
               (sorted_Permutation_eq _ _
                  (matching_Permutation dir1 dir2 "*R2_paired*" Hp He)). }
  split; [done|]. simpl. rewrite !find_unpaired_eq, Hpairs.
  by rewrite (matching_Permutation dir1 dir2 "*trimmed.fastq" Hp He).
Qed.

Lemma search_files_listing_order_witness :
  unpaired (search_files (scenario_dir ["x_trimmed.fastq"; "b_trimmed.fastq"]))
  ≡ₚ unpaired (search_files (scenario_dir ["b_trimmed.fastq"; "x_trimmed.fastq"]))
  ∧ unpaired (search_files (scenario_dir ["x_trimmed.fastq"; "b_trimmed.fastq"]))
    ≠ unpaired (search_files (scenario_dir ["b_trimmed.fastq"; "x_trimmed.fastq"])).
Proof.
  split.
  - refine (proj2 (search_files_listing_order
                     (scenario_dir ["x_trimmed.fastq"; "b_trimmed.fastq"])
                     (scenario_dir ["b_trimmed.fastq"; "x_trimmed.fastq"]) _ _)).
    + reflexivity.
    + apply Permutation_swap.
  - vm_compute. discriminate.
Defined.

End discovery_extras.

(** ** Names of the output files *)

Section output_names.

Lemma length_app_str (a b : string) :
  String.length (a +:+ b) = String.length a + String.length b.
Proof. induction a as [|c a IH]; [done|]. rewrite app_cons. simpl. by rewrite IH. Qed.

Lemma app_inv_tail_str (a b t : string) : a +:+ t = b +:+ t → a = b.
Proof.
  revert b. induction a as [|x a IH]; intros [|y b]; try done.
  - rewrite app_nil_l. intros H. apply (f_equal String.length) in H.
    rewrite length_app_str in H. simpl in H. lia.
  - rewrite app_nil_l. intros H. apply (f_equal String.length) in H.
    rewrite length_app_str in H. simpl in H. lia.
  - rewrite !app_cons. intros [= -> H]. f_equal. by apply IH.
Qed.

Lemma split_on_app_sep sep a b :
  Py.split_on sep (a +:+ String sep b) = Py.split_on sep a ++ Py.split_on sep b.
Proof.
  induction a as [|c a IH].
  - rewrite app_nil_l. simpl. by rewrite Ascii.eqb_refl.
  - rewrite app_cons. simpl. destruct (Ascii.eqb c sep); [by rewrite IH|].
    rewrite IH. pose proof (split_on_nonempty sep a) as Hne.
    by destruct (Py.split_on sep a).
Qed.

Lemma split_on_no_sep sep n :
  Py.forallb_str (λ c, negb (Ascii.eqb c sep)) n = true → Py.split_on sep n = [n].
Proof.
  induction n as [|c n IH]; [done|]. simpl.
  intros [Hc Hn]%andb_true_iff. apply negb_true_iff in Hc.
  by rewrite Hc, IH.
Qed.

Lemma dir_prefix_ends ps :
  dir_prefix ps = "" ∨ ∃ y, dir_prefix ps = y +:+ "/".
Proof.
  induction ps as [|p ps IH]; [by left|]. right. simpl.
  destruct IH as [->|[y ->]].
  - by exists p.
  - exists (p +:+ "/" +:+ y). by rewrite !append_assoc.
Qed.

Lemma str_child_prefix_ends p :
  rooted p = true →
  Path.root p +:+ dir_prefix (Path.parts p) = ""
  ∨ ∃ y, Path.root p +:+ dir_prefix (Path.parts p) = y +:+ "/".
Proof.
  unfold rooted. intros Hr.
  destruct (dir_prefix_ends (Path.parts p)) as [->|[y ->]].
  - rewrite app_nil_r.
    apply orb_true_iff in Hr as [Hr|Hr]; [apply orb_true_iff in Hr as [Hr|Hr]|];
      apply String.eqb_eq in Hr as ->; [by left|right..].
    + by exists "".
    + by exists "/".
  - right. exists (Path.root p +:+ y). by rewrite append_assoc.
Qed.

Lemma file_name_component n : file_name n = true → Path.is_component n = true.
Proof. unfold file_name. by intros [? ?]%andb_true_iff. Qed.

Lemma file_name_no_slash n :
  file_name n = true → Py.forallb_str (λ c, negb (Ascii.eqb c "/")) n = true.
Proof. unfold file_name. by intros [? ?]%andb_true_iff. Qed.

(** The name of the path of a directory entry is the entry. *)
Lemma name_of_child p n :
  rooted p = true → file_name n = true →
  Path.name (Path.parse (Path.str (Path.child p n))) = n.
Proof.
  intros Hp Hn. rewrite str_child, <- append_assoc.
  unfold Path.name, Path.parse; simpl.
  assert (∃ front, Py.split_on "/"
            ((Path.root p +:+ dir_prefix (Path.parts p)) +:+ n) = front ++ [n])
    as [front ->].
  { destruct (str_child_prefix_ends p Hp) as [->|[y ->]].
    - exists []. rewrite app_nil_l. by apply split_on_no_sep, file_name_no_slash.
    - exists (Py.split_on "/" y). rewrite append_assoc.
      change ("/" +:+ n) with (String "/" n).
      rewrite split_on_app_sep. f_equal.
      by apply split_on_no_sep, file_name_no_slash. }
  rewrite List.filter_app. simpl. rewrite (file_name_component n Hn).
  apply List.last_last.
Qed.

(** Joining a file name to a path appends it as a component. *)
Lemma div_file_name (p : Path.t) n :
  file_name n = true → Path.div p n = Path.child p n.
Proof.
  intros Hn. unfold Path.div, Path.child, Path.parse; simpl.
  rewrite (split_on_no_sep "/" n) by by apply file_name_no_slash.
  simpl. rewrite (file_name_component n Hn).
  assert (Path.parse_root n = "") as ->; [|done].
  unfold Path.parse_root. apply file_name_no_slash in Hn.
  destruct n as [|c n]; [done|].
  change (negb (Ascii.eqb c "/")
          && Py.forallb_str (λ c, negb (Ascii.eqb c "/")) n = true) in Hn.
  apply andb_true_iff in Hn as [Hc _]. apply negb_true_iff in Hc.
  rewrite Ascii.eqb_sym in Hc.
  change (Py.startswith "///" (String c n))
    with (Ascii.eqb "/" c && Py.startswith "//" n).
  change (Py.startswith "//" (String c n))
    with (Ascii.eqb "/" c && Py.startswith "/" n).
  change (Py.startswith "/" (String c n))
    with (Ascii.eqb "/" c && Py.startswith "" n).
  by rewrite Hc.
Qed.

Lemma match_fastq_end_longer c stem :
  Py.match_fastq_end (String c (stem +:+ "fastq")) = None.
Proof.
  unfold Py.match_fastq_end.
  assert (String c (stem +:+ "fastq") ≠ "fastq") as H1.
  { intros H. apply (f_equal String.length) in H. simpl in H.
    rewrite length_app_str in H. simpl in H. lia. }
  assert (String c (stem +:+ "fastq") ≠ "fastq" +:+ Py.LF) as H2.
  { intros H. pose proof (f_equal String.length H) as Hlen. simpl in Hlen.
    rewrite length_app_str in Hlen. simpl in Hlen.
    destruct stem; [|simpl in Hlen; lia]. by injection H. }
  apply String.eqb_neq in H1, H2. by rewrite H1, H2.
Qed.

(** The extension is replaced at the end of the name, and only there. *)
Lemma re_sub_fastq stem :
  Py.re_sub Py.match_fastq_end "sam" (stem +:+ "fastq") = stem +:+ "sam".
Proof.
  unfold Py.re_sub. induction stem as [|c stem IH]; [done|].
  rewrite !app_cons.
  change (Py.sub_go Py.match_fastq_end "sam" 0 (String c (stem +:+ "fastq")))
    with (match Py.match_fastq_end (String c (stem +:+ "fastq")) with
          | Some (S k) => "sam" +:+ Py.sub_go Py.match_fastq_end "sam" k (stem +:+ "fastq")
          | _ => String c (Py.sub_go Py.match_fastq_end "sam" 0 (stem +:+ "fastq"))
          end).
  by rewrite match_fastq_end_longer, IH.
Qed.

Lemma fnmatch_literal pat n :
  Py.forallb_str (λ c, negb (Ascii.eqb c "*") && negb (Ascii.eqb c "?")) pat = true →
  Py.fnmatch pat n = String.eqb pat n.
Proof.
  revert n. induction pat as [|p pat IH]; intros n Hpat; [by destruct n|].
  simpl in Hpat. apply andb_true_iff in Hpat as [Hp Hpat].
  apply andb_true_iff in Hp as [Hstar Hq]. apply negb_true_iff in Hstar, Hq.
  simpl. rewrite Hstar, Hq. destruct n as [|c n]; [done|].
  by rewrite IH.
Qed.

Lemma fnmatch_star lit n :
  Py.fnmatch (String "*" lit) n
  = Py.fnmatch lit n
    || match n with
       | EmptyString => false
       | String _ n' => Py.fnmatch (String "*" lit) n'
       end.
Proof. by destruct n. Qed.

Lemma fnmatch_suffix lit n :
  Py.forallb_str (λ c, negb (Ascii.eqb c "*") && negb (Ascii.eqb c "?")) lit = true →
  Py.fnmatch (String "*" lit) n = true → ∃ stem, n = stem +:+ lit.
Proof.
  intros Hlit. induction n as [|c n IH]; rewrite fnmatch_star, fnmatch_literal by done.
  - rewrite orb_false_r. intros ->%String.eqb_eq. by exists "".
  - intros [->%String.eqb_eq|H]%orb_true_iff; [by exists ""|].
    destruct (IH H) as [stem ->]. by exists (String c stem).
Qed.

Lemma no_slash_app a b : no_slash (a +:+ b) = no_slash a && no_slash b.
Proof.
  unfold no_slash. induction a as [|c a IH]; [done|].
  rewrite app_cons. simpl. by rewrite IH, andb_assoc.
Qed.

Lemma is_component_long s :
  2 ≤ String.length s → Path.is_component s = true.
Proof.
  destruct s as [|c [|d s]]; simpl; [lia..|]. intros _.
  unfold Path.is_component.
  change (String.eqb (String c (String d s)) "") with false.
  change (String.eqb (String c (String d s)) ".")
    with (Ascii.eqb c "." && false).
  by rewrite andb_false_r.
Qed.

Lemma file_name_sam stem :
  file_name (stem +:+ "trimmed.fastq") = true →
  file_name (stem +:+ "trimmed.sam") = true.
Proof.
  unfold file_name. rewrite !no_slash_app.
  intros [_ [Hs _]%andb_true_iff]%andb_true_iff. rewrite Hs.
  apply andb_true_iff. split; [|done]. apply is_component_long.
  rewrite length_app_str. simpl. lia.
Qed.

(** The shape of an unpaired file that [search_files] finds, of the name of
    its output and of the path of its output. *)
Lemma unpaired_file_stem dir (output_path : Path.t) f :
  rooted (dir_path dir) = true →
  Forall (λ n, file_name n = true) (entries dir) →
  f ∈ unpaired (search_files dir) →
  ∃ stem,
    f = Path.str (Path.child (dir_path dir) (stem +:+ "trimmed.fastq"))
    ∧ unpaired_out_filename f = stem +:+ "trimmed.sam"
    ∧ output_file output_path (unpaired_out_filename f)
      = Path.str (Path.child output_path (stem +:+ "trimmed.sam")).
Proof.
  intros Hroot Hnames Hf. simpl in Hf.
  apply elem_of_find_unpaired in Hf as [Hf _].
  apply elem_of_matching in Hf as (n & -> & Hn & Hm).
  apply fnmatch_suffix in Hm as [stem ->]; [|done].
  apply (proj1 (Forall_forall _ _) Hnames) in Hn.
  exists stem. split; [done|].
  assert (unpaired_out_filename
            (Path.str (Path.child (dir_path dir) (stem +:+ "trimmed.fastq")))
          = stem +:+ "trimmed.sam") as Hout.
  { unfold unpaired_out_filename. rewrite name_of_child by done.
    change (stem +:+ "trimmed.fastq") with (stem +:+ "trimmed." +:+ "fastq").
    rewrite <- append_assoc, re_sub_fastq. by rewrite append_assoc. }
  split; [done|]. rewrite Hout. unfold output_file.
  by rewrite div_file_name by by apply file_name_sam.
Qed.

(** X8: an unpaired file that [search_files] finds in a directory has a
    name that ends in [trimmed.fastq]; whatever the directory it lies in, the
    name of its output file is that name with the final [fastq] replaced by
    [sam], and its output path is that name appended to the output
    directory. *)
Theorem unpaired_output_name dir (output_path : Path.t) f :
  rooted (dir_path dir) = true →
  Forall (λ n, file_name n = true) (entries dir) →
  f ∈ unpaired (search_files dir) →
  ∃ stem,
    f = Path.str (Path.child (dir_path dir) (stem +:+ "trimmed.fastq"))
    ∧ unpaired_out_filename f = stem +:+ "trimmed.sam"
    ∧ output_file output_path (unpaired_out_filename f)
      = Path.str (Path.child output_path (stem +:+ "trimmed.sam")).
Proof. apply unpaired_file_stem. Qed.

Lemma unpaired_output_name_witness :
  ∃ stem,
    "/data/trimmed/s3_trimmed.fastq"
    = Path.str (Path.child (dir_path uneven_dir) (stem +:+ "trimmed.fastq"))
    ∧ unpaired_out_filename "/data/trimmed/s3_trimmed.fastq"
      = stem +:+ "trimmed.sam"
    ∧ output_file (Path.parse "/data/mapped")
        (unpaired_out_filename "/data/trimmed/s3_trimmed.fastq")
      = Path.str (Path.child (Path.parse "/data/mapped") (stem +:+ "trimmed.sam")).
Proof.
  apply (unpaired_output_name uneven_dir (Path.parse "/data/mapped")
           "/data/trimmed/s3_trimmed.fastq").
  - vm_compute; reflexivity.
  - apply forallb_Forall. vm_compute; reflexivity.
  - apply (bool_decide_unpack _). vm_compute. exact I.
Defined.

(** X9: two unpaired files of a directory never share an output file: when
    the names of the directory are distinct, the output paths of the
    unpaired jobs are pairwise distinct. *)
Theorem unpaired_outputs_distinct dir (output_path : Path.t) :
  rooted (dir_path dir) = true →
  Forall (λ n, file_name n = true) (entries dir) →
  NoDup (entries dir) →
  NoDup ((λ f, output_file output_path (unpaired_out_filename f))
           <$> unpaired (search_files dir)).
Proof.
  intros Hroot Hnames Hnd. apply NoDup_fmap_2_strong.
  - intros f1 f2 Hf1 Hf2 Heq.
    destruct (unpaired_file_stem dir output_path f1 Hroot Hnames Hf1)
      as (s1 & -> & _ & Ho1).
    destruct (unpaired_file_stem dir output_path f2 Hroot Hnames Hf2)
      as (s2 & -> & _ & Ho2).
    rewrite Ho1, Ho2 in Heq.
    apply (inj (λ n, Path.str (Path.child output_path n))) in Heq.
    change (s1 +:+ "trimmed.sam") with (s1 +:+ "trimmed." +:+ "sam") in Heq.
    change (s2 +:+ "trimmed.sam") with (s2 +:+ "trimmed." +:+ "sam") in Heq.
    rewrite <- !append_assoc in Heq. apply app_inv_tail_str in Heq.
    change (s1 +:+ "trimmed.fastq") with (s1 +:+ "trimmed." +:+ "fastq").
    change (s2 +:+ "trimmed.fastq") with (s2 +:+ "trimmed." +:+ "fastq").
    by rewrite <- !append_assoc, Heq.
  - simpl. rewrite find_unpaired_eq. by apply NoDup_filter, NoDup_matching.
Qed.

Lemma unpaired_outputs_distinct_witness :
  NoDup ((λ f, output_file (Path.parse "/data/mapped") (unpaired_out_filename f))
           <$> unpaired (search_files uneven_dir)).
Proof.
  apply (unpaired_outputs_distinct uneven_dir (Path.parse "/data/mapped")).
  - vm_compute; reflexivity.
  - apply forallb_Forall. vm_compute; reflexivity.
  - apply (bool_decide_unpack _). vm_compute. exact I.
Defined.

End output_names.

(** ** More on the generated script *)

Section script_extras.

Lemma elem_of_lines_join_elem d e l :
  e ∈ l → d ∈ lines e → d ∈ lines (Py.join Py.LF l).
Proof.
  intros He Hd. induction l as [|x l IH]; [by apply not_elem_of_nil in He|].
  destruct l as [|y l].
  - by apply list_elem_of_singleton in He as ->.
  - rewrite join_cons_cons, lines_app_LF. apply elem_of_app.
    apply elem_of_cons in He as [->|He]; [by left|right; by apply IH].
Qed.

Lemma entry_in_template python3_exec_path ram (commands : list string) e :
  Forall (λ c, inline c = true) commands → e ∈ enumerate commands →
  "    " +:+ command_entry e
  ∈ lines (script_template python3_exec_path ram commands).
Proof.
  intros Hc He.
  apply elem_of_lines_join_elem with (e := "    " +:+ commands_str commands).
  - apply elem_of_app. right. unfold body_lines.
    do 19 apply list_elem_of_further. apply list_elem_of_here.
  - rewrite lines_indented_commands;
      [by apply (list_elem_of_fmap_2 (λ e, "    " +:+ command_entry e))|done|].
    intros ->. by apply not_elem_of_nil in He.
Qed.

(** X10: when the interpreter path has no text after its first line and
    the RAM value and the commands are single lines, the generated script has,
    for every command, the line that assigns it to its 1-based position,
    starting in the first column. *)
Theorem script_embeds_commands python3_exec_path ram (commands : list string)
    (i : nat) (s : string) :
  hanging python3_exec_path = true → inline ram = true →
  Forall (λ c, inline c = true) commands →
  commands !! i = Some s →
  "commands[" +:+ pretty (i + 1) +:+ "]='" +:+ s +:+ "'"
  ∈ lines (script_contents python3_exec_path ram commands).
Proof.
  intros Hp Hr Hc Hi. unfold script_contents. rewrite lines_dedent. simpl.
  rewrite template_margin by done.
  assert ((i, s) ∈ enumerate commands) as He.
  { apply list_elem_of_lookup. exists i. by rewrite enumerate_lookup, Hi. }
  apply list_elem_of_fmap. exists ("    " +:+ command_entry (i, s)).
  split; [done|].
  apply list_elem_of_fmap. exists ("    " +:+ command_entry (i, s)).
  split; [done|]. by apply entry_in_template.
Qed.

Lemma script_embeds_commands_witness :
  "commands[2]='hisat2 --dta -x idx -1 a_R1_paired.fastq -2 a_R2_paired.fastq -S out/a_paired.sam'"
  ∈ lines (script_contents ("/usr/bin/python3" +:+ Py.LF) "8" scenario_commands).
Proof.
  change "commands[2]='hisat2 --dta -x idx -1 a_R1_paired.fastq -2 a_R2_paired.fastq -S out/a_paired.sam'"
    with ("commands[" +:+ pretty (1 + 1) +:+ "]='"
          +:+ "hisat2 --dta -x idx -1 a_R1_paired.fastq -2 a_R2_paired.fastq -S out/a_paired.sam"
          +:+ "'").
  apply (script_embeds_commands ("/usr/bin/python3" +:+ Py.LF) "8"
           scenario_commands 1).
  - vm_compute; reflexivity.
  - vm_compute; reflexivity.
  - apply forallb_Forall. vm_compute; reflexivity.
  - reflexivity.
Defined.

(** X11: whatever the dictionary, a task whose id cannot be read ends with
    the exception of the reading, and a task whose id is not a key of the
    dictionary ends with [KeyError]; in both cases before anything is
    printed or run.  In a usual run with N commands of plain characters the
    dictionary that Python reads from the generated script has no key
    outside 1, ..., N, so this is the end of every task with such an id. *)
Theorem body_unknown_task (w : Job.world) (st : Job.state) :
  (∀ (commands : gmap Z string) e, Job.sge_task_id w = Job.Raise e →
     Job.body w commands st = (Job.Raise e, st))
  ∧ (∀ (commands : gmap Z string) k, Job.sge_task_id w = Job.Ok k →
       commands !! k = None →
       Job.body w commands st = (Job.Raise Job.KeyError, st))
  ∧ (∀ python3_exec_path ram (commands : list string) k,
       plain_header python3_exec_path ram = true →
       Forall (λ c, Script.plain c = true) commands →
       Job.sge_task_id w = Job.Ok k →
       ¬ (1 ≤ k ≤ Z.of_nat (length commands))%Z →
       ∃ d, Script.read_commands (script_contents python3_exec_path ram commands)
            = Script.Value d
            ∧ Job.body w d st = (Job.Raise Job.KeyError, st)).
Proof.
  assert (∀ (commands : gmap Z string) k, Job.sge_task_id w = Job.Ok k →
            commands !! k = None →
            Job.body w commands st = (Job.Raise Job.KeyError, st)) as Hkey.
  { intros commands k Hk Hnone.
    unfold Job.body, Job.bind at 1 2, Job.lift, Job.from_option.
    by rewrite Hk, Hnone. }
  split; [|split; [done|]].
  - intros commands e He. unfold Job.body, Job.bind, Job.lift. by rewrite He.
  - intros p ram commands k Hh Hc Hk Hrange.
    exists (positions_dict commands).
    split; [by apply read_generated_script|].
    apply (Hkey _ k Hk). apply eq_None_not_Some.
    by rewrite positions_dict_is_Some.
Qed.

Lemma body_unknown_task_witness :
  ∃ d, Script.read_commands
         (script_contents ("/usr/bin/python3" +:+ Py.LF) "8" scenario_commands)
       = Script.Value d
       ∧ Job.body (scenario_world 3 []) d Job.initial
         = (Job.Raise Job.KeyError, Job.initial).
Proof.
  refine (proj2 (proj2 (body_unknown_task (scenario_world 3 []) Job.initial))
            ("/usr/bin/python3" +:+ Py.LF) "8" scenario_commands 3%Z
            _ _ _ _).
  - vm_compute; reflexivity.
  - apply forallb_Forall. vm_compute; reflexivity.
  - reflexivity.
  - vm_compute. intros [_ H]. by apply H.
Defined.

Lemma assembled_output_tokens (files : FilePairing)
    (idx_prefix output_path : string) :
  Py.ws_free idx_prefix = true →
  Py.ws_free output_path = true →
  Forall (λ f, Py.ws_free f = true) (input_paths files) →
  "-S" ∉ idx_prefix :: input_paths files →
  Forall2 (λ command S, ∀ st, Job.output_file_of command st = (Job.Ok S, st))
    (Gen.to_list (assemble_commands files idx_prefix output_path))
    (output_paths files output_path).
Proof.
  intros Hi Ho Hws HS.
  apply not_elem_of_cons in HS as [Hi' HS].
  unfold input_paths in *.
  apply Forall_app in Hws as [Hu Hp]. apply not_elem_of_app in HS as [HSu HSp].
  rewrite assemble_commands_eq. unfold output_paths, Gen.to_list; simpl.
  apply Forall2_app; apply Forall2_fmap, Forall_Forall2_diag, Forall_forall.
  - intros f Hf st. apply unpaired_output_token; try done.
    + by apply (proj1 (Forall_forall _ _) Hu).
    + intros Heq. by rewrite Heq in Hf.
  - intros [p1 p2] Hin st.
    assert (p1 ∈ chain_from_iterable (paired files)) as Hin1
      by (apply elem_of_chain_from_iterable; exists (p1, p2); auto).
    assert (p2 ∈ chain_from_iterable (paired files)) as Hin2
      by (apply elem_of_chain_from_iterable; exists (p1, p2); auto).
    apply paired_output_token; try done.
    + by apply (proj1 (Forall_forall _ _) Hp).
    + intros Heq. simpl in Heq. by rewrite Heq in Hin1.
    + by apply (proj1 (Forall_forall _ _) Hp).
    + intros Heq. simpl in Heq. by rewrite Heq in Hin2.
Qed.

Lemma output_file_of_inv command S st :
  Job.output_file_of command st = (Job.Ok S, st) →
  ∃ i, Py.index "-S" (Py.split command) = Some i
       ∧ Py.split command !! (i + 1) = Some S.
Proof.
  unfold Job.output_file_of, Job.bind, Job.from_option, Job.ret, Job.lift.
  destruct (Py.index "-S" (Py.split command)) as [i|]; [|done].
  destruct (Py.split command !! (i + 1)) as [S'|] eqn:HS; [|done].
  intros [= ->]. by exists i.
Qed.

(** X12: in the array generated in a usual run from assembled commands of
    plain characters, with inputs as in C10 (no whitespace, no bare [-S]),
    the task with id k, for k from 1 to N, deals with the job at position k:
    in the dictionary read from the script it finds that job's command; it
    tests the output path computed for that job, and either prints the skip
    message for that path, or prints the start message and runs the words of
    that job's command, followed by the finish message when the program
    could be started and by the exception of the start otherwise. *)
Theorem task_runs_its_job (w : Job.world) (files : FilePairing)
    (idx_prefix output_path python3_exec_path ram : string) (k : Z) :
  Py.ws_free idx_prefix = true →
  Py.ws_free output_path = true →
  Forall (λ f, Py.ws_free f = true) (input_paths files) →
  "-S" ∉ idx_prefix :: input_paths files →
  plain_header python3_exec_path ram = true →
  Forall (λ c, Script.plain c = true)
         (Gen.to_list (assemble_commands files idx_prefix output_path)) →
  Job.sge_task_id w = Job.Ok k →
  (1 ≤ k ≤ Z.of_nat (length (Gen.to_list
                        (assemble_commands files idx_prefix output_path))))%Z →
  ∃ d command S,
    Script.read_commands
      (script_contents python3_exec_path ram
         (Gen.to_list (assemble_commands files idx_prefix output_path)))
    = Script.Value d
    ∧ Gen.to_list (assemble_commands files idx_prefix output_path)
        !! Z.to_nat (k - 1) = Some command
    ∧ d !! k = Some command
    ∧ output_paths files output_path !! Z.to_nat (k - 1) = Some S
    ∧ Job.body w d Job.initial
      = if Job.path_exists w (Path.parse S) then
          (Job.Ok tt,
           {| Job.trace :=
                [Job.Print (Py.join " "
                   ["Task " +:+ pretty k +:+ ". Output file already exists:"; S])];
              Job.clock_reads := 0 |})
        else
          match Job.run_outcome w (Py.split command) with
          | Job.Ok _ =>
              (Job.Ok tt,
               {| Job.trace :=
                    [Job.Print (Py.join " "
                       ["Task " +:+ pretty k +:+ ". Executing command @";
                        Job.maya_now w 0; ":"; command]);
                     Job.SubprocessRun (Py.split command);
                     Job.Print (Py.join " "
                       ["Task " +:+ pretty k +:+ ". Finished execution @";
                        Job.maya_now w 1])];
                  Job.clock_reads := 2 |})
          | Job.Raise e =>
              (Job.Raise e,
               {| Job.trace :=
                    [Job.Print (Py.join " "
                       ["Task " +:+ pretty k +:+ ". Executing command @";
                        Job.maya_now w 0; ":"; command]);
                     Job.SubprocessRun (Py.split command)];
                  Job.clock_reads := 1 |})
          end.
Proof.
  intros Hi Ho Hws HS Hh Hplain Hk Hrange.
  set (commands := Gen.to_list (assemble_commands files idx_prefix output_path))
    in *.
  assert (positions_dict commands !! k = commands !! Z.to_nat (k - 1)) as Hdict.
  { rewrite positions_dict_lookup. by rewrite bool_decide_eq_true_2 by lia. }
  destruct (commands !! Z.to_nat (k - 1)) as [command|] eqn:Hcmd.
  2: { apply lookup_ge_None in Hcmd. lia. }
  pose proof (assembled_output_tokens files idx_prefix output_path Hi Ho Hws HS)
    as Htok.
  destruct (Forall2_lookup_l _ _ _ _ _ Htok Hcmd) as (S & HS' & Hout).
  exists (positions_dict commands), command, S.
  split; [by apply read_generated_script|].
  split; [done|]. split; [done|]. split; [done|].
  destruct (output_file_of_inv command S Job.initial (Hout Job.initial))
    as (i & Hidx & Htoken).
  rewrite (body_unfold w (positions_dict commands) k command S i Hk Hdict
             Hidx Htoken).
  destruct (Job.path_exists w (Path.parse S)); [done|].
  unfold Job.bind, Job.now, Job.print, Job.subprocess_run. simpl.
  by destruct (Job.run_outcome w (Py.split command)).
Qed.

Lemma task_runs_its_job_witness :
  ∃ d command S,
    Script.read_commands
      (script_contents ("/usr/bin/python3" +:+ Py.LF) "8"
         (Gen.to_list (assemble_commands
            (search_files (scenario_dir ["a_R1_paired.fastq";
                                         "a_R2_paired.fastq";
                                         "b_trimmed.fastq"])) "idx" "out/")))
    = Script.Value d
    ∧ d !! 2%Z = Some command
    ∧ output_paths
        (search_files (scenario_dir ["a_R1_paired.fastq"; "a_R2_paired.fastq";
                                     "b_trimmed.fastq"])) "out/"
        !! Z.to_nat (2 - 1) = Some S
    ∧ Job.path_exists (scenario_world 2 ["out/b_trimmed.sam"]) (Path.parse S)
      = false.
Proof.
  destruct (task_runs_its_job (scenario_world 2 ["out/b_trimmed.sam"])
              (search_files (scenario_dir ["a_R1_paired.fastq";
                                           "a_R2_paired.fastq";
                                           "b_trimmed.fastq"]))
              "idx" "out/" ("/usr/bin/python3" +:+ Py.LF) "8" 2)
    as (d & command & S & Hd & _ & Hc & HS & _).
  - vm_compute; reflexivity.
  - vm_compute; reflexivity.
  - apply (bool_decide_unpack _). vm_compute. exact I.
  - apply (bool_decide_unpack _). vm_compute. exact I.
  - vm_compute; reflexivity.
  - apply forallb_Forall. vm_compute; reflexivity.
  - reflexivity.
  - vm_compute. split; discriminate.
  - exists d, command, S. split; [exact Hd|]. split; [exact Hc|].
    split; [exact HS|].
    vm_compute in HS. injection HS as <-. vm_compute; reflexivity.
Defined.

End script_extras.

(** ** The main procedure *)

Section main_procedure.

Variables (w : Main.world) (input_dir output_dir idx_prefix ram : option string).

Lemma assemble_commands_path_eq files idx (output_path : Path.t) :
  assemble_commands_path files idx output_path
  = (tt, (unpaired_command idx output_path <$> unpaired files)
         ++ (paired_command idx output_path <$> paired files)).
Proof. unfold assemble_commands_path. by rewrite !for_yield. Qed.

Lemma main_unfold :
  Main.main w input_dir output_dir idx_prefix ram
  = Main.bind (Main.print (main_banner w input_dir output_dir idx_prefix ram))
      (λ _, Main.bind (Main.get_output w (Main.Str "which python3") false)
        (λ python3_exec_path,
           Main.bind
             (Main.write w Main.script_name
                (script_contents python3_exec_path (Main.or_default ram "8")
                   (main_commands w input_dir output_dir idx_prefix)))
             (λ _, Main.bind
                (Main.run w (Main.Str ("qsub " +:+ Main.script_name)) false)
                (λ _, Main.ret tt)))).
Proof. by destruct idx_prefix as [[|c s]|]. Qed.

Lemma main_commands_length :
  length (main_commands w input_dir output_dir idx_prefix)
  = length (unpaired (main_files w input_dir))
    + (length (matching (Main.directory w (main_input_dir w input_dir))
                 "*R1_paired*")
       `min` length (matching (Main.directory w (main_input_dir w input_dir))
                       "*R2_paired*")).
Proof.
  unfold main_commands. rewrite assemble_commands_path_eq.
  unfold Gen.to_list; simpl. rewrite length_app, !length_fmap.
  f_equal. rewrite find_paired_unfold.
  by rewrite length_zip_with, !length_sorted.
Qed.

(** X13: [qsub] is called only after [which python3] has answered and the
    script has been written.  When [which python3] raises, [main] ends with
    that exception after the banner and the call of [which]: no file is
    touched and nothing is submitted.  When the writing of the script
    raises, [main] ends with that exception and nothing is submitted; the
    script file is then left created or emptied if it could be opened, and
    untouched otherwise. *)
Theorem main_aborts_before_submission :
  (∀ e,
     Main.check_output w (Main.Argv ["which"; "python3"]) false = Main.Raise e →
     Main.main w input_dir output_dir idx_prefix ram []
     = (Main.Raise e,
        [Main.Print (main_banner w input_dir output_dir idx_prefix ram);
         Main.CheckOutput (Main.Argv ["which"; "python3"])]))
  ∧ (∀ python3_exec_path e,
       Main.check_output w (Main.Argv ["which"; "python3"]) false
         = Main.Ok python3_exec_path →
       Main.write_file w Main.script_name
         (script_contents python3_exec_path (Main.or_default ram "8")
            (main_commands w input_dir output_dir idx_prefix)) = Main.Raise e →
       Main.main w input_dir output_dir idx_prefix ram []
       = (Main.Raise e,
          [Main.Print (main_banner w input_dir output_dir idx_prefix ram);
           Main.CheckOutput (Main.Argv ["which"; "python3"])]
          ++ if Main.opened_before_failure w Main.script_name
             then [Main.TruncateFile Main.script_name] else []))
  ∧ (∀ cmd,
       Main.SubprocessRun cmd
         ∈ (Main.main w input_dir output_dir idx_prefix ram []).2 →
       cmd = Main.Argv ["qsub"; Main.script_name]
       ∧ ∃ python3_exec_path,
           Main.check_output w (Main.Argv ["which"; "python3"]) false
             = Main.Ok python3_exec_path
           ∧ Main.write_file w Main.script_name
               (script_contents python3_exec_path (Main.or_default ram "8")
                  (main_commands w input_dir output_dir idx_prefix))
             = Main.Ok tt).
Proof.
  assert (∀ e,
     Main.check_output w (Main.Argv ["which"; "python3"]) false = Main.Raise e →
     Main.main w input_dir output_dir idx_prefix ram []
     = (Main.Raise e,
        [Main.Print (main_banner w input_dir output_dir idx_prefix ram);
         Main.CheckOutput (Main.Argv ["which"; "python3"])])) as Hwhich.
  { intros e He. rewrite main_unfold.
    unfold Main.bind at 1 2, Main.print, Main.get_output.
    change (Main.prepare (Main.Str "which python3") false)
      with (Main.Argv ["which"; "python3"]).
    by rewrite He. }
  assert (∀ python3_exec_path e,
       Main.check_output w (Main.Argv ["which"; "python3"]) false
         = Main.Ok python3_exec_path →
       Main.write_file w Main.script_name
         (script_contents python3_exec_path (Main.or_default ram "8")
            (main_commands w input_dir output_dir idx_prefix)) = Main.Raise e →
       Main.main w input_dir output_dir idx_prefix ram []
       = (Main.Raise e,
          [Main.Print (main_banner w input_dir output_dir idx_prefix ram);
           Main.CheckOutput (Main.Argv ["which"; "python3"])]
          ++ if Main.opened_before_failure w Main.script_name
             then [Main.TruncateFile Main.script_name] else [])) as Hwrite.
  { intros py e Hpy He. rewrite main_unfold.
    unfold Main.bind at 1 2 3, Main.print, Main.get_output, Main.write.
    change (Main.prepare (Main.Str "which python3") false)
      with (Main.Argv ["which"; "python3"]).
    rewrite Hpy, He.
    by destruct (Main.opened_before_failure w Main.script_name). }
  split; [done|]. split; [done|].
  intros cmd.
  destruct (Main.check_output w (Main.Argv ["which"; "python3"]) false)
    as [py|e] eqn:Hpy.
  2: { rewrite (Hwhich e eq_refl). simpl. intros Hin.
       repeat (apply elem_of_cons in Hin as [Hin|Hin]; [done|]).
       by apply not_elem_of_nil in Hin. }
  destruct (Main.write_file w Main.script_name
              (script_contents py (Main.or_default ram "8")
                 (main_commands w input_dir output_dir idx_prefix)))
    as [[]|e] eqn:Hw.
  2: { rewrite (Hwrite py e eq_refl Hw). simpl. intros Hin.
       destruct (Main.opened_before_failure w Main.script_name);
         repeat (apply elem_of_cons in Hin as [Hin|Hin]; [done|]);
         by apply not_elem_of_nil in Hin. }
  rewrite main_unfold.
  unfold Main.bind, Main.print, Main.get_output, Main.write, Main.run, Main.ret.
  change (Main.prepare (Main.Str "which python3") false)
    with (Main.Argv ["which"; "python3"]).
  change (Main.prepare (Main.Str ("qsub " +:+ Main.script_name)) false)
    with (Main.Argv ["qsub"; Main.script_name]).
  rewrite Hpy, Hw. intros Hin. split; [|by exists py].
  destruct (Main.subprocess_run w (Main.Argv ["qsub"; Main.script_name]) false);
    simpl in Hin;
    repeat (apply elem_of_cons in Hin as [Hin|Hin]; [congruence|]);
    by apply not_elem_of_nil in Hin.
Qed.

(** X14: when [which python3] answers and the script can be written,
    [main] writes the script to the file of the fixed name and then submits
    that very file with [qsub]; it ends normally whatever the return code of
    [qsub].  The task array that the written script declares has as many
    tasks as there are unpaired files found plus the smaller of the numbers of
    R1 and R2 files. *)
Theorem main_submits_written_script (python3_exec_path : string) (status : Z) :
  Main.check_output w (Main.Argv ["which"; "python3"]) false
    = Main.Ok python3_exec_path →
  Main.write_file w Main.script_name
    (script_contents python3_exec_path (Main.or_default ram "8")
       (main_commands w input_dir output_dir idx_prefix)) = Main.Ok tt →
  Main.subprocess_run w (Main.Argv ["qsub"; Main.script_name]) false
    = Main.Ok status →
  Main.main w input_dir output_dir idx_prefix ram []
  = (Main.Ok tt,
     [Main.Print (main_banner w input_dir output_dir idx_prefix ram);
      Main.CheckOutput (Main.Argv ["which"; "python3"]);
      Main.WriteFile Main.script_name
        (script_contents python3_exec_path (Main.or_default ram "8")
           (main_commands w input_dir output_dir idx_prefix));
      Main.SubprocessRun (Main.Argv ["qsub"; Main.script_name])])
  ∧ "#$ -t 1-"
      +:+ pretty (length (unpaired (main_files w input_dir))
                  + (length (matching
                               (Main.directory w (main_input_dir w input_dir))
                               "*R1_paired*")
                     `min` length (matching
                                     (Main.directory w (main_input_dir w input_dir))
                                     "*R2_paired*")))
    ∈ Textwrap.lstrip <$>
        lines (script_contents python3_exec_path (Main.or_default ram "8")
                 (main_commands w input_dir output_dir idx_prefix)).
Proof.
  intros Hpy Hwrite Hrun. split.
  - rewrite main_unfold.
    unfold Main.bind, Main.print, Main.get_output, Main.write, Main.run, Main.ret.
    change (Main.prepare (Main.Str "which python3") false)
      with (Main.Argv ["which"; "python3"]).
    change (Main.prepare (Main.Str ("qsub " +:+ Main.script_name)) false)
      with (Main.Argv ["qsub"; Main.script_name]).
    by rewrite Hpy, Hwrite, Hrun.
  - rewrite <- main_commands_length. apply script_declares_task_array.
Qed.

(** X15: when the input directory has no entry, or does not exist, [main]
    assembles no command and still writes and submits a script, whose task
    array is [1-0]. *)
Theorem main_without_input (python3_exec_path : string) (status : Z) :
  Main.listdir w (main_input_dir w input_dir) = [] →
  Main.check_output w (Main.Argv ["which"; "python3"]) false
    = Main.Ok python3_exec_path →
  hanging python3_exec_path = true → inline (Main.or_default ram "8") = true →
  Main.write_file w Main.script_name
    (script_contents python3_exec_path (Main.or_default ram "8") []) = Main.Ok tt →
  Main.subprocess_run w (Main.Argv ["qsub"; Main.script_name]) false
    = Main.Ok status →
  main_commands w input_dir output_dir idx_prefix = []
  ∧ Main.main w input_dir output_dir idx_prefix ram []
    = (Main.Ok tt,
       [Main.Print (main_banner w input_dir output_dir idx_prefix ram);
        Main.CheckOutput (Main.Argv ["which"; "python3"]);
        Main.WriteFile Main.script_name
          (script_contents python3_exec_path (Main.or_default ram "8") []);
        Main.SubprocessRun (Main.Argv ["qsub"; Main.script_name])])
  ∧ "#$ -t 1-0"
    ∈ lines (script_contents python3_exec_path (Main.or_default ram "8") []).
Proof.
  intros Hempty Hpy Hhang Hram Hwrite Hrun.
  assert (main_commands w input_dir output_dir idx_prefix = []) as Hnone.
  { unfold main_commands, main_files, Main.directory, search_files,
      find_paired, find_unpaired, glob. simpl. by rewrite Hempty. }
  split; [done|]. split.
  - rewrite main_unfold, Hnone.
    unfold Main.bind, Main.print, Main.get_output, Main.write, Main.run, Main.ret.
    change (Main.prepare (Main.Str "which python3") false)
      with (Main.Argv ["which"; "python3"]).
    change (Main.prepare (Main.Str ("qsub " +:+ Main.script_name)) false)
      with (Main.Argv ["qsub"; Main.script_name]).
    by rewrite Hpy, Hwrite, Hrun.
  - by apply (script_task_array_line python3_exec_path
                (Main.or_default ram "8") []).
Qed.

End main_procedure.

Section main_examples.

Lemma main_aborts_before_submission_witness :
  Main.main (scenario_main_world ["b_trimmed.fastq"]
               (Main.Raise Main.CalledProcessError) 0)
    None None None None []
  = (Main.Raise Main.CalledProcessError,
     [Main.Print (main_banner (scenario_main_world ["b_trimmed.fastq"]
                                 (Main.Raise Main.CalledProcessError) 0)
                    None None None None);
      Main.CheckOutput (Main.Argv ["which"; "python3"])]).
Proof.
  apply (proj1 (main_aborts_before_submission
                  (scenario_main_world ["b_trimmed.fastq"]
                     (Main.Raise Main.CalledProcessError) 0)
                  None None None None) Main.CalledProcessError).
  reflexivity.
Defined.

Example main_on_a_full_disk :
  Main.main (full_disk_main_world ["b_trimmed.fastq"]) None None None None []
  = (Main.Raise Main.OSError,
     [Main.Print (main_banner (full_disk_main_world ["b_trimmed.fastq"])
                    None None None None);
      Main.CheckOutput (Main.Argv ["which"; "python3"]);
      Main.TruncateFile Main.script_name]).
Proof. by vm_compute. Qed.

Lemma main_submits_written_script_witness :
  "#$ -t 1-1"
  ∈ Textwrap.lstrip <$>
      lines (script_contents ("/usr/bin/python3" +:+ Py.LF) "8"
               (main_commands
                  (scenario_main_world ["b_trimmed.fastq"; "a_R1_paired.fastq"]
                     (Main.Ok ("/usr/bin/python3" +:+ Py.LF)) 1)
                  None None None)).
Proof.
  refine (proj2 (main_submits_written_script
                   (scenario_main_world ["b_trimmed.fastq"; "a_R1_paired.fastq"]
                      (Main.Ok ("/usr/bin/python3" +:+ Py.LF)) 1)
                   None None None None ("/usr/bin/python3" +:+ Py.LF) 1 _ _ _));
    reflexivity.
Defined.

Lemma main_without_input_witness :
  "#$ -t 1-0"
  ∈ lines (script_contents ("/usr/bin/python3" +:+ Py.LF) "8" []).
Proof.
  refine (proj2 (proj2 (main_without_input
                   (scenario_main_world []
                      (Main.Ok ("/usr/bin/python3" +:+ Py.LF)) 0)
                   None None None None ("/usr/bin/python3" +:+ Py.LF) 0
                   _ _ _ _ _ _)));
    try reflexivity; vm_compute; reflexivity.
Defined.

End main_examples.

(** ** Names of the outputs of pairs *)

Section paired_names.

Lemma marker_local c a Y :
  Py.match_read_marker (String c (a +:+ "_" +:+ Y))
  = Py.match_read_marker (String c (a +:+ "_")).
Proof.
  unfold Py.match_read_marker.
  destruct a as [|d [|e [|f a]]]; rewrite ?app_cons, ?app_nil_l;
    change ("_" +:+ Y) with (String "_" Y);
    destruct Y as [|y0 [|y1 Y]]; cbn [Py.startswith];
    repeat match goal with
           | |- context [Ascii.eqb ?x ?y] => is_var y; destruct (Ascii.eqb x y)
           end; reflexivity.
Qed.

Lemma found_cons match_at c s :
  found match_at (String c s) = false →
  (match_at (String c s) = None ∨ match_at (String c s) = Some 0)
  ∧ found match_at s = false.
Proof.
  simpl. destruct (match_at (String c s)) as [[|k]|]; [|done|]; auto.
Qed.

Lemma sub_marker_before a rest :
  found Py.match_read_marker (a +:+ "_") = false →
  Py.sub_go Py.match_read_marker "_" 0 (a +:+ "_" +:+ rest)
  = a +:+ Py.sub_go Py.match_read_marker "_" 0 ("_" +:+ rest).
Proof.
  induction a as [|c a IH]; [done|]. intros H.
  change (found Py.match_read_marker (String c (a +:+ "_")) = false) in H.
  apply found_cons in H as [Hm Hf].
  rewrite <- (marker_local c a rest) in Hm.
  change (Py.sub_go Py.match_read_marker "_" 0 (String c (a +:+ "_" +:+ rest))
          = String c (a +:+ Py.sub_go Py.match_read_marker "_" 0 ("_" +:+ rest))).
  change (Py.sub_go Py.match_read_marker "_" 0 (String c (a +:+ "_" +:+ rest)))
    with (match Py.match_read_marker (String c (a +:+ "_" +:+ rest)) with
          | Some (S k) =>
              "_" +:+ Py.sub_go Py.match_read_marker "_" k (a +:+ "_" +:+ rest)
          | _ => String c (Py.sub_go Py.match_read_marker "_" 0
                             (a +:+ "_" +:+ rest))
          end).
  destruct Hm as [-> | ->]; by rewrite IH.
Qed.

(** X16: when the name of the first file of a pair has the read marker
    [_R1_] or [_R2_] once, followed by a text that ends in [fastq], at a
    place that no earlier marker overlaps, the name of the output file is the
    name with the marker collapsed to one underscore and the final [fastq]
    replaced by [sam], whatever the directory of the file. *)
Theorem paired_output_name (p : Path.t) (a b marker : string) :
  marker ∈ ["_R1_"; "_R2_"] →
  found Py.match_read_marker (a +:+ "_") = false →
  found Py.match_read_marker (b +:+ "fastq") = false →
  rooted p = true → file_name (a +:+ marker +:+ b +:+ "fastq") = true →
  Py.re_sub Py.match_read_marker "_" (a +:+ marker +:+ b +:+ "fastq")
    = a +:+ "_" +:+ b +:+ "fastq"
  ∧ paired_out_filename
      (Path.str (Path.child p (a +:+ marker +:+ b +:+ "fastq")))
    = a +:+ "_" +:+ b +:+ "sam".
Proof.
  intros Hmarker Ha Hb Hp Hn.
  assert (Py.re_sub Py.match_read_marker "_" (a +:+ marker +:+ b +:+ "fastq")
          = a +:+ "_" +:+ b +:+ "fastq") as Hsub.
  { unfold Py.re_sub.
    apply elem_of_cons in Hmarker as [->|Hmarker];
      [|apply list_elem_of_singleton in Hmarker as ->].
    - change ("_R1_" +:+ b +:+ "fastq") with ("_" +:+ "R1_" +:+ b +:+ "fastq").
      rewrite sub_marker_before by done.
      change (Py.sub_go Py.match_read_marker "_" 0
                ("_" +:+ "R1_" +:+ b +:+ "fastq"))
        with ("_" +:+ Py.sub_go Py.match_read_marker "_" 0 (b +:+ "fastq")).
      by rewrite sub_go_not_found.
    - change ("_R2_" +:+ b +:+ "fastq") with ("_" +:+ "R2_" +:+ b +:+ "fastq").
      rewrite sub_marker_before by done.
      change (Py.sub_go Py.match_read_marker "_" 0
                ("_" +:+ "R2_" +:+ b +:+ "fastq"))
        with ("_" +:+ Py.sub_go Py.match_read_marker "_" 0 (b +:+ "fastq")).
      by rewrite sub_go_not_found. }
  split; [done|].
  unfold paired_out_filename. rewrite name_of_child, Hsub by done.
  rewrite <- !append_assoc, re_sub_fastq. by rewrite !append_assoc.
Qed.

Lemma paired_output_name_witness :
  paired_out_filename
    (Path.str (Path.child (Path.parse "/data/trimmed")
                 ("mm3R_0412" +:+ "_R1_" +:+ "001_paired." +:+ "fastq")))
  = "mm3R_0412" +:+ "_" +:+ "001_paired." +:+ "sam".
Proof.
  refine (proj2 (paired_output_name (Path.parse "/data/trimmed")
                   "mm3R_0412" "001_paired." "_R1_" _ _ _ _ _)).
  - apply (bool_decide_unpack _). vm_compute. exact I.
  - vm_compute; reflexivity.
  - vm_compute; reflexivity.
  - vm_compute; reflexivity.
  - vm_compute; reflexivity.
Defined.

End paired_names.
